(** * bigip_device_license: licence negotiation and convergence

    A shallow embedding of [lib/ansible/modules/network/f5/bigip_device_license.py]:
    the response parser ([LicenseXmlParser]), the request parameters
    ([ModuleParameters]) and the controller ([ModuleManager]) that talks to
    the appliance and to the activation service.

    Python objects that are mutated in place ([self.want]) and every call
    that leaves the process (the appliance's REST gateway, the HTTPS POST to
    the activation service, [time.sleep]) are threaded through an explicit
    world; exceptions are values of [exn]. *)

From Stdlib Require Import String Ascii List ZArith Lia Bool Arith PeanoNat.
Import ListNotations.
Open Scope string_scope.

Set Implicit Arguments.
Set Warnings "-register-all".

(** ** Python values *)

(** The double quote and the line feed, which a string literal here does not hold. *)
Definition dq : string := String (ascii_of_nat 34) EmptyString.
Definition nl : string := String (ascii_of_nat 10) EmptyString.

(** [needle in hay] on [str]. *)
Fixpoint py_in (needle hay : string) : bool :=
  String.prefix needle hay
  || match hay with
     | EmptyString => false
     | String _ rest => py_in needle rest
     end.

(** [x or None] and [x or ''] on a value that is [None] or a [str]. *)
Definition or_None (x : option string) : option string :=
  match x with
  | Some EmptyString => None
  | _ => x
  end.

Definition or_empty (x : option string) : string :=
  match x with
  | Some s => s
  | None => EmptyString
  end.

(** [str(x)], as [str.format] renders a field that is [None] or a [str]. *)
Definition py_str (x : option string) : string :=
  match x with
  | Some s => s
  | None => "None"
  end.

(** Truth value of a value that is [None] or a [str]. *)
Definition truthy (x : option string) : bool :=
  match x with
  | Some (String _ _) => true
  | _ => false
  end.

(** [a == b] on values that are [None] or a [str]. *)
Definition py_eq (a b : option string) : bool :=
  match a, b with
  | Some x, Some y => String.eqb x y
  | None, None => true
  | _, _ => false
  end.

(** ** Exceptions and outcomes *)

Inductive exn : Type :=
| F5ModuleError (msg : option string)
| UtilError (msg : string)
| iControlUnexpectedHTTPError (msg : string)
| TypeError
| ValueError
| OtherError (msg : string).

(** [str(ex)]. *)
Definition str_exn (e : exn) : string :=
  match e with
  | F5ModuleError m => py_str m
  | UtilError m => m
  | iControlUnexpectedHTTPError m => m
  | TypeError => "TypeError"
  | ValueError => "ValueError"
  | OtherError m => m
  end.

(** What a call comes to: a value, an exception, or nothing yet when the
    observation budget of an unbounded loop has run out. *)
Inductive result (A : Type) : Type :=
| Ok (a : A)
| Raise (e : exn)
| Pending.

Arguments Raise {A} e.
Arguments Pending {A}.

Definition rbind {A B : Type} (r : result A) (k : A -> result B) : result B :=
  match r with
  | Ok a => k a
  | Raise e => Raise e
  | Pending => Pending
  end.

(** ** The response document

    [xml.etree.ElementTree.Element]: tag, attribute dictionary, text and
    children, in document order. *)
Inductive Element : Type :=
| Elem (tag : string) (attrib : list (string * string))
       (text : option string) (children : list Element).

Definition tag (e : Element) : string :=
  match e with Elem t _ _ _ => t end.
Definition attrib (e : Element) : list (string * string) :=
  match e with Elem _ a _ _ => a end.
Definition text (e : Element) : option string :=
  match e with Elem _ _ x _ => x end.
Definition children (e : Element) : list Element :=
  match e with Elem _ _ _ c => c end.

(** [dict.get(key, None)] on an attribute dictionary. *)
Fixpoint attrib_get (key : string) (a : list (string * string)) : option string :=
  match a with
  | [] => None
  | (k, v) :: rest => if String.eqb k key then Some v else attrib_get key rest
  end.

(** [Element.iter()]: the element and everything below it, in document order. *)
Fixpoint iter (e : Element) : list Element :=
  match e with
  | Elem _ _ _ cs => e :: flat_map iter cs
  end.

(** [Element.findall('.//' + name, namespaces)]: the elements below the root
    that carry the tag. The namespace map only declares the [xsi] prefix,
    which none of the paths uses. *)
Definition findall_descendants (name : string) (root : Element) : list Element :=
  filter (fun e => String.eqb (tag e) name) (flat_map iter (children root)).

(** The body of a response as [xml.etree.ElementTree.fromstring] reads it:
    a [ParseError] with its message, or the root element. *)
Inductive Payload : Type :=
| NotWellFormed (err : string)
| WellFormed (root : Element).

Module LicenseXmlParser.

(** [LicenseXmlParser.json()]'s dictionary. *)
Record Json : Type := {
  json_eula : option string;
  json_license : option string;
  json_state : option string;
  json_fault_number : option Z;
  json_fault_text : option string
}.

(** The dictionary [get_fault] builds; [None] is a key that is not there. *)
Record Fault : Type := {
  faultNumber : option (option Z);
  faultText : option (option string)
}.

Definition set_faultNumber (v : option Z) (f : Fault) : Fault :=
  {| faultNumber := Some v; faultText := faultText f |}.
Definition set_faultText (v : option string) (f : Fault) : Fault :=
  {| faultNumber := faultNumber f; faultText := Some v |}.

Definition xsi_nil : string := "{http://www.w3.org/2001/XMLSchema-instance}nil".

(** [__init__]: a payload that is not well formed raises [F5ModuleError]. *)
Definition init (content : Payload) : result Element :=
  match content with
  | NotWellFormed err =>
      Raise (F5ModuleError
               (Some ("Provided XML payload is invalid. Received '" ++ err ++ "'.")))
  | WellFormed root => Ok root
  end.

Section Properties.

(** The builtin [int] on a [str]: its value, or [None] for [ValueError]. *)
Variable int : string -> option Z.

(** [int(elem.text)]: [TypeError] on [None]. *)
Definition int_text (t : option string) : result Z :=
  match t with
  | None => Raise TypeError
  | Some s =>
      match int s with
      | Some z => Ok z
      | None => Raise ValueError
      end
  end.

Variable content : Element.

(** [eula] and [license]: the text of the first such node; the
    [IndexError] of [root[0]] is caught and gives [None]. *)
Definition eula : option string :=
  match findall_descendants "eula" content with
  | e :: _ => text e
  | [] => None
  end.

Definition license : option string :=
  match findall_descendants "license" content with
  | e :: _ => text e
  | [] => None
  end.

(** [find_element]: the first [multiRef] one of whose attribute values
    contains [value]. *)
Definition find_element (value : string) : option Element :=
  find (fun elem => existsb (fun kv => py_in value (snd kv)) (attrib elem))
       (findall_descendants "multiRef" content).

Definition state : option string :=
  match find_element "TransactionState" with
  | Some elem => text elem
  | None => None
  end.

(** One turn of [for elem in root] in [get_fault]. *)
Definition fault_step (acc : result Fault) (elem : Element) : result Fault :=
  rbind acc (fun f =>
    if String.eqb (tag elem) "faultNumber" then
      rbind (int_text (text elem)) (fun n => Ok (set_faultNumber (Some n) f))
    else if String.eqb (tag elem) "faultText" then
      match attrib_get xsi_nil (attrib elem) with
      | Some "true" => Ok (set_faultText None f)
      | _ => Ok (set_faultText (text elem) f)
      end
    else Ok f).

Definition get_fault : result Fault :=
  let empty := {| faultNumber := None; faultText := None |} in
  match find_element "LicensingFault" with
  | None => Ok empty
  | Some root =>
      rbind (fold_left fault_step (children root) (Ok empty)) (fun f =>
        match faultNumber f with
        | None => Ok (set_faultNumber None f)
        | Some _ => Ok f
        end)
  end.

(** [fault.get(key, None)]. *)
Definition fault_number : result (option Z) :=
  rbind get_fault (fun f =>
    Ok (match faultNumber f with Some v => v | None => None end)).

Definition fault_text : result (option string) :=
  rbind get_fault (fun f =>
    Ok (match faultText f with Some v => v | None => None end)).

Definition json : result Json :=
  let e := or_None eula in
  let l := or_None license in
  let s := or_None state in
  rbind fault_number (fun n =>
  rbind fault_text (fun t =>
    Ok {| json_eula := e; json_license := l; json_state := s;
          json_fault_number := n; json_fault_text := or_None t |})).

End Properties.

End LicenseXmlParser.

(** ** Request parameters *)

(** A [str.format] template: literal text, positional and keyword fields. *)
Inductive piece : Type :=
| Lit (s : string)
| Arg (i : nat)
| Kw (key : string).

(** Literals are written with a backquote where the source has a double quote. *)
Fixpoint unq (s : string) : string :=
  match s with
  | EmptyString => EmptyString
  | String c rest =>
      String (if Ascii.eqb c "`"%char then ascii_of_nat 34 else c) (unq rest)
  end.

Definition lines (l : list string) : string := unq (String.concat nl l).

(** [dict.get(key)] on a dictionary of strings; a key that is missing gives
    the empty string (every field of the envelope is supplied, see
    [envelope_fields_supplied]). *)
Fixpoint kwarg (key : string) (kwargs : list (string * string)) : string :=
  match kwargs with
  | [] => EmptyString
  | (k, v) :: rest => if String.eqb k key then v else kwarg key rest
  end.

Definition render (args : list string) (kwargs : list (string * string))
  (p : piece) : string :=
  match p with
  | Lit s => s
  | Arg i => nth i args EmptyString
  | Kw key => kwarg key kwargs
  end.

(** [template.format( *args, **kwargs)]. *)
Definition format (template : list piece) (args : list string)
  (kwargs : list (string * string)) : string :=
  String.concat EmptyString (map (render args kwargs) template).

Module ModuleParameters.

(** Modelled from the spec: the attribute store of [AnsibleF5Parameters],
    which is not in this file. [self.want] holds the module's arguments and
    what [update] stores during a run ([eula], [dossier]); all but
    [accept_eula] are optional strings, and one that was never given reads
    as [None]. *)
Record t : Type := {
  license_key : option string;
  license_server : option string;
  accept_eula : bool;
  state : option string;
  eula : option string;
  email : option string;
  first_name : option string;
  last_name : option string;
  company : option string;
  phone : option string;
  job_title : option string;
  address : option string;
  city : option string;
  postal_code : option string;
  country : option string;
  dossier : option string
}.

(** Modelled from the spec: [AnsibleF5Parameters.update], which is not in
    this file. [update({'eula': v})] captures the returned EULA text into the
    request's EULA field and leaves every other field as it is. *)
Definition update_eula (v : option string) (p : t) : t :=
  {| license_key := license_key p; license_server := license_server p;
     accept_eula := accept_eula p; state := state p; eula := v;
     email := email p; first_name := first_name p; last_name := last_name p;
     company := company p; phone := phone p; job_title := job_title p;
     address := address p; city := city p; postal_code := postal_code p;
     country := country p; dossier := dossier p |}.

(** Modelled from the spec: [AnsibleF5Parameters.update], which is not in
    this file. [update({'dossier': v})] stores the dossier for the
    negotiation. *)
Definition update_dossier (v : option string) (p : t) : t :=
  {| license_key := license_key p; license_server := license_server p;
     accept_eula := accept_eula p; state := state p; eula := eula p;
     email := email p; first_name := first_name p; last_name := last_name p;
     company := company p; phone := phone p; job_title := job_title p;
     address := address p; city := city p; postal_code := postal_code p;
     country := country p; dossier := v |}.

Definition license_options (p : t) : list (string * string) :=
  [ ("eula", or_empty (eula p));
    ("email", or_empty (email p));
    ("first_name", or_empty (first_name p));
    ("last_name", or_empty (last_name p));
    ("company", or_empty (company p));
    ("phone", or_empty (phone p));
    ("job_title", or_empty (job_title p));
    ("address", or_empty (address p));
    ("city", or_empty (city p));
    ("state", or_empty (state p));
    ("postal_code", or_empty (postal_code p));
    ("country", or_empty (country p)) ].

Definition license_url (p : t) : string :=
  "https://" ++ py_str (license_server p)
  ++ "/license/services/urn:com.f5.license.v5b.ActivationService".

Definition envelope_template : list piece := Eval cbv in
  [ Lit (lines ["<?xml version=`1.0` encoding=`UTF-8`?>";
    "        <SOAP-ENV:Envelope xmlns:ns3=`http://www.w3.org/2001/XMLSchema`";
    "                           xmlns:SOAP-ENC=`http://schemas.xmlsoap.org/soap/encoding/`";
    "                           xmlns:ns0=`http://schemas.xmlsoap.org/soap/encoding/`";
    "                           xmlns:ns1=`https://"]);
  Arg 0;
  Lit (lines ["/license/services/urn:com.f5.license.v5b.ActivationService`";
    "                           xmlns:ns2=`http://schemas.xmlsoap.org/soap/envelope/`";
    "                           xmlns:xsi=`http://www.w3.org/2001/XMLSchema-instance`";
    "                           xmlns:SOAP-ENV=`http://schemas.xmlsoap.org/soap/envelope/`";
    "                           SOAP-ENV:encodingStyle=`http://schemas.xmlsoap.org/soap/encoding/`>";
    "          <SOAP-ENV:Header/>";
    "          <ns2:Body>";
    "            <ns1:getLicense>";
    "              <dossier xsi:type=`ns3:string`>"]);
  Arg 1;
  Lit (lines ["</dossier>";
    "              <eula xsi:type=`ns3:string`>"]);
  Kw "eula";
  Lit (lines ["</eula>";
    "              <email xsi:type=`ns3:string`>"]);
  Kw "email";
  Lit (lines ["</email>";
    "              <firstName xsi:type=`ns3:string`>"]);
  Kw "first_name";
  Lit (lines ["</firstName>";
    "              <lastName xsi:type=`ns3:string`>"]);
  Kw "last_name";
  Lit (lines ["</lastName>";
    "              <companyName xsi:type=`ns3:string`>"]);
  Kw "company";
  Lit (lines ["</companyName>";
    "              <phone xsi:type=`ns3:string`>"]);
  Kw "phone";
  Lit (lines ["</phone>";
    "              <jobTitle xsi:type=`ns3:string`>"]);
  Kw "job_title";
  Lit (lines ["</jobTitle>";
    "              <address xsi:type=`ns3:string`>"]);
  Kw "address";
  Lit (lines ["</address>";
    "              <city xsi:type=`ns3:string`>"]);
  Kw "city";
  Lit (lines ["</city>";
    "              <stateProvince xsi:type=`ns3:string`>"]);
  Kw "state";
  Lit (lines ["</stateProvince>";
    "              <postalCode xsi:type=`ns3:string`>"]);
  Kw "postal_code";
  Lit (lines ["</postalCode>";
    "              <country xsi:type=`ns3:string`>"]);
  Kw "country";
  Lit (lines ["</country>";
    "            </ns1:getLicense>";
    "          </ns2:Body>";
    "        </SOAP-ENV:Envelope>"]) ].

Definition license_envelope (p : t) : string :=
  format envelope_template
         [py_str (license_server p); py_str (dossier p)]
         (license_options p).

End ModuleParameters.

(** ** The world outside the process *)

(** What [exec_cmd] returns: [commandResult] is [None] when the object has
    no such attribute. *)
Record CmdOutput : Type := { commandResult : option string }.

(** What [registration.load()] returns: [registrationKey] is [None] when the
    attribute is missing, [Some None] when it is there and holds [None]. *)
Record Registration : Type := { registrationKey : option (option string) }.

(** The appliance behind [self.client.api]: reading the registration leaves
    it as it is, running a command may change it. *)
Class DeviceGateway (Dev : Type) : Type := {
  gw_registration_load : Dev -> result Registration;
  gw_get_dossier : string -> Dev -> result CmdOutput * Dev;
  gw_bash : string -> Dev -> result CmdOutput * Dev;
  gw_unix_rm : string -> Dev -> result CmdOutput * Dev
}.

(** The activation service behind [iControlRestSession.post]: the URL and the
    body go in, the response body (or an exception) comes out. *)
Class ActivationService (Rem : Type) : Type := {
  svc_post : string -> string -> Rem -> result Payload * Rem
}.

(** Every call that leaves the process, with what it came to. *)
Inductive event : Type :=
| registration_load_ev (r : result Registration)
| get_dossier_ev (utilCmdArgs : string) (r : result CmdOutput)
| bash_ev (utilCmdArgs : string) (r : result CmdOutput)
| unix_rm_ev (utilCmdArgs : string) (r : result CmdOutput)
| post_ev (url data : string) (r : result Payload)
| sleep_ev (seconds : nat).

(** Calls that can change the appliance: file writes and reloads go through
    [bash], removals through [unix_rm]. *)
Definition device_mutating (ev : event) : bool :=
  match ev with
  | bash_ev _ _ | unix_rm_ev _ _ => true
  | _ => false
  end.

Definition is_post (ev : event) : bool :=
  match ev with
  | post_ev _ _ _ => true
  | _ => false
  end.

(** ** Computations: state and exceptions *)

Definition M (W A : Type) : Type := W -> result A * W.

Definition ret {W A : Type} (a : A) : M W A := fun w => (Ok a, w).

Definition bind {W A B : Type} (m : M W A) (k : A -> M W B) : M W B :=
  fun w =>
    match m w with
    | (Ok a, w') => k a w'
    | (Raise e, w') => (Raise e, w')
    | (Pending, w') => (Pending, w')
    end.

Definition raise {W A : Type} (e : exn) : M W A := fun w => (Raise e, w).

Definition pending {W A : Type} : M W A := fun w => (Pending, w).

Definition lift {W A : Type} (r : result A) : M W A := fun w => (r, w).

(** [try: m  except Exception as ex: handler ex]. *)
Definition try_except {W A : Type} (m : M W A) (handler : exn -> M W A) : M W A :=
  fun w =>
    match m w with
    | (Raise e, w') => handler e w'
    | other => other
    end.

Declare Scope monad_scope.
Delimit Scope monad_scope with monad.
Notation "x <- m ;; k" := (bind m (fun x => k))
  (at level 61, m at next level, right associativity) : monad_scope.
Notation "m ;; k" := (bind m (fun _ => k))
  (at level 61, right associativity) : monad_scope.
Open Scope monad_scope.

(** What one turn of a [for] loop asks for. *)
Inductive flow (A : Type) : Type :=
| Continue
| Return (a : A).

Arguments Continue {A}.

(** [re.sub('([...])', r'\\\1', s)] for a class of single characters: each
    character of the class gets a backslash before it. *)
Fixpoint re_sub_escape (class : list ascii) (s : string) : string :=
  match s with
  | EmptyString => EmptyString
  | String c rest =>
      if existsb (Ascii.eqb c) class
      then String "\"%char (String c (re_sub_escape class rest))
      else String c (re_sub_escape class rest)
  end.

(** ** The controller *)

Module ModuleManager.

Import LicenseXmlParser.

Section Manager.

Context {Dev Rem : Type} `{DeviceGateway Dev} `{ActivationService Rem}.

(** The builtin [int] on a [str]. *)
Variable int : string -> option Z.

(** [self.want], [self.module.check_mode], the appliance, the activation
    service, and the calls made so far (oldest first). *)
Record World : Type := {
  want : ModuleParameters.t;
  check_mode : bool;
  device : Dev;
  remote : Rem;
  trace : list event
}.

Definition log (ev : event) (w : World) : World :=
  {| want := want w; check_mode := check_mode w; device := device w;
     remote := remote w; trace := trace w ++ [ev] |}.

Definition with_device (d : Dev) (w : World) : World :=
  {| want := want w; check_mode := check_mode w; device := d;
     remote := remote w; trace := trace w |}.

Definition with_remote (r : Rem) (w : World) : World :=
  {| want := want w; check_mode := check_mode w; device := device w;
     remote := r; trace := trace w |}.

Definition with_want (p : ModuleParameters.t) (w : World) : World :=
  {| want := p; check_mode := check_mode w; device := device w;
     remote := remote w; trace := trace w |}.

Definition get_want : M World ModuleParameters.t := fun w => (Ok (want w), w).

Definition get_check_mode : M World bool := fun w => (Ok (check_mode w), w).

(** [self.want.update(...)]. *)
Definition want_update (f : ModuleParameters.t -> ModuleParameters.t) : M World unit :=
  fun w => (Ok tt, with_want (f (want w)) w).

(** [self.client.api.tm.shared.licensing.registration.load()]. *)
Definition tm_shared_licensing_registration_load : M World Registration :=
  fun w =>
    let r := gw_registration_load (device w) in
    (r, log (registration_load_ev r) w).

(** [self.client.api.tm.util.get_dossier.exec_cmd('run', utilCmdArgs=args)]. *)
Definition tm_util_get_dossier_exec_cmd (args : string) : M World CmdOutput :=
  fun w =>
    let (r, d) := gw_get_dossier args (device w) in
    (r, log (get_dossier_ev args r) (with_device d w)).

(** [self.client.api.tm.util.bash.exec_cmd('run', utilCmdArgs=args)]. *)
Definition tm_util_bash_exec_cmd (args : string) : M World CmdOutput :=
  fun w =>
    let (r, d) := gw_bash args (device w) in
    (r, log (bash_ev args r) (with_device d w)).

(** [self.client.api.tm.util.unix_rm.exec_cmd('run', utilCmdArgs=args)]. *)
Definition tm_util_unix_rm_exec_cmd (args : string) : M World CmdOutput :=
  fun w =>
    let (r, d) := gw_unix_rm args (device w) in
    (r, log (unix_rm_ev args r) (with_device d w)).

(** [mgmt.post(url, data=data)], giving the response's [_content]. *)
Definition mgmt_post (url data : string) : M World Payload :=
  fun w =>
    let (r, s) := svc_post url data (remote w) in
    (r, log (post_ev url data r) (with_remote s w)).

(** [time.sleep(seconds)]. *)
Definition time_sleep (seconds : nat) : M World unit :=
  fun w => (Ok tt, log (sleep_ev seconds) w).

(** [self.escape_patterns]: the class of the dollar sign, the double quote
    and the single quote. *)
Definition escape_patterns : list ascii :=
  ["$"%char; ascii_of_nat 34; "'"%char].

(** [Parameters.returnables] is empty: nothing is recorded. *)
Definition _set_changed_options : M World unit := ret tt.

Definition exists_ : M World bool :=
  resource <- tm_shared_licensing_registration_load ;;
  want <- get_want ;;
  ret (match registrationKey resource with
       | Some key => py_eq key (ModuleParameters.license_key want)
       | None => false
       end).

Definition any_license_exists : M World bool :=
  resource <- tm_shared_licensing_registration_load ;;
  ret (match registrationKey resource with
       | Some (Some _) => true
       | _ => false
       end).

Definition read_dossier_from_device : M World (option string) :=
  want <- get_want ;;
  result <- tm_util_get_dossier_exec_cmd
              ("-b " ++ py_str (ModuleParameters.license_key want)) ;;
  ret (commandResult result).

(** One turn of [for x in range(0, 10)] in [generate_license_from_remote]. *)
Definition attempt : M World (flow Json) :=
  want <- get_want ;;
  posted <- try_except
              (resp <- mgmt_post (ModuleParameters.license_url want)
                                 (ModuleParameters.license_envelope want) ;;
               ret (Some resp))
              (fun ex => ret None) ;;
  match posted with
  | None => ret Continue
  | Some content =>
      parsed <- try_except
                  (result <- lift (rbind (init content) (json int)) ;;
                   ret (Some result))
                  (fun ex =>
                     match ex with
                     | F5ModuleError _ => raise ex
                     | _ => ret None
                     end) ;;
      match parsed with
      | None => ret Continue
      | Some result =>
          if py_eq (json_state result) (Some "EULA_REQUIRED") then
            want_update (ModuleParameters.update_eula (json_eula result)) ;;
            ret Continue
          else if py_eq (json_state result) (Some "LICENSE_RETURNED") then
            ret (Return result)
          else if py_eq (json_state result) (Some "EMAIL_REQUIRED") then
            raise (F5ModuleError (Some "Email must be provided"))
          else if py_eq (json_state result) (Some "CONTACT_INFO_REQUIRED") then
            raise (F5ModuleError (Some "Contact info must be provided"))
          else
            raise (F5ModuleError (json_fault_text result))
      end
  end.

(** The loop, with [n] turns left; falling out of it returns [None]. *)
Fixpoint attempts (n : nat) : M World (option Json) :=
  match n with
  | O => ret None
  | S n' =>
      r <- attempt ;;
      match r with
      | Return result => ret (Some result)
      | Continue => attempts n'
      end
  end.

Definition generate_license_from_remote : M World (option Json) := attempts 10.

Definition _is_mcpd_ready_on_device : M World bool :=
  try_except
    (output <- tm_util_bash_exec_cmd
                 ("-c " ++ dq ++ "tmsh show sys mcp-state | grep running" ++ dq) ;;
     match commandResult output with
     | Some _ => ret true
     | None => ret false
     end)
    (fun ex => ret false).

(** [while nops < 4] in [wait_for_mcpd]; the loop has no bound of its own,
    [fuel] is how many turns are watched. *)
Fixpoint wait_for_mcpd_loop (fuel nops : nat) : M World unit :=
  if Nat.ltb nops 4 then
    match fuel with
    | O => pending
    | S fuel' =>
        nops' <- try_except
                   (ready <- _is_mcpd_ready_on_device ;;
                    if ready then ret (nops + 1) else ret 0)
                   (fun ex => ret nops) ;;
        time_sleep 5 ;;
        wait_for_mcpd_loop fuel' nops'
    end
  else ret tt.

Definition wait_for_mcpd (fuel : nat) : M World unit :=
  time_sleep 5 ;;
  wait_for_mcpd_loop fuel 0.

Definition upload_license_to_device (license : Json) : M World bool :=
  match json_license license with
  | None => raise TypeError
  | Some text =>
      let license_payload := re_sub_escape escape_patterns text in
      let command := "cat > /config/bigip.license <<EOF" ++ nl
                     ++ license_payload ++ nl ++ "EOF" in
      let command := "-c " ++ dq ++ command ++ dq in
      tm_util_bash_exec_cmd command ;;
      ret true
  end.

Definition upload_eula_to_device (license : Json) : M World bool :=
  match json_eula license with
  | None => raise TypeError
  | Some text =>
      let eula_payload := re_sub_escape escape_patterns text in
      let command := "cat > /LICENSE.F5 <<EOF" ++ nl
                     ++ eula_payload ++ nl ++ "EOF" in
      let command := "-c " ++ dq ++ command ++ dq in
      tm_util_bash_exec_cmd command ;;
      ret true
  end.

Definition reload_license : M World bool :=
  let command := "-c " ++ dq ++ "/usr/bin/reloadlic" ++ dq in
  tm_util_bash_exec_cmd command ;;
  ret true.

Definition create_on_device : M World unit :=
  license <- generate_license_from_remote ;;
  match license with
  | None =>
      raise (F5ModuleError
               (Some "Failed to generate license from F5 activation servers."))
  | Some license =>
      result <- upload_license_to_device license ;;
      if negb result then
        raise (F5ModuleError (Some "Failed to install license on device."))
      else
        result <- upload_eula_to_device license ;;
        if negb result then
          raise (F5ModuleError (Some "Failed to upload EULA file to device."))
        else
          result <- reload_license ;;
          if negb result then
            raise (F5ModuleError (Some "Failed to reload license configuration."))
          else ret tt
  end.

Definition create (fuel : nat) : M World bool :=
  _set_changed_options ;;
  want <- get_want ;;
  if negb (ModuleParameters.accept_eula want) then
    raise (F5ModuleError
             (Some "You must read and accept the product EULA to license the box."))
  else
    check <- get_check_mode ;;
    if check then ret true
    else
      dossier <- read_dossier_from_device ;;
      (if truthy dossier
       then want_update (ModuleParameters.update_dossier dossier)
       else raise (F5ModuleError (Some "Dossier not generated."))) ;;
      create_on_device ;;
      wait_for_mcpd fuel ;;
      licensed <- exists_ ;;
      if negb licensed then
        raise (F5ModuleError (Some "Failed to license the device."))
      else ret true.

Definition present (fuel : nat) : M World bool :=
  found <- exists_ ;;
  if found then ret false else create fuel.

(** [except UtilError as ex] in the two removals: a missing file counts as
    removed, another [UtilError] becomes [F5ModuleError], and an exception
    of another class is not caught. *)
Definition removal_handler (ex : exn) : M World bool :=
  match ex with
  | UtilError _ =>
      if py_in "No such file or directory" (str_exn ex) then ret true
      else raise (F5ModuleError (Some (str_exn ex)))
  | _ => raise ex
  end.

Definition remove_license_from_device : M World bool :=
  try_except
    (tm_util_unix_rm_exec_cmd "/config/bigip.license" ;; ret true)
    removal_handler.

Definition remove_eula_from_device : M World bool :=
  try_except
    (tm_util_unix_rm_exec_cmd "/LICENSE.F5" ;; ret true)
    removal_handler.

Definition remove_from_device : M World unit :=
  result <- remove_license_from_device ;;
  if negb result then
    raise (F5ModuleError (Some "Failed to remove license from device."))
  else
    result <- remove_eula_from_device ;;
    if negb result then
      raise (F5ModuleError (Some "Failed to remove EULA file from device."))
    else
      result <- reload_license ;;
      if negb result then
        raise (F5ModuleError
                 (Some "Failed to reload the empty license configuration."))
      else ret tt.

Definition remove : M World bool :=
  check <- get_check_mode ;;
  if check then ret true
  else
    remove_from_device ;;
    found <- exists_ ;;
    if found then raise (F5ModuleError (Some "Failed to delete the resource."))
    else ret true.

Definition absent (fuel : nat) : M World bool :=
  found <- any_license_exists ;;
  if found then
    remove ;;
    wait_for_mcpd fuel ;;
    found <- exists_ ;;
    if found then
      raise (F5ModuleError (Some "Failed to remove the license from the device."))
    else ret true
  else ret false.

(** [exec_module], down to the [changed] flag: the reportable changes are
    always empty. *)
Definition exec_module (fuel : nat) : M World bool :=
  want <- get_want ;;
  try_except
    (if py_eq (ModuleParameters.state want) (Some "present") then present fuel
     else if py_eq (ModuleParameters.state want) (Some "absent") then absent fuel
     else ret false)
    (fun e =>
       match e with
       | iControlUnexpectedHTTPError _ => raise (F5ModuleError (Some (str_exn e)))
       | _ => raise e
       end).

End Manager.

End ModuleManager.

(** ** Test doubles

    A scripted appliance and a scripted activation service, and a few
    response documents of the shape the service sends. *)

Module Mock.

Import LicenseXmlParser.

(** An appliance that answers from scripts: the registration it reports,
    the one it reports once the licence files have been reloaded, the
    dossier command's answer, and the answers of the [bash] and [unix_rm]
    commands, one per call. *)
Record Device : Type := {
  registration : result Registration;
  after_reload : result Registration;
  dossier_answer : result CmdOutput;
  bash_answers : list (result CmdOutput);
  rm_answers : list (result CmdOutput)
}.

Definition no_output : CmdOutput := {| commandResult := None |}.

Definition output (s : string) : CmdOutput := {| commandResult := Some s |}.

(** A [bash] command takes the next answer of the script; the reload
    command, when it goes through, brings the registration up to date. *)
Definition device_bash (args : string) (d : Device) : result CmdOutput * Device :=
  match bash_answers d with
  | [] => (Ok no_output, d)
  | r :: rest =>
      let reloaded :=
        match r with
        | Ok _ => String.eqb args ("-c " ++ dq ++ "/usr/bin/reloadlic" ++ dq)
        | _ => false
        end in
      (r, {| registration := if reloaded then after_reload d else registration d;
             after_reload := after_reload d;
             dossier_answer := dossier_answer d;
             bash_answers := rest; rm_answers := rm_answers d |})
  end.

Definition device_rm (args : string) (d : Device) : result CmdOutput * Device :=
  match rm_answers d with
  | [] => (Ok no_output, d)
  | r :: rest =>
      (r, {| registration := registration d; after_reload := after_reload d;
             dossier_answer := dossier_answer d;
             bash_answers := bash_answers d; rm_answers := rest |})
  end.

#[global] Instance device_gateway : DeviceGateway Device := {
  gw_registration_load d := registration d;
  gw_get_dossier args d := (dossier_answer d, d);
  gw_bash := device_bash;
  gw_unix_rm := device_rm
}.

(** A service that answers from a script, one entry per POST, and refuses the
    connection once the script is used up. *)
Definition Service : Type := list (result Payload).

Definition service_post (url data : string) (s : Service) : result Payload * Service :=
  match s with
  | [] => (Raise (OtherError "Connection refused"), [])
  | r :: rest => (r, rest)
  end.

#[global] Instance activation_service : ActivationService Service := {
  svc_post := service_post
}.

(** A service that cannot be reached: every POST raises. *)
Inductive Unreachable : Type := unreachable.

Definition unreachable_post (url data : string) (s : Unreachable)
  : result Payload * Unreachable :=
  (Raise (OtherError "Connection timed out"), s).

#[global] Instance unreachable_service : ActivationService Unreachable := {
  svc_post := unreachable_post
}.

(** Decimal digits only: enough of the builtin [int] for the documents below. *)
Fixpoint digits (acc : Z) (s : string) : option Z :=
  match s with
  | EmptyString => Some acc
  | String c rest =>
      let n := nat_of_ascii c in
      if andb (Nat.leb 48 n) (Nat.leb n 57)
      then digits (acc * 10 + Z.of_nat (n - 48))%Z rest
      else None
  end.

Definition int (s : string) : option Z :=
  match s with
  | EmptyString => None
  | _ => digits 0%Z s
  end.

Definition xsi_type : string := "{http://www.w3.org/2001/XMLSchema-instance}type".

(** A response: the transaction with its EULA and licence nodes, and the
    [multiRef] that holds the transaction state. *)
Definition transaction_doc (eula_text license_text : option string)
  (state_text : string) : Element :=
  Elem "{http://schemas.xmlsoap.org/soap/envelope/}Envelope" [] None
    [ Elem "{http://schemas.xmlsoap.org/soap/envelope/}Body" [] None
        [ Elem "multiRef" [("id", "id0"); (xsi_type, "ns2:LicenseTransaction")] None
            [ Elem "eula" [(xsi_type, "xsd:string")] eula_text [];
              Elem "license" [(xsi_type, "xsd:string")] license_text [];
              Elem "state" [("href", "#id1")] None [] ];
          Elem "multiRef" [("id", "id1"); (xsi_type, "ns3:TransactionState")]
            (Some state_text) [] ] ].

(** A response that carries a licensing fault and no transaction state. *)
Definition fault_doc (number : option string) (fault : option string) : Element :=
  Elem "{http://schemas.xmlsoap.org/soap/envelope/}Envelope" [] None
    [ Elem "{http://schemas.xmlsoap.org/soap/envelope/}Body" [] None
        [ Elem "multiRef" [("id", "id0"); (xsi_type, "ns1:LicensingFault")] None
            [ Elem "faultNumber" [(xsi_type, "xsd:int")] number [];
              Elem "faultText" [(xsi_type, "xsd:string")] fault [] ] ] ].

Definition params (key : option string) (accept : bool) : ModuleParameters.t :=
  {| ModuleParameters.license_key := key;
     ModuleParameters.license_server := Some "activate.f5.com";
     ModuleParameters.accept_eula := accept;
     ModuleParameters.state := Some "present";
     ModuleParameters.eula := None;
     ModuleParameters.email := None;
     ModuleParameters.first_name := None;
     ModuleParameters.last_name := None;
     ModuleParameters.company := None;
     ModuleParameters.phone := None;
     ModuleParameters.job_title := None;
     ModuleParameters.address := None;
     ModuleParameters.city := None;
     ModuleParameters.postal_code := None;
     ModuleParameters.country := None;
     ModuleParameters.dossier := None |}.

Definition world (p : ModuleParameters.t) (d : Device) (s : Service)
  : @ModuleManager.World Device Service :=
  {| ModuleManager.want := p; ModuleManager.check_mode := false;
     ModuleManager.device := d; ModuleManager.remote := s;
     ModuleManager.trace := [] |}.

(** An appliance without a licence. *)
Definition unlicensed : Device :=
  {| registration := Ok {| registrationKey := None |};
     after_reload := Ok {| registrationKey := None |};
     dossier_answer := Ok (output "d0551e4");
     bash_answers := [];
     rm_answers := [] |}.

(** An appliance whose readiness flaps after a reload: the first query
    raises, the fourth answers without a result, the others answer. *)
Definition flapping : Device :=
  {| registration := Ok {| registrationKey := None |};
     after_reload := Ok {| registrationKey := None |};
     dossier_answer := Ok (output "d0551e4");
     bash_answers := [ Raise (UtilError "mcpd is not running");
                       Ok (output "running"); Ok (output "running");
                       Ok no_output;
                       Ok (output "running"); Ok (output "running");
                       Ok (output "running"); Ok (output "running") ];
     rm_answers := [] |}.

(** An appliance licensed with the given key. *)
Definition licensed (key : string) : Device :=
  {| registration := Ok {| registrationKey := Some (Some key) |};
     after_reload := Ok {| registrationKey := Some (Some key) |};
     dossier_answer := Ok (output "d0551e4");
     bash_answers := [];
     rm_answers := [] |}.

(** An appliance without a licence that takes the key at the next reload:
    the two writes and the reload go through, and it is ready from the
    first check on. *)
Definition activating (key : string) : Device :=
  {| registration := Ok {| registrationKey := None |};
     after_reload := Ok {| registrationKey := Some (Some key) |};
     dossier_answer := Ok (output "d0551e4");
     bash_answers := [ Ok no_output; Ok no_output; Ok no_output;
                       Ok (output "running"); Ok (output "running");
                       Ok (output "running"); Ok (output "running") ];
     rm_answers := [] |}.

(** A licensed appliance that lets the licence go at the next reload. *)
Definition retiring (key : string) : Device :=
  {| registration := Ok {| registrationKey := Some (Some key) |};
     after_reload := Ok {| registrationKey := None |};
     dossier_answer := Ok (output "d0551e4");
     bash_answers := [ Ok no_output;
                       Ok (output "running"); Ok (output "running");
                       Ok (output "running"); Ok (output "running") ];
     rm_answers := [ Ok no_output;
                     Raise (UtilError
                              "rm: cannot remove '/LICENSE.F5': No such file or directory") ] |}.

End Mock.

(** ** Scenarios

    Worlds and documents the properties below are tried on. *)

Module Scenario.

Import LicenseXmlParser.
Import ModuleManager.

Definition eula_required : Element :=
  Mock.transaction_doc (Some "END USER LICENSE AGREEMENT") None "EULA_REQUIRED".

Definition license_returned : Element :=
  Mock.transaction_doc (Some "END USER LICENSE AGREEMENT")
                       (Some "Licensed date : 20190101") "LICENSE_RETURNED".

Definition invalid_key : Element :=
  Mock.fault_doc (Some "51092") (Some "This registration key is invalid").

(** A fault whose number is not an integer. *)
Definition garbled_fault : Element :=
  Mock.fault_doc (Some "n/a") (Some "This registration key is invalid").

(** A fault whose text is marked nil. *)
Definition nil_fault : Element :=
  Elem "{http://schemas.xmlsoap.org/soap/envelope/}Envelope" [] None
    [ Elem "multiRef" [(Mock.xsi_type, "ns1:LicensingFault")] None
        [ Elem "faultNumber" [] (Some "51092") [];
          Elem "faultText" [(xsi_nil, "true")] (Some "ignored") [] ] ].

(** The service answers a garbled fault first and the licence next. *)
Definition garbled_then_license_answers : Mock.Service :=
  [Ok (WellFormed garbled_fault); Ok (WellFormed license_returned)].

Definition request : ModuleParameters.t := Mock.params (Some "XXXXX-XXXXX") true.


Definition eula_then_license : @World Mock.Device Mock.Service :=
  Mock.world request Mock.unlicensed
             [Ok (WellFormed eula_required); Ok (WellFormed license_returned)].

Definition fault_then_license : @World Mock.Device Mock.Service :=
  Mock.world request Mock.unlicensed
             [Ok (WellFormed invalid_key); Ok (WellFormed license_returned)].

Definition no_route : @World Mock.Device Mock.Unreachable :=
  {| want := request; check_mode := false; device := Mock.unlicensed;
     remote := Mock.unreachable; trace := [] |}.

(** A request that does not accept the EULA, on an appliance licensed with
    another key. *)
Definition eula_declined : @World Mock.Device Mock.Service :=
  Mock.world (Mock.params (Some "XXXXX-XXXXX") false) (Mock.licensed "YYYYY-YYYYY") [].

Definition nothing_to_remove : @World Mock.Device Mock.Service :=
  Mock.world (Mock.params None false) Mock.unlicensed [].

(** The licence file is already gone, the EULA file cannot be removed. *)
Definition stubborn_eula : Mock.Device :=
  {| Mock.registration := Ok {| registrationKey := Some (Some "XXXXX-XXXXX") |};
     Mock.after_reload := Ok {| registrationKey := None |};
     Mock.dossier_answer := Ok (Mock.output "d0551e4");
     Mock.bash_answers := [];
     Mock.rm_answers :=
       [ Raise (UtilError
                  "rm: cannot remove '/config/bigip.license': No such file or directory");
         Raise (UtilError "rm: cannot remove '/LICENSE.F5': Operation not permitted") ] |}.

Definition removal : @World Mock.Device Mock.Service :=
  Mock.world (Mock.params None false) stubborn_eula [].

(** A licence text with a double quote, a dollar sign, and a line that is
    the terminator of the here-document. *)
Definition hostile_text : string :=
  "key " ++ dq ++ "$1" ++ dq ++ nl ++ "EOF" ++ nl ++ "reboot".

Definition hostile_license : Json :=
  {| json_eula := Some "END USER LICENSE AGREEMENT";
     json_license := Some hostile_text;
     json_state := Some "LICENSE_RETURNED";
     json_fault_number := None;
     json_fault_text := None |}.

End Scenario.

(** ** Further scenarios *)

Module Trial.

Import LicenseXmlParser.
Import ModuleManager.

(** A service that asks for the EULA whatever it is sent. *)
Inductive Insistent : Type := insistent.

Definition insistent_post (url data : string) (s : Insistent)
  : result Payload * Insistent :=
  (Ok (WellFormed Scenario.eula_required), s).

#[global] Instance insistent_service : ActivationService Insistent := {
  svc_post := insistent_post
}.

Definition never_done : @World Mock.Device Insistent :=
  {| want := Scenario.request; check_mode := false; device := Mock.unlicensed;
     remote := insistent; trace := [] |}.

(** A fault that says everything twice. *)
Definition said_twice : Element :=
  Elem "multiRef" [(Mock.xsi_type, "ns1:LicensingFault")] None
    [ Elem "faultNumber" [] (Some "1") [];
      Elem "faultText" [] (Some "first") [];
      Elem "faultNumber" [] (Some "51092") [];
      Elem "faultText" [] (Some "second") [] ].

Definition repeated_fault : Element :=
  Elem "{http://schemas.xmlsoap.org/soap/envelope/}Envelope" [] None [said_twice].

Definition email_required : Element :=
  Mock.transaction_doc None None "EMAIL_REQUIRED".

Definition asks_for_email : @World Mock.Device Mock.Service :=
  Mock.world Scenario.request Mock.unlicensed
             [Ok (WellFormed email_required); Ok (WellFormed Scenario.license_returned)].

(** The licence comes at the first POST and the appliance takes it. *)
Definition activation : @World Mock.Device Mock.Service :=
  Mock.world Scenario.request (Mock.activating "XXXXX-XXXXX")
             [Ok (WellFormed Scenario.license_returned)].

Definition dry (w : @World Mock.Device Mock.Service) : @World Mock.Device Mock.Service :=
  {| want := want w; check_mode := true; device := device w;
     remote := remote w; trace := trace w |}.

(** An appliance whose dossier command prints nothing. *)
Definition mute : Mock.Device :=
  {| Mock.registration := Ok {| registrationKey := None |};
     Mock.after_reload := Ok {| registrationKey := None |};
     Mock.dossier_answer := Ok Mock.no_output;
     Mock.bash_answers := [];
     Mock.rm_answers := [] |}.

Definition no_dossier : @World Mock.Device Mock.Service :=
  Mock.world Scenario.request mute [Ok (WellFormed Scenario.license_returned)].

(** An appliance that takes the licence file and fails on the EULA file. *)
Definition read_only : Mock.Device :=
  {| Mock.registration := Ok {| registrationKey := None |};
     Mock.after_reload := Ok {| registrationKey := Some (Some "XXXXX-XXXXX") |};
     Mock.dossier_answer := Ok (Mock.output "d0551e4");
     Mock.bash_answers := [ Ok Mock.no_output;
                            Raise (UtilError "/LICENSE.F5: Read-only file system") ];
     Mock.rm_answers := [] |}.

Definition half_written : @World Mock.Device Mock.Service :=
  Mock.world Scenario.request read_only [Ok (WellFormed Scenario.license_returned)].

(** The service returns a licence without its EULA. *)
Definition license_without_eula : Element :=
  Mock.transaction_doc None (Some "Licensed date : 20190101") "LICENSE_RETURNED".

Definition bare_license : @World Mock.Device Mock.Service :=
  Mock.world Scenario.request Mock.unlicensed [Ok (WellFormed license_without_eula)].

(** A licensed appliance that keeps its key through the reload. *)
Definition clinging : Mock.Device :=
  {| Mock.registration := Ok {| registrationKey := Some (Some "XXXXX-XXXXX") |};
     Mock.after_reload := Ok {| registrationKey := Some (Some "XXXXX-XXXXX") |};
     Mock.dossier_answer := Ok (Mock.output "d0551e4");
     Mock.bash_answers := [ Ok Mock.no_output;
                            Ok (Mock.output "running"); Ok (Mock.output "running");
                            Ok (Mock.output "running"); Ok (Mock.output "running") ];
     Mock.rm_answers := [ Ok Mock.no_output; Ok Mock.no_output ] |}.

Definition keeps_the_key : @World Mock.Device Mock.Service :=
  Mock.world (Mock.params (Some "XXXXX-XXXXX") false) clinging [].

(** A licensed appliance that is ready at every check. *)
Definition steady : Mock.Device :=
  {| Mock.registration := Ok {| registrationKey := Some (Some "XXXXX-XXXXX") |};
     Mock.after_reload := Ok {| registrationKey := Some (Some "XXXXX-XXXXX") |};
     Mock.dossier_answer := Ok (Mock.output "d0551e4");
     Mock.bash_answers := [ Ok (Mock.output "running"); Ok (Mock.output "running");
                            Ok (Mock.output "running"); Ok (Mock.output "running") ];
     Mock.rm_answers := [] |}.

Definition dry_removal : @World Mock.Device Mock.Service :=
  dry (Mock.world (Mock.params (Some "XXXXX-XXXXX") false) steady []).

(** The removal of a licence whose key the request does not name. *)
Definition retirement : @World Mock.Device Mock.Service :=
  Mock.world (Mock.params None false) (Mock.retiring "XXXXX-XXXXX") [].

Definition flapping : @World Mock.Device Mock.Service :=
  Mock.world Scenario.request Mock.flapping [].

End Trial.

(** * Specification vocabulary *)

Import LicenseXmlParser.
Import ModuleManager.

(** ** Runs and their calls *)

(** The calls made during a run: what the trace gained. *)
Definition new_events {Dev Rem : Type} (w w' : @World Dev Rem) : list event :=
  skipn (length (trace w)) (trace w').

(** The bash commands of a run, oldest first. *)
Definition bash_commands (evs : list event) : list string :=
  flat_map (fun ev => match ev with
                      | bash_ev args _ => [args]
                      | _ => []
                      end) evs.

(** The world after a POST that came to [r] and left the service in [s]. *)
Definition posted {Dev Rem : Type} (w : @World Dev Rem)
  (r : result Payload) (s : Rem) : @World Dev Rem :=
  log (post_ev (ModuleParameters.license_url (want w))
               (ModuleParameters.license_envelope (want w)) r)
      (with_remote s w).

(** The service's answer to the request the world is about to send. *)
Definition answer {Dev Rem : Type} `{ActivationService Rem}
  (w : @World Dev Rem) : result Payload * Rem :=
  svc_post (ModuleParameters.license_url (want w))
           (ModuleParameters.license_envelope (want w)) (remote w).

(** The failures of [json()] on a document: what [int(elem.text)] raises in
    [get_fault], never [F5ModuleError]. *)
Definition parse_failure (e : exn) : Prop := e = TypeError \/ e = ValueError.

Definition failed_post (ev : event) : bool :=
  match ev with
  | post_ev _ _ (Raise _) => true
  | _ => false
  end.

(** ** The request envelope *)

Definition eula_open : string := Eval cbv in unq "<eula xsi:type=`ns3:string`>".

Definition eula_close : string := "</eula>".

(** The envelope up to the EULA element, and from its end on. *)
Definition envelope_before_eula (p : ModuleParameters.t) : string :=
  format (firstn 4 ModuleParameters.envelope_template)
         [py_str (ModuleParameters.license_server p);
          py_str (ModuleParameters.dossier p)] []
  ++ "</dossier>" ++ nl ++ "              ".

Definition envelope_after_eula (p : ModuleParameters.t) : string :=
  nl ++ unq "              <email xsi:type=`ns3:string`>"
  ++ format (skipn 7 ModuleParameters.envelope_template)
            [py_str (ModuleParameters.license_server p);
             py_str (ModuleParameters.dossier p)]
            (ModuleParameters.license_options p).

(** ** Waiting for the appliance to settle *)

(** The readiness signal a check came to: positive when the command returned
    an object with a [commandResult], negative otherwise (the query raised,
    or the object has no such attribute). *)
Definition check_signal (r : result CmdOutput) : bool :=
  match r with
  | Ok out => match commandResult out with Some _ => true | None => false end
  | _ => false
  end.

(** The readiness signals of a run, oldest first. *)
Definition signals (evs : list event) : list bool :=
  flat_map (fun ev => match ev with
                      | bash_ev _ r => [check_signal r]
                      | _ => []
                      end) evs.

(** The number of positive signals in a row at the end of a list. *)
Fixpoint leading_oks (l : list bool) : nat :=
  match l with
  | true :: rest => S (leading_oks rest)
  | _ => 0
  end.

Definition trailing_oks (l : list bool) : nat := leading_oks (rev l).

(** The counter after the signals [l], from [nops]. *)
Definition count_oks (nops : nat) (l : list bool) : nat :=
  fold_left (fun n ok => if ok : bool then n + 1 else 0) l nops.

Definition mcp_state_query : string :=
  "-c " ++ dq ++ "tmsh show sys mcp-state | grep running" ++ dq.

(** ** Writing the licence through a here-document *)

Definition backslash : ascii := "\"%char.

Definition escaped_class (c : ascii) : bool := existsb (Ascii.eqb c) escape_patterns.

(** The text an escaped payload stands for: a backslash before a character
    of the class is dropped. *)
Fixpoint strip_escapes (s : string) : string :=
  match s with
  | EmptyString => EmptyString
  | String c rest =>
      match rest with
      | String d rest' =>
          if Ascii.eqb c backslash && escaped_class d
          then String d (strip_escapes rest')
          else String c (strip_escapes rest)
      | EmptyString => String c EmptyString
      end
  end.

(** [s.split('\n')]. *)
Fixpoint split_lines (s : string) : list string :=
  match s with
  | EmptyString => [EmptyString]
  | String c rest =>
      if Ascii.eqb c (ascii_of_nat 10) then EmptyString :: split_lines rest
      else match split_lines rest with
           | l :: ls => String c l :: ls
           | [] => [String c EmptyString]
           end
  end.

(** A line of the body that is the terminator ends the here-document there. *)
Definition heredoc_collision (body : string) : bool :=
  existsb (String.eqb "EOF") (split_lines body).

(** The command [upload_license_to_device] builds around a payload. *)
Definition license_write_command (payload : string) : string :=
  "-c " ++ dq ++ ("cat > /config/bigip.license <<EOF" ++ nl ++ payload ++ nl ++ "EOF") ++ dq.

(** ** Removing the licence *)

(** A removal that raised [UtilError] for a file that is not there. *)
Definition file_not_found (r : result CmdOutput) : bool :=
  match r with
  | Raise (UtilError msg) => py_in "No such file or directory" msg
  | _ => false
  end.

(** A removal that went through, or found no file. *)
Definition removed (r : result CmdOutput) : bool :=
  match r with
  | Ok _ => true
  | _ => file_not_found r
  end.

(** What the caller sees of a removal's exception: [UtilError] is raised
    again as [F5ModuleError] with the same text, others pass as they are. *)
Definition surfaced (e : exn) : exn :=
  match e with
  | UtilError msg => F5ModuleError (Some msg)
  | _ => e
  end.

Definition reload_command : string := "-c " ++ dq ++ "/usr/bin/reloadlic" ++ dq.

(** ** Reading the fault *)

(** A [faultNumber] child that [int(elem.text)] cannot read. *)
Definition bad_fault_number (int : string -> option Z) (elem : Element) : bool :=
  String.eqb (tag elem) "faultNumber"
  && match int_text int (text elem) with
     | Ok _ => false
     | _ => true
     end.

(** The last child with the given tag. *)
Definition last_child (name : string) (l : list Element) : option Element :=
  find (fun e => String.eqb (tag e) name) (rev l).

(** An element whose [xsi:nil] attribute is the word true. *)
Definition is_nil (elem : Element) : bool :=
  match attrib_get xsi_nil (attrib elem) with
  | Some v => String.eqb v "true"
  | None => false
  end.

(** The attribute values of an element that contain [value]. *)
Definition marked (value : string) (elem : Element) : bool :=
  existsb (fun kv => py_in value (snd kv)) (attrib elem).

(** ** The calls of a whole run *)

(** The request [p] with, at most, another EULA and another dossier. *)
Definition same_request (p p' : ModuleParameters.t) : Prop :=
  exists e d, p' = ModuleParameters.update_dossier d (ModuleParameters.update_eula e p).

(** From [w] to [w']: the request is the same but for EULA and dossier, check
    mode is as it was, and the trace has gained events that all satisfy [P]
    for the request of [w]. *)
Definition run_rel {Dev Rem : Type} (P : ModuleParameters.t -> event -> Prop)
  (w w' : @World Dev Rem) : Prop :=
  same_request (want w) (want w')
  /\ check_mode w' = check_mode w
  /\ exists evs, trace w' = (trace w ++ evs)%list /\ Forall (P (want w)) evs.

(** Whatever the world it starts in, [m] ends in a world related to it. *)
Definition respects {Dev Rem A : Type} (R : @World Dev Rem -> @World Dev Rem -> Prop)
  (m : M (@World Dev Rem) A) : Prop :=
  forall w, R w (snd (m w)).

Definition eula_write_command (payload : string) : string :=
  "-c " ++ dq ++ ("cat > /LICENSE.F5 <<EOF" ++ nl ++ payload ++ nl ++ "EOF") ++ dq.

(** The calls [present] can make for the request [p]: reading the
    registration, asking for the dossier of the licence key, posting the
    envelope of [p] (with some EULA and dossier) to the licence server of
    [p], writing the two files, reloading, asking for readiness, sleeping
    five seconds. *)
Definition present_call (p : ModuleParameters.t) (ev : event) : Prop :=
  match ev with
  | registration_load_ev _ => True
  | get_dossier_ev args _ => args = "-b " ++ py_str (ModuleParameters.license_key p)
  | post_ev url data _ =>
      url = ModuleParameters.license_url p
      /\ exists e d,
           data = ModuleParameters.license_envelope
                    (ModuleParameters.update_dossier d (ModuleParameters.update_eula e p))
  | bash_ev args _ =>
      (exists payload, args = license_write_command payload)
      \/ (exists payload, args = eula_write_command payload)
      \/ args = reload_command
      \/ args = mcp_state_query
  | unix_rm_ev _ _ => False
  | sleep_ev seconds => seconds = 5
  end.

(** The calls [absent] can make: reading the registration, removing the two
    files, reloading, asking for readiness, sleeping five seconds. *)
Definition absent_call (p : ModuleParameters.t) (ev : event) : Prop :=
  match ev with
  | registration_load_ev _ => True
  | unix_rm_ev args _ => args = "/config/bigip.license" \/ args = "/LICENSE.F5"
  | bash_ev args _ => args = reload_command \/ args = mcp_state_query
  | sleep_ev seconds => seconds = 5
  | get_dossier_ev _ _ | post_ev _ _ _ => False
  end.

(** ** Rounds of the negotiation *)

(** An answer after which the loop goes on to its next turn: the POST
    raised, the document could not be read, or the state is EULA_REQUIRED. *)
Definition goes_on (int : string -> option Z) (r : result Payload) : bool :=
  match r with
  | Raise _ => true
  | Ok (WellFormed t) =>
      match json int t with
      | Ok result => py_eq (json_state result) (Some "EULA_REQUIRED")
      | Raise _ => true
      | Pending => false
      end
  | _ => false
  end.


(** The seconds slept during a run. *)
Definition slept (evs : list event) : nat :=
  fold_right (fun ev n => match ev with sleep_ev s => s + n | _ => n end) 0 evs.

(** The readiness checks of a run: the queries with what they came to, each
    followed by its sleep. *)
Definition checks (rs : list (result CmdOutput)) : list event :=
  flat_map (fun r => [bash_ev mcp_state_query r; sleep_ev 5]) rs.

(** The registration reports the key. *)
Definition registered_as (reg : Registration) (key : option string) : bool :=
  match registrationKey reg with
  | Some k => py_eq k key
  | None => false
  end.

(** ** The envelope's province *)

Definition state_open : string := Eval cbv in unq "<stateProvince xsi:type=`ns3:string`>".

Definition state_close : string := "</stateProvince>".

Definition envelope_before_state (p : ModuleParameters.t) : string :=
  format (firstn 22 ModuleParameters.envelope_template)
         [py_str (ModuleParameters.license_server p);
          py_str (ModuleParameters.dossier p)]
         (ModuleParameters.license_options p)
  ++ "</city>" ++ nl ++ "              ".

Definition envelope_after_state (p : ModuleParameters.t) : string :=
  nl ++ unq "              <postalCode xsi:type=`ns3:string`>"
  ++ format (skipn 25 ModuleParameters.envelope_template)
            [py_str (ModuleParameters.license_server p);
             py_str (ModuleParameters.dossier p)]
            (ModuleParameters.license_options p).

(** The calls of a wait: the readiness query and the sleeps, besides the
    reads of the registration around it. *)
Definition waiting_call (p : ModuleParameters.t) (ev : event) : Prop :=
  match ev with
  | registration_load_ev _ => True
  | bash_ev args _ => args = mcp_state_query
  | sleep_ev seconds => seconds = 5
  | _ => False
  end.

(** A POST whose envelope has [text] in its province element. *)
Definition province_is (text : string) (ev : event) : Prop :=
  match ev with
  | post_ev _ data _ =>
      exists before after, data = before ++ state_open ++ text ++ state_close ++ after
  | _ => True
  end.

(** ** The module as a whole *)

Section Dispatch.

Context {Dev Rem : Type} `{DeviceGateway Dev} `{ActivationService Rem}.
Variable int : string -> option Z.

(** What [exec_module] runs, by the state the request asks for. *)
Definition dispatched (fuel : nat) (w : @World Dev Rem) : result bool * @World Dev Rem :=
  if py_eq (ModuleParameters.state (want w)) (Some "present") then present int fuel w
  else if py_eq (ModuleParameters.state (want w)) (Some "absent") then absent fuel w
  else (Ok false, w).

End Dispatch.

(** * Properties *)

(** ** Python values and traces *)

Lemma skipn_length_app (A : Type) (l evs : list A) :
  skipn (length l) (l ++ evs) = evs.
Proof.
  induction l as [|x l IH]; simpl; [reflexivity | exact IH].
Qed.

Lemma new_events_log {Dev Rem : Type} (w w' : @World Dev Rem) (evs : list event) :
  trace w' = (trace w ++ evs)%list -> new_events w w' = evs.
Proof.
  unfold new_events. intros ->. apply skipn_length_app.
Qed.

Lemma py_eq_true (a b : option string) : py_eq a b = true <-> a = b.
Proof.
  destruct a as [x|], b as [y|]; cbn [py_eq]; split; intros Heq;
    try discriminate; try reflexivity.
  - apply String.eqb_eq in Heq. now subst.
  - inversion Heq. apply String.eqb_refl.
Qed.

Lemma py_eq_false (a b : option string) : a <> b -> py_eq a b = false.
Proof.
  intros Hne. destruct (py_eq a b) eqn:Heq; [|reflexivity].
  apply py_eq_true in Heq. contradiction.
Qed.

Lemma or_None_Some (x : option string) (s : string) :
  or_None x = Some s -> x = Some s.
Proof.
  destruct x as [[|c r]|]; cbn; intros Heq; try discriminate; exact Heq.
Qed.

Lemma or_empty_or_None (x : option string) : or_empty (or_None x) = or_empty x.
Proof.
  destruct x as [[|c r]|]; reflexivity.
Qed.

Lemma append_assoc_s (a b c : string) : (a ++ b) ++ c = a ++ (b ++ c).
Proof.
  induction a as [|x a IH]; cbn; [reflexivity | now rewrite IH].
Qed.

(** ** The parser and the envelope on the scenarios *)

Example json_license_returned :
  json Mock.int Scenario.license_returned
  = Ok {| json_eula := Some "END USER LICENSE AGREEMENT";
          json_license := Some "Licensed date : 20190101";
          json_state := Some "LICENSE_RETURNED";
          json_fault_number := None;
          json_fault_text := None |}.
Proof. reflexivity. Qed.

Example json_invalid_key :
  json Mock.int Scenario.invalid_key
  = Ok {| json_eula := None; json_license := None; json_state := None;
          json_fault_number := Some 51092%Z;
          json_fault_text := Some "This registration key is invalid" |}.
Proof. reflexivity. Qed.

Example json_nil_fault :
  fault_text Mock.int Scenario.nil_fault = Ok None
  /\ fault_number Mock.int Scenario.nil_fault = Ok (Some 51092%Z).
Proof. split; reflexivity. Qed.

Example json_garbled_fault :
  json Mock.int Scenario.garbled_fault = Raise ValueError.
Proof. reflexivity. Qed.

(** No field of the envelope is left without a value: [format] raises
    neither [IndexError] nor [KeyError]. *)
Lemma envelope_fields_supplied (p : ModuleParameters.t) :
  forallb (fun piece =>
             match piece with
             | Lit _ => true
             | Arg i => Nat.ltb i 2
             | Kw key => existsb (String.eqb key)
                                 (map fst (ModuleParameters.license_options p))
             end)
          ModuleParameters.envelope_template = true.
Proof. reflexivity. Qed.

(** ** The controller on the scenarios *)

(** A licence is negotiated in two rounds, written, reloaded and found. *)
Example present_installs_license :
  let run := present Mock.int 4
               (Mock.world Scenario.request (Mock.activating "XXXXX-XXXXX")
                           [Ok (WellFormed Scenario.eula_required);
                            Ok (WellFormed Scenario.license_returned)]) in
  fst run = Ok true
  /\ length (filter is_post (trace (snd run))) = 2
  /\ bash_commands (trace (snd run))
     = [ license_write_command "Licensed date : 20190101";
         "-c " ++ dq ++ "cat > /LICENSE.F5 <<EOF" ++ nl
           ++ "END USER LICENSE AGREEMENT" ++ nl ++ "EOF" ++ dq;
         reload_command;
         mcp_state_query; mcp_state_query; mcp_state_query; mcp_state_query ]
  /\ gw_registration_load (device (snd run))
     = Ok {| registrationKey := Some (Some "XXXXX-XXXXX") |}.
Proof. vm_compute. repeat split. Qed.

(** The licence is removed, the EULA file that was not there is no
    obstacle, and the appliance is found without a licence. *)
Example absent_removes_license :
  let run := absent 4 (Mock.world (Mock.params None false)
                                  (Mock.retiring "XXXXX-XXXXX") []) in
  fst run = Ok true
  /\ bash_commands (trace (snd run))
     = [ reload_command;
         mcp_state_query; mcp_state_query; mcp_state_query; mcp_state_query ]
  /\ gw_registration_load (device (snd run)) = Ok {| registrationKey := None |}.
Proof. vm_compute. repeat split. Qed.

(** In check mode [present] reports a change and calls nothing but the
    read of the registration. *)
Example present_in_check_mode :
  let w := {| want := Scenario.request; check_mode := true;
              device := Mock.unlicensed; remote := Mock.unreachable;
              trace := [] |} in
  present Mock.int 4 w
  = (Ok true, log (registration_load_ev (Ok {| registrationKey := None |})) w).
Proof. reflexivity. Qed.

(** ** Convergence: what is done before the appliance is touched *)

Section Convergence.

Context {Dev Rem : Type} `{DeviceGateway Dev} `{ActivationService Rem}.
Variable int : string -> option Z.

(** C5. With [accept_eula] false and a registration key on the appliance
    that is not the requested one (or none at all), [present] raises the
    EULA error after the one read of the registration: no command is run on
    the appliance, nothing is posted, and the appliance is as it was. *)
Theorem present_requires_accept_eula (fuel : nat) (w : @World Dev Rem) (reg : Registration) :
  ModuleParameters.accept_eula (want w) = false ->
  gw_registration_load (device w) = Ok reg ->
  (forall key, registrationKey reg = Some key ->
               py_eq key (ModuleParameters.license_key (want w)) = false) ->
  exists w',
    present int fuel w
    = (Raise (F5ModuleError
                (Some "You must read and accept the product EULA to license the box.")),
       w')
    /\ new_events w w' = [registration_load_ev (Ok reg)]
    /\ existsb device_mutating (new_events w w') = false
    /\ device w' = device w.
Proof.
  intros Heula Hload Hkey.
  exists (log (registration_load_ev (Ok reg)) w).
  assert (Hev : new_events w (log (registration_load_ev (Ok reg)) w)
                = [registration_load_ev (Ok reg)])
    by (apply new_events_log; reflexivity).
  repeat split.
  - unfold present, exists_, bind, tm_shared_licensing_registration_load, get_want, ret.
    rewrite Hload. cbn [want log].
    assert (Hfalse : match registrationKey reg with
                     | Some key => py_eq key (ModuleParameters.license_key (want w))
                     | None => false
                     end = false).
    { destruct (registrationKey reg) as [key|]; [apply Hkey|]; reflexivity. }
    rewrite Hfalse.
    unfold create, _set_changed_options, bind, get_want, ret, raise.
    cbn [want log]. rewrite Heula. reflexivity.
  - exact Hev.
  - rewrite Hev. reflexivity.
Qed.

(** C6. On an appliance that reports no registration key, [absent] returns
    [False] after the one read of the registration: no command is run on the
    appliance (no write, removal or reload), and the appliance is as it was. *)
Theorem absent_without_registration (fuel : nat) (w : @World Dev Rem) (reg : Registration) :
  gw_registration_load (device w) = Ok reg ->
  registrationKey reg = None \/ registrationKey reg = Some None ->
  exists w',
    absent fuel w = (Ok false, w')
    /\ new_events w w' = [registration_load_ev (Ok reg)]
    /\ existsb device_mutating (new_events w w') = false
    /\ device w' = device w.
Proof.
  intros Hload Hkey.
  exists (log (registration_load_ev (Ok reg)) w).
  assert (Hev : new_events w (log (registration_load_ev (Ok reg)) w)
                = [registration_load_ev (Ok reg)])
    by (apply new_events_log; reflexivity).
  repeat split.
  - unfold absent, any_license_exists, bind, tm_shared_licensing_registration_load, ret.
    rewrite Hload.
    destruct Hkey as [-> | ->]; reflexivity.
  - exact Hev.
  - rewrite Hev. reflexivity.
Qed.

End Convergence.

(** C5 on an appliance licensed with another key. *)
Lemma present_requires_accept_eula_witness :
  exists w',
    present Mock.int 0 Scenario.eula_declined
    = (Raise (F5ModuleError
                (Some "You must read and accept the product EULA to license the box.")),
       w')
    /\ new_events Scenario.eula_declined w'
       = [registration_load_ev (Ok {| registrationKey := Some (Some "YYYYY-YYYYY") |})]
    /\ existsb device_mutating (new_events Scenario.eula_declined w') = false
    /\ device w' = device Scenario.eula_declined.
Proof.
  apply (present_requires_accept_eula Mock.int 0 Scenario.eula_declined
           (reg := {| registrationKey := Some (Some "YYYYY-YYYYY") |}));
    [reflexivity | reflexivity |].
  intros key Hkey. inversion Hkey. reflexivity.
Defined.

(** C6 on an appliance without a licence. *)
Lemma absent_without_registration_witness :
  exists w',
    absent 0 Scenario.nothing_to_remove = (Ok false, w')
    /\ new_events Scenario.nothing_to_remove w'
       = [registration_load_ev (Ok {| registrationKey := None |})]
    /\ existsb device_mutating (new_events Scenario.nothing_to_remove w') = false
    /\ device w' = device Scenario.nothing_to_remove.
Proof.
  apply (absent_without_registration 0 Scenario.nothing_to_remove
           (reg := {| registrationKey := None |}));
    [reflexivity | left; reflexivity].
Defined.

(** ** Negotiation with the activation service *)

Section Negotiation.

Context {Dev Rem : Type} `{DeviceGateway Dev} `{ActivationService Rem}.
Variable int : string -> option Z.

Lemma int_text_failure (t : option string) (e : exn) :
  int_text int t = Raise e -> parse_failure e.
Proof.
  unfold int_text, parse_failure.
  destruct t as [s|]; [destruct (int s)|]; intros Heq; inversion Heq; auto.
Qed.

Lemma int_text_not_pending (t : option string) : int_text int t <> Pending.
Proof.
  unfold int_text. destruct t as [s|]; [destruct (int s)|]; discriminate.
Qed.

Lemma fault_step_sound (acc : result Fault) (elem : Element) :
  (forall e, acc = Raise e -> parse_failure e) -> acc <> Pending ->
  (forall e, fault_step int acc elem = Raise e -> parse_failure e)
  /\ fault_step int acc elem <> Pending.
Proof.
  intros Hacc Hpend. unfold fault_step.
  destruct acc as [f|e0|]; cbn [rbind]; [|split; [exact Hacc | discriminate]|contradiction].
  destruct (String.eqb (tag elem) "faultNumber").
  - destruct (int_text int (text elem)) as [n|e1|] eqn:Hint; cbn [rbind].
    + split; discriminate.
    + split; [|discriminate].
      intros e Heq. inversion Heq; subst e1. exact (int_text_failure _ Hint).
    + exfalso. exact (int_text_not_pending _ Hint).
  - destruct (String.eqb (tag elem) "faultText"); [|split; discriminate].
    destruct (attrib_get xsi_nil (attrib elem)) as [v|]; [|split; discriminate].
    destruct (String.eqb v "true") eqn:Hv.
    + apply String.eqb_eq in Hv. subst v. split; discriminate.
    + assert (Hmatch : match v with
                       | "true" => Ok (set_faultText None f)
                       | _ => Ok (set_faultText (text elem) f)
                       end = Ok (set_faultText None f)
                       \/ match v with
                          | "true" => Ok (set_faultText None f)
                          | _ => Ok (set_faultText (text elem) f)
                          end = Ok (set_faultText (text elem) f)).
      { repeat (match goal with
                | |- context [match ?x with _ => _ end] => destruct x
                end; auto). }
      destruct Hmatch as [-> | ->]; split; discriminate.
Qed.

Lemma fault_fold_sound (l : list Element) (acc : result Fault) :
  (forall e, acc = Raise e -> parse_failure e) -> acc <> Pending ->
  (forall e, fold_left (fault_step int) l acc = Raise e -> parse_failure e)
  /\ fold_left (fault_step int) l acc <> Pending.
Proof.
  revert acc. induction l as [|elem l IH]; intros acc Hacc Hpend; cbn [fold_left].
  - split; assumption.
  - destruct (fault_step_sound elem Hacc Hpend) as [H1 H2]. apply IH; assumption.
Qed.

Lemma get_fault_sound (t : Element) :
  (forall e, get_fault int t = Raise e -> parse_failure e)
  /\ get_fault int t <> Pending.
Proof.
  unfold get_fault.
  destruct (find_element t "LicensingFault") as [root|]; [|split; discriminate].
  destruct (@fault_fold_sound (children root)
              (Ok {| faultNumber := None; faultText := None |})) as [H1 H2];
    try discriminate.
  destruct (fold_left _ _ _) as [f|e0|]; cbn [rbind].
  - destruct (faultNumber f); split; discriminate.
  - split; [exact H1 | discriminate].
  - contradiction.
Qed.

(** [json()] returns the dictionary or raises [TypeError] or [ValueError]. *)
Lemma json_sound (t : Element) :
  (forall e, json int t = Raise e -> parse_failure e) /\ json int t <> Pending.
Proof.
  destruct (get_fault_sound t) as [H1 H2].
  unfold json, fault_number, fault_text.
  destruct (get_fault int t) as [f|e0|]; cbn [rbind].
  - split; discriminate.
  - split; [|discriminate].
    intros e Heq. inversion Heq; subst e0. apply H1. reflexivity.
  - contradiction.
Qed.

(** What [json()] puts under each key when it returns. *)
Lemma json_fields (t : Element) (r : Json) :
  json int t = Ok r ->
  json_eula r = or_None (eula t)
  /\ json_license r = or_None (license t)
  /\ json_state r = or_None (state t).
Proof.
  unfold json.
  destruct (fault_number int t) as [n| |]; cbn [rbind]; try discriminate.
  destruct (fault_text int t) as [x| |]; cbn [rbind]; try discriminate.
  intros Heq. inversion Heq. cbn. auto.
Qed.

(** The branches of one attempt, by the service's answer. *)
Lemma attempt_unfold (w : @World Dev Rem) :
  attempt int w =
  let w1 := posted w (fst (answer w)) (snd (answer w)) in
  match fst (answer w) with
  | Raise _ => (Ok Continue, w1)
  | Pending => (Pending, w1)
  | Ok (NotWellFormed err) =>
      (Raise (F5ModuleError
                (Some ("Provided XML payload is invalid. Received '" ++ err ++ "'."))),
       w1)
  | Ok (WellFormed t) =>
      match json int t with
      | Raise _ => (Ok Continue, w1)
      | Pending => (Pending, w1)
      | Ok result =>
          if py_eq (json_state result) (Some "EULA_REQUIRED") then
            (Ok Continue,
             with_want (ModuleParameters.update_eula (json_eula result) (want w1)) w1)
          else if py_eq (json_state result) (Some "LICENSE_RETURNED") then
            (Ok (Return result), w1)
          else if py_eq (json_state result) (Some "EMAIL_REQUIRED") then
            (Raise (F5ModuleError (Some "Email must be provided")), w1)
          else if py_eq (json_state result) (Some "CONTACT_INFO_REQUIRED") then
            (Raise (F5ModuleError (Some "Contact info must be provided")), w1)
          else
            (Raise (F5ModuleError (json_fault_text result)), w1)
      end
  end.
Proof.
  unfold attempt, answer, posted, bind, get_want, try_except, mgmt_post, ret, lift, raise.
  destruct (svc_post _ _ (remote w)) as [[content|e|] s]; cbn [fst snd]; try reflexivity.
  destruct content as [err|t]; cbn [init rbind]; [reflexivity|].
  destruct (json_sound t) as [Hraise Hpend].
  destruct (json int t) as [result|e|]; [| |contradiction].
  - unfold want_update, bind, ret.
    repeat (match goal with
            | |- context [if ?b then _ else _] => destruct b
            end; try reflexivity).
  - destruct (Hraise e eq_refl) as [-> | ->]; reflexivity.
Qed.

(** One attempt makes one POST and leaves the appliance alone. *)
Lemma attempt_effect (w : @World Dev Rem) :
  trace (snd (attempt int w))
  = (trace w ++ [post_ev (ModuleParameters.license_url (want w))
                         (ModuleParameters.license_envelope (want w))
                         (fst (answer w))])%list
  /\ device (snd (attempt int w)) = device w
  /\ remote (snd (attempt int w)) = snd (answer w).
Proof.
  rewrite attempt_unfold. cbv zeta.
  destruct (fst (answer w)) as [[err|t]|e|]; try (cbn; auto; fail).
  destruct (json int t) as [result|e|]; try (cbn; auto; fail).
  repeat (match goal with
          | |- context [if ?b then _ else _] => destruct b
          end; try (cbn; auto; fail)).
Qed.

Lemma attempts_transport_errors :
  (forall url data s, exists e s', svc_post url data s = (Raise e, s')) ->
  forall (n : nat) (w : @World Dev Rem),
  exists w' evs,
    attempts int n w = (Ok None, w')
    /\ trace w' = (trace w ++ evs)%list
    /\ length evs = n
    /\ forallb failed_post evs = true
    /\ device w' = device w
    /\ want w' = want w.
Proof.
  intros Hdown. induction n as [|n IH]; intros w.
  - exists w, []. cbn. rewrite app_nil_r. repeat split.
  - destruct (Hdown (ModuleParameters.license_url (want w))
                    (ModuleParameters.license_envelope (want w)) (remote w))
      as (e & s & Hpost).
    assert (Hans : answer w = (Raise e, s)) by exact Hpost.
    destruct (IH (posted w (Raise e) s)) as (w' & evs & Hrun & Htr & Hlen & Hall & Hdev & Hwant).
    exists w', (post_ev (ModuleParameters.license_url (want w))
                        (ModuleParameters.license_envelope (want w)) (Raise e) :: evs).
    cbn [attempts]. unfold bind. rewrite attempt_unfold, Hans. cbn [fst snd].
    rewrite Hrun. repeat split.
    + rewrite Htr. cbn. rewrite <- app_assoc. reflexivity.
    + cbn. now rewrite Hlen.
    + cbn. exact Hall.
    + rewrite Hdev. reflexivity.
    + rewrite Hwant. reflexivity.
Qed.

(** C2. When every POST raises, the loop makes its ten POSTs and nothing
    else, falls out with [None], and [create_on_device] raises the error
    that no licence could be generated; the appliance is not touched. *)
Theorem negotiation_exhausted_after_ten_posts (w : @World Dev Rem) :
  (forall url data s, exists e s', svc_post url data s = (Raise e, s')) ->
  exists w',
    generate_license_from_remote int w = (Ok None, w')
    /\ create_on_device int w
       = (Raise (F5ModuleError
                   (Some "Failed to generate license from F5 activation servers.")),
          w')
    /\ length (new_events w w') = 10
    /\ forallb failed_post (new_events w w') = true
    /\ device w' = device w.
Proof.
  intros Hdown.
  destruct (attempts_transport_errors Hdown 10 w)
    as (w' & evs & Hrun & Htr & Hlen & Hall & Hdev & _).
  exists w'. rewrite (new_events_log _ _ _ Htr).
  unfold create_on_device, bind, generate_license_from_remote, raise.
  rewrite Hrun. auto.
Qed.

(** The run of [n] attempts returns a dictionary only from a response whose
    transaction state is LICENSE_RETURNED, and that response is the last. *)
Lemma attempts_return (n : nat) :
  forall (w w' : @World Dev Rem) (r : Json),
  attempts int n w = (Ok (Some r), w') ->
  exists evs url data t,
    trace w' = (trace w ++ evs ++ [post_ev url data (Ok (WellFormed t))])%list
    /\ json int t = Ok r
    /\ state t = Some "LICENSE_RETURNED".
Proof.
  induction n as [|n IH]; intros w w' r; cbn [attempts].
  - unfold ret. discriminate.
  - unfold bind.
    pose proof (attempt_effect w) as (Htr & _ & _).
    rewrite attempt_unfold in *. cbv zeta in *.
    set (w1 := posted w (fst (answer w)) (snd (answer w))) in *.
    assert (Hcont : forall w2 : @World Dev Rem,
               trace w2 = trace w1 ->
               attempts int n w2 = (Ok (Some r), w') ->
               exists evs url data t,
                 trace w' = (trace w ++ evs ++ [post_ev url data (Ok (WellFormed t))])%list
                 /\ json int t = Ok r /\ state t = Some "LICENSE_RETURNED").
    { intros w2 Hw2 Hrun.
      destruct (IH _ _ _ Hrun) as (evs & url & data & t & Ht & Hj & Hs).
      exists (post_ev (ModuleParameters.license_url (want w))
                      (ModuleParameters.license_envelope (want w))
                      (fst (answer w)) :: evs), url, data, t.
      repeat split; try assumption.
      rewrite Ht, Hw2. subst w1. unfold posted. cbn [trace log with_remote].
      rewrite <- app_assoc. reflexivity. }
    destruct (fst (answer w)) as [[err|t]|e|] eqn:Hans; try discriminate.
    + destruct (json int t) as [result|e|] eqn:Hjson; try discriminate.
      * destruct (py_eq (json_state result) (Some "EULA_REQUIRED")) eqn:He.
        { apply Hcont. reflexivity. }
        destruct (py_eq (json_state result) (Some "LICENSE_RETURNED")) eqn:Hl.
        { unfold ret. intros Heq. inversion Heq; subst result w'.
          exists [], (ModuleParameters.license_url (want w)),
                 (ModuleParameters.license_envelope (want w)), t.
          repeat split; try assumption.
          apply py_eq_true in Hl.
          destruct (json_fields _ Hjson) as (_ & _ & Hst).
          rewrite Hst in Hl. apply or_None_Some. exact Hl. }
        repeat (match goal with
                | |- context [if ?b then _ else _] => destruct b
                end; try discriminate).
      * apply Hcont. reflexivity.
    + apply Hcont. reflexivity.
Qed.

(** C7. [generate_license_from_remote] returns a dictionary only when a
    response carried the transaction state LICENSE_RETURNED: the dictionary
    is that response's, and it is the last one of the run. A response in
    another state (EULA required, or any other) is never returned. *)
Theorem artifact_only_from_license_returned (w w' : @World Dev Rem) (r : Json) :
  generate_license_from_remote int w = (Ok (Some r), w') ->
  json_state r = Some "LICENSE_RETURNED"
  /\ exists evs url data t,
       new_events w w' = (evs ++ [post_ev url data (Ok (WellFormed t))])%list
       /\ json int t = Ok r
       /\ state t = Some "LICENSE_RETURNED".
Proof.
  intros Hrun.
  destruct (attempts_return _ _ Hrun) as (evs & url & data & t & Htr & Hj & Hs).
  split.
  - destruct (json_fields _ Hj) as (_ & _ & ->). rewrite Hs. reflexivity.
  - exists evs, url, data, t. repeat split; try assumption.
    apply new_events_log. exact Htr.
Qed.

(** C10, as the code has it. A well-formed response whose transaction state
    is missing or is none of the four known states ends the run on the spot
    when [json()] reads it: whatever the number of attempts left,
    [F5ModuleError] is raised with the dictionary's fault text (which may be
    [None]) after that one POST. When [json()] raises on it instead (a fault
    number that is no integer), the response is passed over: nothing is
    raised, and the loop goes on with the attempts that are left. *)
Theorem unknown_state_aborts (n : nat) (w : @World Dev Rem)
  (t : Element) (s : Rem) :
  answer w = (Ok (WellFormed t), s) ->
  ~ In (state t)
       [Some "EULA_REQUIRED"; Some "LICENSE_RETURNED";
        Some "EMAIL_REQUIRED"; Some "CONTACT_INFO_REQUIRED"] ->
  let w' := posted w (Ok (WellFormed t)) s in
  new_events w w'
  = [post_ev (ModuleParameters.license_url (want w))
             (ModuleParameters.license_envelope (want w))
             (Ok (WellFormed t))]
  /\ device w' = device w
  /\ match json int t with
     | Ok r => attempts int (S n) w = (Raise (F5ModuleError (json_fault_text r)), w')
     | Raise e => parse_failure e /\ attempts int (S n) w = attempts int n w'
     | Pending => False
     end.
Proof.
  intros Hans Hstate. cbv zeta.
  split; [apply new_events_log; reflexivity|]. split; [reflexivity|].
  destruct (json_sound t) as [Hraise Hpend].
  destruct (json int t) as [r|e|] eqn:Hjson; [| |contradiction].
  - destruct (json_fields _ Hjson) as (_ & _ & Hs).
    cbn [attempts]. unfold bind. rewrite attempt_unfold, Hans. cbn [fst snd].
    rewrite Hjson.
    rewrite !py_eq_false
      by (rewrite Hs; intros Heq; apply or_None_Some in Heq; apply Hstate;
          rewrite Heq; cbn; tauto).
    reflexivity.
  - split; [apply Hraise; reflexivity|].
    cbn [attempts]. unfold bind. rewrite attempt_unfold, Hans. cbn [fst snd].
    rewrite Hjson. reflexivity.
Qed.


End Negotiation.

(** C2 against a service that cannot be reached. *)
Lemma negotiation_exhausted_witness :
  exists w',
    generate_license_from_remote Mock.int Scenario.no_route = (Ok None, w')
    /\ create_on_device Mock.int Scenario.no_route
       = (Raise (F5ModuleError
                   (Some "Failed to generate license from F5 activation servers.")),
          w')
    /\ length (new_events Scenario.no_route w') = 10
    /\ forallb failed_post (new_events Scenario.no_route w') = true
    /\ device w' = device Scenario.no_route.
Proof.
  apply (negotiation_exhausted_after_ten_posts Mock.int Scenario.no_route).
  intros url data s. exists (OtherError "Connection timed out"), s. reflexivity.
Defined.

(** C7 on the run that returns the licence in the second round. *)
Lemma artifact_only_from_license_returned_witness :
  let run := generate_license_from_remote Mock.int Scenario.eula_then_license in
  exists r,
    fst run = Ok (Some r)
    /\ json_state r = Some "LICENSE_RETURNED"
    /\ exists evs url data t,
         new_events Scenario.eula_then_license (snd run)
         = (evs ++ [post_ev url data (Ok (WellFormed t))])%list
         /\ json Mock.int t = Ok r
         /\ state t = Some "LICENSE_RETURNED".
Proof.
  cbv zeta.
  exists {| json_eula := Some "END USER LICENSE AGREEMENT";
            json_license := Some "Licensed date : 20190101";
            json_state := Some "LICENSE_RETURNED";
            json_fault_number := None;
            json_fault_text := None |}.
  split; [vm_compute; reflexivity|].
  apply (artifact_only_from_license_returned Mock.int Scenario.eula_then_license
           (w' := snd (generate_license_from_remote Mock.int Scenario.eula_then_license))).
  vm_compute. reflexivity.
Defined.

(** C10 as the specification states it fails: the first response is well formed
    and has no transaction state, but its fault number is no integer; the
    run does not end there: a second POST is made and brings the licence. *)
Lemma unreadable_fault_is_retried :
  let w := Mock.world Scenario.request Mock.unlicensed
                      Scenario.garbled_then_license_answers in
  let run := generate_license_from_remote Mock.int w in
  fst (answer w) = Ok (WellFormed Scenario.garbled_fault)
  /\ state Scenario.garbled_fault = None
  /\ fst run = Ok (Some {| json_eula := Some "END USER LICENSE AGREEMENT";
                           json_license := Some "Licensed date : 20190101";
                           json_state := Some "LICENSE_RETURNED";
                           json_fault_number := None;
                           json_fault_text := None |})
  /\ new_events w (snd run)
     = [post_ev (ModuleParameters.license_url Scenario.request)
                (ModuleParameters.license_envelope Scenario.request)
                (Ok (WellFormed Scenario.garbled_fault));
        post_ev (ModuleParameters.license_url Scenario.request)
                (ModuleParameters.license_envelope Scenario.request)
                (Ok (WellFormed Scenario.license_returned))].
Proof.
  vm_compute. repeat split.
Qed.

(** C10 as the code has it, on a fault answer that can be read and has no
    transaction state: the licence waiting in the next response is never
    asked for. *)
Lemma unknown_state_aborts_witness :
  let w' := posted Scenario.fault_then_license
                   (Ok (WellFormed Scenario.invalid_key))
                   [Ok (WellFormed Scenario.license_returned)] in
  new_events Scenario.fault_then_license w'
  = [post_ev (ModuleParameters.license_url Scenario.request)
             (ModuleParameters.license_envelope Scenario.request)
             (Ok (WellFormed Scenario.invalid_key))]
  /\ device w' = device Scenario.fault_then_license
  /\ attempts Mock.int 10 Scenario.fault_then_license
     = (Raise (F5ModuleError (Some "This registration key is invalid")), w').
Proof.
  cbv zeta.
  refine (unknown_state_aborts Mock.int 9 Scenario.fault_then_license
            (t := Scenario.invalid_key)
            (s := [Ok (WellFormed Scenario.license_returned)]) eq_refl _).
  vm_compute. intros [Heq | [Heq | [Heq | [Heq | []]]]]; discriminate.
Defined.



(** A well-formed response that cannot be read (the fault number is no
    integer) is passed over: the next POST brings the licence. *)
Example garbled_fault_is_passed_over :
  let run := generate_license_from_remote Mock.int
               (Mock.world Scenario.request Mock.unlicensed
                           Scenario.garbled_then_license_answers) in
  fst run = Ok (Some {| json_eula := Some "END USER LICENSE AGREEMENT";
                        json_license := Some "Licensed date : 20190101";
                        json_state := Some "LICENSE_RETURNED";
                        json_fault_number := None;
                        json_fault_text := None |})
  /\ length (filter is_post (trace (snd run))) = 2.
Proof. vm_compute. split; reflexivity. Qed.

(** ** The EULA round *)

Lemma license_envelope_eula (p : ModuleParameters.t) :
  ModuleParameters.license_envelope p
  = envelope_before_eula p
    ++ eula_open ++ or_empty (ModuleParameters.eula p) ++ eula_close
    ++ envelope_after_eula p.
Proof.
  unfold ModuleParameters.license_envelope, envelope_before_eula, envelope_after_eula,
    format, eula_open, eula_close, nl.
  cbn -[py_str or_empty].
  rewrite !append_assoc_s. cbn -[py_str or_empty].
  reflexivity.
Qed.

Section EulaRound.

Context {Dev Rem : Type} `{DeviceGateway Dev} `{ActivationService Rem}.
Variable int : string -> option Z.

Lemma envelope_update_eula (v : option string) (p : ModuleParameters.t) :
  envelope_before_eula (ModuleParameters.update_eula v p) = envelope_before_eula p
  /\ envelope_after_eula (ModuleParameters.update_eula v p) = envelope_after_eula p
  /\ ModuleParameters.license_url (ModuleParameters.update_eula v p)
     = ModuleParameters.license_url p.
Proof.
  repeat split.
Qed.

(** C3. Against a service that answers the first POST with the state
    EULA_REQUIRED and the second with LICENSE_RETURNED, the run makes
    exactly two POSTs and returns the second response's dictionary. The two
    envelopes differ in the EULA element only: the first carries the
    request's own EULA (empty when none was given), the second the text of
    the first response's EULA node. *)
Theorem eula_round_trip (w : @World Dev Rem) (t1 t2 : Element) (r1 r2 : Json)
  (s1 s2 : Rem) :
  (forall url data, svc_post url data (remote w) = (Ok (WellFormed t1), s1)) ->
  (forall url data, svc_post url data s1 = (Ok (WellFormed t2), s2)) ->
  json int t1 = Ok r1 -> state t1 = Some "EULA_REQUIRED" ->
  json int t2 = Ok r2 -> state t2 = Some "LICENSE_RETURNED" ->
  exists w' first second,
    generate_license_from_remote int w = (Ok (Some r2), w')
    /\ new_events w w'
       = [post_ev (ModuleParameters.license_url (want w)) first (Ok (WellFormed t1));
          post_ev (ModuleParameters.license_url (want w)) second (Ok (WellFormed t2))]
    /\ first = envelope_before_eula (want w)
               ++ eula_open ++ or_empty (ModuleParameters.eula (want w)) ++ eula_close
               ++ envelope_after_eula (want w)
    /\ second = envelope_before_eula (want w)
                ++ eula_open ++ or_empty (eula t1) ++ eula_close
                ++ envelope_after_eula (want w).
Proof.
  intros Hfirst Hsecond Hj1 Hs1 Hj2 Hs2.
  destruct (json_fields _ _ Hj1) as (He1 & _ & Hst1).
  destruct (json_fields _ _ Hj2) as (_ & _ & Hst2).
  rewrite Hs1 in Hst1. rewrite Hs2 in Hst2. cbn [or_None] in Hst1, Hst2.
  set (w1 := posted w (Ok (WellFormed t1)) s1).
  set (w2 := with_want (ModuleParameters.update_eula (json_eula r1) (want w1)) w1).
  assert (Hans1 : answer w = (Ok (WellFormed t1), s1)) by apply Hfirst.
  assert (Hans2 : answer w2 = (Ok (WellFormed t2), s2)) by apply Hsecond.
  exists (posted w2 (Ok (WellFormed t2)) s2),
         (ModuleParameters.license_envelope (want w)),
         (ModuleParameters.license_envelope (want w2)).
  repeat split.
  - unfold generate_license_from_remote.
    change (attempts int 10 w) with (bind (attempt int) (fun r => match r with Return result => ret (Some result) | Continue => attempts int 9 end) w).
    unfold bind at 1. rewrite attempt_unfold, Hans1. cbn [fst snd].
    rewrite Hj1, Hst1. cbn [py_eq String.eqb Ascii.eqb Bool.eqb].
    fold w1. fold w2.
    change (attempts int 9 w2) with (bind (attempt int) (fun r => match r with Return result => ret (Some result) | Continue => attempts int 8 end) w2).
    unfold bind at 1. rewrite attempt_unfold, Hans2. cbn [fst snd].
    rewrite Hj2, Hst2. reflexivity.
  - apply new_events_log. subst w2 w1. unfold posted.
    cbn [trace log with_remote with_want want]. rewrite <- app_assoc. reflexivity.
  - apply license_envelope_eula.
  - rewrite license_envelope_eula.
    change (want w2) with (ModuleParameters.update_eula (json_eula r1) (want w)).
    destruct (envelope_update_eula (json_eula r1) (want w)) as (-> & -> & _).
    cbn [ModuleParameters.eula ModuleParameters.update_eula].
    rewrite He1, or_empty_or_None. reflexivity.
Qed.

End EulaRound.

(** C3 on a request that came without an EULA. *)
Lemma eula_round_trip_witness :
  exists w' first second,
    generate_license_from_remote Mock.int Scenario.eula_then_license
    = (Ok (Some {| json_eula := Some "END USER LICENSE AGREEMENT";
                   json_license := Some "Licensed date : 20190101";
                   json_state := Some "LICENSE_RETURNED";
                   json_fault_number := None;
                   json_fault_text := None |}), w')
    /\ new_events Scenario.eula_then_license w'
       = [post_ev (ModuleParameters.license_url Scenario.request) first
                  (Ok (WellFormed Scenario.eula_required));
          post_ev (ModuleParameters.license_url Scenario.request) second
                  (Ok (WellFormed Scenario.license_returned))]
    /\ first = envelope_before_eula Scenario.request
               ++ eula_open ++ EmptyString ++ eula_close
               ++ envelope_after_eula Scenario.request
    /\ second = envelope_before_eula Scenario.request
                ++ eula_open ++ "END USER LICENSE AGREEMENT" ++ eula_close
                ++ envelope_after_eula Scenario.request.
Proof.
  apply (eula_round_trip Mock.int Scenario.eula_then_license
           (t1 := Scenario.eula_required) (t2 := Scenario.license_returned)
           (r1 := {| json_eula := Some "END USER LICENSE AGREEMENT";
                     json_license := None;
                     json_state := Some "EULA_REQUIRED";
                     json_fault_number := None;
                     json_fault_text := None |})
           (s1 := [Ok (WellFormed Scenario.license_returned)]) (s2 := []));
    try reflexivity; intros url data; reflexivity.
Defined.

(** ** The stability loop *)

Lemma trailing_oks_snoc (l : list bool) (b : bool) :
  trailing_oks (l ++ [b]) = if b then S (trailing_oks l) else 0.
Proof.
  unfold trailing_oks. rewrite rev_app_distr. cbn. destruct b; reflexivity.
Qed.

Lemma count_oks_trailing (l : list bool) : count_oks 0 l = trailing_oks l.
Proof.
  induction l as [|b l IH] using rev_ind; [reflexivity|].
  unfold count_oks in *. rewrite fold_left_app, trailing_oks_snoc. cbn.
  rewrite IH. destruct b; lia.
Qed.

Section Settle.

Context {Dev Rem : Type} `{DeviceGateway Dev} `{ActivationService Rem}.

(** One readiness check: it never raises, and a query that raised counts
    as a negative signal. *)
Lemma is_mcpd_ready_unfold (w : @World Dev Rem) :
  _is_mcpd_ready_on_device w =
  let r := fst (gw_bash mcp_state_query (device w)) in
  let w1 := log (bash_ev mcp_state_query r)
                (with_device (snd (gw_bash mcp_state_query (device w))) w) in
  match r with
  | Pending => (Pending, w1)
  | _ => (Ok (check_signal r), w1)
  end.
Proof.
  unfold _is_mcpd_ready_on_device, try_except, bind, tm_util_bash_exec_cmd, ret.
  fold mcp_state_query.
  destruct (gw_bash mcp_state_query (device w)) as [[out|e|] d]; cbn [fst snd];
    try reflexivity.
  cbn [check_signal]. destruct (commandResult out); reflexivity.
Qed.

(** One turn of the loop: a positive signal adds one to the counter, a
    negative signal or a query error puts it back to zero. The handler that
    would keep the counter is never reached. *)
Lemma wait_for_mcpd_loop_step (fuel nops : nat) (w : @World Dev Rem) :
  nops < 4 ->
  wait_for_mcpd_loop (S fuel) nops w =
  let r := fst (gw_bash mcp_state_query (device w)) in
  let w1 := log (bash_ev mcp_state_query r)
                (with_device (snd (gw_bash mcp_state_query (device w))) w) in
  match r with
  | Pending => (Pending, w1)
  | _ => wait_for_mcpd_loop fuel (if check_signal r then nops + 1 else 0)
                            (log (sleep_ev 5) w1)
  end.
Proof.
  intros Hlt. cbn [wait_for_mcpd_loop].
  apply Nat.ltb_lt in Hlt. rewrite Hlt.
  unfold bind at 1. unfold try_except, bind at 1.
  rewrite is_mcpd_ready_unfold. cbv zeta.
  destruct (fst (gw_bash mcp_state_query (device w))) as [out|e|]; try reflexivity.
  destruct (check_signal (Ok out)); reflexivity.
Qed.

Lemma wait_for_mcpd_loop_done (fuel nops : nat) (w : @World Dev Rem) :
  4 <= nops -> wait_for_mcpd_loop fuel nops w = (Ok tt, w).
Proof.
  intros Hge. apply Nat.ltb_ge in Hge.
  destruct fuel; cbn [wait_for_mcpd_loop]; rewrite Hge; reflexivity.
Qed.

Lemma wait_for_mcpd_loop_spec (fuel : nat) :
  forall (nops : nat) (w : @World Dev Rem),
  exists evs,
    trace (snd (wait_for_mcpd_loop fuel nops w)) = (trace w ++ evs)%list
    /\ length (signals evs) <= fuel
    /\ (forall k, k < length (signals evs) ->
                  count_oks nops (firstn k (signals evs)) < 4)
    /\ match fst (wait_for_mcpd_loop fuel nops w) with
       | Ok _ => count_oks nops (signals evs) = Nat.max nops 4
       | Pending => count_oks nops (signals evs) < 4
       | Raise _ => False
       end.
Proof.
  induction fuel as [|fuel IH]; intros nops w.
  - exists []. rewrite app_nil_r. cbn [wait_for_mcpd_loop].
    destruct (Nat.ltb nops 4) eqn:Hlt; cbn.
    + apply Nat.ltb_lt in Hlt. repeat split; try lia; try (intros k Hk; cbn in Hk; lia).
    + apply Nat.ltb_ge in Hlt. repeat split; try lia; try (intros k Hk; cbn in Hk; lia).
  - destruct (Nat.lt_ge_cases nops 4) as [Hlt|Hge].
    + rewrite (wait_for_mcpd_loop_step fuel w Hlt). cbv zeta.
      set (r := fst (gw_bash mcp_state_query (device w))).
      set (w1 := log (bash_ev mcp_state_query r)
                     (with_device (snd (gw_bash mcp_state_query (device w))) w)).
      assert (Hstep : forall nops' : nat,
                 nops' = (if check_signal r then nops + 1 else 0) ->
                 exists evs,
                   trace (snd (wait_for_mcpd_loop fuel nops' (log (sleep_ev 5) w1)))
                   = (trace w ++ evs)%list
                   /\ length (signals evs) <= S fuel
                   /\ (forall k, k < length (signals evs) ->
                                 count_oks nops (firstn k (signals evs)) < 4)
                   /\ match fst (wait_for_mcpd_loop fuel nops' (log (sleep_ev 5) w1)) with
                      | Ok _ => count_oks nops (signals evs) = Nat.max nops 4
                      | Pending => count_oks nops (signals evs) < 4
                      | Raise _ => False
                      end).
      { intros nops' Hn.
        destruct (IH nops' (log (sleep_ev 5) w1)) as (evs & Htr & Hlen & Hpre & Hres).
        exists (bash_ev mcp_state_query r :: sleep_ev 5 :: evs).
        assert (Hsig : signals (bash_ev mcp_state_query r :: sleep_ev 5 :: evs)
                       = check_signal r :: signals evs) by reflexivity.
        rewrite Hsig.
        assert (Hcount : forall l, count_oks nops (check_signal r :: l) = count_oks nops' l).
        { intros l. unfold count_oks. cbn [fold_left]. rewrite Hn. reflexivity. }
        repeat split.
        - rewrite Htr. subst w1. cbn [trace log with_device].
          rewrite <- !app_assoc. reflexivity.
        - cbn [length]. lia.
        - intros [|k] Hk; [cbn; exact Hlt|].
          cbn [firstn]. rewrite Hcount. apply Hpre. cbn [length] in Hk. lia.
        - rewrite Hcount.
          destruct (fst (wait_for_mcpd_loop fuel nops' (log (sleep_ev 5) w1)));
            try assumption.
          rewrite Hres. subst nops'. destruct (check_signal r); lia. }
      destruct r as [out|e|] eqn:Hr.
      * apply Hstep. reflexivity.
      * apply Hstep. reflexivity.
      * exists [bash_ev mcp_state_query Pending]. cbn [fst snd].
        repeat split.
        -- cbn. lia.
        -- intros [|k] Hk; cbn in Hk; [cbn; exact Hlt | lia].
        -- cbn. lia.
    + rewrite (wait_for_mcpd_loop_done (S fuel) w Hge). exists []. cbn [fst snd].
      rewrite app_nil_r. cbn. repeat split; try lia; try (intros k Hk; cbn in Hk; lia).
Qed.



(** From a counter of zero, the run as a whole: the counter is the number
    of positive signals in a row at the end of what was seen. *)
Lemma wait_for_mcpd_spec (fuel : nat) (w : @World Dev Rem) :
  let run := wait_for_mcpd fuel w in
  let sigs := signals (new_events w (snd run)) in
  length sigs <= fuel
  /\ (forall k, k < length sigs -> trailing_oks (firstn k sigs) < 4)
  /\ match fst run with
     | Ok _ => trailing_oks sigs = 4
     | Pending => trailing_oks sigs < 4
     | Raise _ => False
     end.
Proof.
  cbv zeta. unfold wait_for_mcpd, bind, time_sleep.
  destruct (wait_for_mcpd_loop_spec fuel 0 (log (sleep_ev 5) w))
    as (evs & Htr & Hlen & Hpre & Hres).
  destruct (wait_for_mcpd_loop fuel 0 (log (sleep_ev 5) w)) as [r w'] eqn:Hrun.
  cbn [fst snd] in *.
  assert (Hnew : new_events w (match r with
                               | Ok _ | Raise _ | Pending => w'
                               end) = sleep_ev 5 :: evs).
  { apply new_events_log. destruct r; rewrite Htr; cbn [trace log];
      rewrite <- app_assoc; reflexivity. }
  assert (Hsnd : snd (match r with
                      | Ok a => (Ok a, w')
                      | Raise e => (Raise e, w')
                      | Pending => (Pending, w')
                      end) = w') by (destruct r; reflexivity).
  assert (Hfst : fst (match r with
                      | Ok a => (Ok a, w')
                      | Raise e => (Raise e, w')
                      | Pending => (Pending, w')
                      end) = r) by (destruct r as [[]| |]; reflexivity).
  destruct r as [[]|e|]; cbn [fst snd]; cbn [fst snd] in Hnew; rewrite Hnew;
    change (signals (sleep_ev 5 :: evs)) with (signals evs);
    (split; [exact Hlen|]);
    (split; [intros k Hk; rewrite <- count_oks_trailing; apply Hpre; exact Hk|]);
    first [exact Hres | rewrite <- count_oks_trailing; exact Hres].
Qed.

End Settle.


(** ** Escaping the licence text *)

Lemma escaped_class_cases (c : ascii) :
  escaped_class c = true ->
  c <> backslash /\ c <> ascii_of_nat 10.
Proof.
  unfold escaped_class, escape_patterns. cbn [existsb].
  intros Hc. split; intros ->; vm_compute in Hc; discriminate.
Qed.

Lemma re_sub_escape_head (s : string) :
  match re_sub_escape escape_patterns s with
  | EmptyString => s = EmptyString
  | String d _ => escaped_class d = false
  end.
Proof.
  destruct s as [|c s]; cbn [re_sub_escape]; [reflexivity|].
  fold (escaped_class c). destruct (escaped_class c) eqn:Hc; [reflexivity | exact Hc].
Qed.

(** Escaping only adds backslashes: dropping them gives the text back. *)
Lemma strip_escapes_re_sub_escape (s : string) :
  strip_escapes (re_sub_escape escape_patterns s) = s.
Proof.
  induction s as [|c s IH]; [reflexivity|].
  cbn [re_sub_escape]. fold (escaped_class c).
  destruct (escaped_class c) eqn:Hc.
  - cbn [strip_escapes]. rewrite Hc. cbn. rewrite IH. reflexivity.
  - pose proof (re_sub_escape_head s) as Hhead.
    cbn [strip_escapes].
    destruct (re_sub_escape escape_patterns s) as [|d rest] eqn:Hesc.
    + subst s. reflexivity.
    + rewrite Hhead, andb_false_r. rewrite IH. reflexivity.
Qed.

(** In the payload every character of the class has a backslash before it. *)
Lemma re_sub_escape_escaped (s : string) :
  forall (i : nat) (c : ascii),
  String.get i (re_sub_escape escape_patterns s) = Some c ->
  escaped_class c = true ->
  exists j, i = S j
            /\ String.get j (re_sub_escape escape_patterns s) = Some backslash.
Proof.
  induction s as [|a s IH]; intros i c Hget Hc; [discriminate|].
  cbn [re_sub_escape] in *. fold (escaped_class a) in *.
  destruct (escaped_class a) eqn:Ha.
  - destruct i as [|[|i]]; cbn [String.get] in Hget.
    + inversion Hget; subst c. destruct (escaped_class_cases _ Hc) as [Hne _].
      contradiction.
    + exists 0. split; reflexivity.
    + destruct (IH _ _ Hget Hc) as (j & -> & Hj). exists (S (S j)).
      split; [reflexivity | exact Hj].
  - destruct i as [|i]; cbn [String.get] in Hget.
    + inversion Hget; subst c. congruence.
    + destruct (IH _ _ Hget Hc) as (j & -> & Hj). exists (S j).
      split; [reflexivity | exact Hj].
Qed.

Lemma split_lines_nonempty (s : string) : split_lines s <> [].
Proof.
  destruct s as [|c s]; cbn [split_lines]; [discriminate|].
  destruct (Ascii.eqb c (ascii_of_nat 10)); [discriminate|].
  destruct (split_lines s); discriminate.
Qed.

Lemma split_lines_re_sub_escape (s : string) :
  split_lines (re_sub_escape escape_patterns s)
  = map (re_sub_escape escape_patterns) (split_lines s).
Proof.
  induction s as [|c s IH]; [reflexivity|].
  cbn [re_sub_escape]. fold (escaped_class c).
  destruct (escaped_class c) eqn:Hc.
  - destruct (escaped_class_cases _ Hc) as [_ Hnl].
    apply Ascii.eqb_neq in Hnl.
    cbn [split_lines]. rewrite Hnl. change (Ascii.eqb "\" (ascii_of_nat 10)) with false.
    cbv iota. rewrite IH.
    pose proof (split_lines_nonempty s) as Hne.
    destruct (split_lines s) as [|l ls]; [contradiction|].
    cbn [map re_sub_escape]. fold (escaped_class c). rewrite Hc. reflexivity.
  - cbn [split_lines]. destruct (Ascii.eqb c (ascii_of_nat 10)) eqn:Hnl.
    + rewrite IH. reflexivity.
    + rewrite IH.
      pose proof (split_lines_nonempty s) as Hne.
      destruct (split_lines s) as [|l ls]; [contradiction|].
      cbn [map re_sub_escape]. fold (escaped_class c). rewrite Hc. reflexivity.
Qed.

Lemma re_sub_escape_is_EOF (l : string) :
  String.eqb "EOF" (re_sub_escape escape_patterns l) = String.eqb "EOF" l.
Proof.
  destruct (String.eqb "EOF" l) eqn:Hl.
  - apply String.eqb_eq in Hl. subst l. reflexivity.
  - destruct (String.eqb "EOF" (re_sub_escape escape_patterns l)) eqn:He; [|reflexivity].
    apply String.eqb_eq in He.
    assert (Hback : strip_escapes (re_sub_escape escape_patterns l) = l)
      by apply strip_escapes_re_sub_escape.
    rewrite <- He in Hback. cbn in Hback. subst l. discriminate.
Qed.

(** Escaping leaves a terminator line a terminator line, and makes none. *)
Lemma heredoc_collision_re_sub_escape (s : string) :
  heredoc_collision (re_sub_escape escape_patterns s) = heredoc_collision s.
Proof.
  unfold heredoc_collision. rewrite split_lines_re_sub_escape.
  induction (split_lines s) as [|l ls IH]; [reflexivity|].
  cbn [map existsb]. rewrite re_sub_escape_is_EOF, IH. reflexivity.
Qed.

Section Upload.

Context {Dev Rem : Type} `{DeviceGateway Dev} `{ActivationService Rem}.

(** C8, as the code has it. The command that writes the licence is the
    here-document around the escaped licence text, sent in one [bash] call.
    In the payload every dollar sign, double quote and single quote has a
    backslash before it, and dropping those backslashes gives the licence
    text back. Nothing is done about the terminator: the payload has a line
    that is the terminator exactly when the licence text has one. *)
Theorem license_upload_escapes (license : Json) (text : string) (w : @World Dev Rem) :
  json_license license = Some text ->
  let payload := re_sub_escape escape_patterns text in
  new_events w (snd (upload_license_to_device license w))
  = [bash_ev (license_write_command payload)
             (fst (gw_bash (license_write_command payload) (device w)))]
  /\ (forall i c, String.get i payload = Some c ->
                  In c escape_patterns ->
                  exists j, i = S j /\ String.get j payload = Some backslash)
  /\ strip_escapes payload = text
  /\ heredoc_collision payload = heredoc_collision text.
Proof.
  intros Hlic payload. split; [|split; [|split]].
  - apply new_events_log.
    unfold upload_license_to_device. rewrite Hlic.
    unfold bind, tm_util_bash_exec_cmd, ret.
    fold payload. fold (license_write_command payload).
    destruct (gw_bash (license_write_command payload) (device w)) as [[out|e|] d];
      reflexivity.
  - intros i c Hget Hin. apply (re_sub_escape_escaped text i Hget).
    unfold escaped_class. apply existsb_exists. exists c. split; [exact Hin|].
    apply Ascii.eqb_refl.
  - apply strip_escapes_re_sub_escape.
  - apply heredoc_collision_re_sub_escape.
Qed.

End Upload.

(** C8 as the specification states it fails: the licence text has a double quote and
    a dollar sign, both are escaped in the command, and still the body of the
    here-document has a line that is its terminator; what follows that line
    is not written to the file. *)
Lemma heredoc_terminator_collides :
  let run := upload_license_to_device Scenario.hostile_license Scenario.removal in
  let payload := re_sub_escape escape_patterns Scenario.hostile_text in
  py_in dq Scenario.hostile_text = true
  /\ py_in "$" Scenario.hostile_text = true
  /\ trace (snd run) = [bash_ev (license_write_command payload) (Ok Mock.no_output)]
  /\ payload = "key \" ++ dq ++ "\$1\" ++ dq ++ nl ++ "EOF" ++ nl ++ "reboot"
  /\ heredoc_collision payload = true.
Proof.
  vm_compute. repeat split.
Qed.

(** C8 as the code has it, on the same licence text. *)
Lemma license_upload_escapes_witness :
  let payload := re_sub_escape escape_patterns Scenario.hostile_text in
  new_events Scenario.removal
             (snd (upload_license_to_device Scenario.hostile_license Scenario.removal))
  = [bash_ev (license_write_command payload)
             (fst (gw_bash (license_write_command payload) (device Scenario.removal)))]
  /\ (forall i c, String.get i payload = Some c ->
                  In c escape_patterns ->
                  exists j, i = S j /\ String.get j payload = Some backslash)
  /\ strip_escapes payload = Scenario.hostile_text
  /\ heredoc_collision payload = heredoc_collision Scenario.hostile_text.
Proof.
  exact (license_upload_escapes Scenario.hostile_license Scenario.removal
           (text := Scenario.hostile_text) eq_refl).
Defined.

(** ** Removal *)

Section Removal.

Context {Dev Rem : Type} `{DeviceGateway Dev} `{ActivationService Rem}.

Lemma removal_unfold (path : string) (w : @World Dev Rem) :
  try_except (tm_util_unix_rm_exec_cmd path ;; ret true) removal_handler w =
  let r := fst (gw_unix_rm path (device w)) in
  let w1 := log (unix_rm_ev path r) (with_device (snd (gw_unix_rm path (device w))) w) in
  match r with
  | Ok _ => (Ok true, w1)
  | Pending => (Pending, w1)
  | Raise e => if file_not_found r then (Ok true, w1) else (Raise (surfaced e), w1)
  end.
Proof.
  unfold try_except, bind, tm_util_unix_rm_exec_cmd, ret, removal_handler, raise.
  destruct (gw_unix_rm path (device w)) as [[out|e|] d]; cbn [fst snd]; try reflexivity.
  destruct e; cbn [file_not_found str_exn surfaced]; try reflexivity.
  destruct (py_in "No such file or directory" msg); reflexivity.
Qed.

(** [remove_from_device], by what its three calls come to. *)
Lemma remove_from_device_unfold (w : @World Dev Rem)
  (r1 r2 r3 : result CmdOutput) (d1 d2 d3 : Dev) :
  gw_unix_rm "/config/bigip.license" (device w) = (r1, d1) ->
  gw_unix_rm "/LICENSE.F5" d1 = (r2, d2) ->
  gw_bash reload_command d2 = (r3, d3) ->
  let w1 := log (unix_rm_ev "/config/bigip.license" r1) (with_device d1 w) in
  let w2 := log (unix_rm_ev "/LICENSE.F5" r2) (with_device d2 w1) in
  let w3 := log (bash_ev reload_command r3) (with_device d3 w2) in
  let reload := match r3 with
                | Ok _ => (Ok tt, w3)
                | Raise e => (Raise e, w3)
                | Pending => (Pending, w3)
                end in
  let eula_file := match r2 with
                   | Ok _ => reload
                   | Raise e => if file_not_found r2 then reload
                                else (Raise (surfaced e), w2)
                   | Pending => (Pending, w2)
                   end in
  remove_from_device w =
  match r1 with
  | Ok _ => eula_file
  | Raise e => if file_not_found r1 then eula_file else (Raise (surfaced e), w1)
  | Pending => (Pending, w1)
  end.
Proof.
  intros Hrm1 Hrm2 Hbash. cbv zeta.
  set (w1 := log (unix_rm_ev "/config/bigip.license" r1) (with_device d1 w)).
  set (w2 := log (unix_rm_ev "/LICENSE.F5" r2) (with_device d2 w1)).
  set (w3 := log (bash_ev reload_command r3) (with_device d3 w2)).
  assert (Hstep3 : reload_license w2 =
                   match r3 with
                   | Ok _ => (Ok true, w3)
                   | Pending => (Pending, w3)
                   | Raise e => (Raise e, w3)
                   end).
  { unfold reload_license, bind, tm_util_bash_exec_cmd, ret. fold reload_command.
    change (device w2) with d2. rewrite Hbash. destruct r3; reflexivity. }
  assert (Hstep2 : (result <- remove_eula_from_device ;;
                    if negb result then
                      raise (F5ModuleError (Some "Failed to remove EULA file from device."))
                    else
                      result <- reload_license ;;
                      if negb result then
                        raise (F5ModuleError
                                 (Some "Failed to reload the empty license configuration."))
                      else ret tt) w1 =
                   match r2 with
                   | Ok _ => match r3 with
                             | Ok _ => (Ok tt, w3)
                             | Raise e => (Raise e, w3)
                             | Pending => (Pending, w3)
                             end
                   | Raise e => if file_not_found r2
                                then match r3 with
                                     | Ok _ => (Ok tt, w3)
                                     | Raise e => (Raise e, w3)
                                     | Pending => (Pending, w3)
                                     end
                                else (Raise (surfaced e), w2)
                   | Pending => (Pending, w2)
                   end).
  { unfold bind at 1. unfold remove_eula_from_device. rewrite removal_unfold.
    change (device w1) with d1. rewrite Hrm2. cbn [fst snd]. fold w2.
    assert (Hreload : (result <- reload_license ;;
                       if negb result then
                         raise (F5ModuleError
                                  (Some "Failed to reload the empty license configuration."))
                       else ret tt) w2 =
                      match r3 with
                      | Ok _ => (Ok tt, w3)
                      | Raise e => (Raise e, w3)
                      | Pending => (Pending, w3)
                      end).
    { unfold bind. rewrite Hstep3. destruct r3; reflexivity. }
    destruct r2 as [out|e|]; cbn [negb]; try exact Hreload; try reflexivity.
    destruct (file_not_found (Raise e)); cbn [negb]; [exact Hreload | reflexivity]. }
  unfold remove_from_device. unfold bind at 1.
  unfold remove_license_from_device. rewrite removal_unfold, Hrm1. cbn [fst snd]. fold w1.
  destruct r1 as [out|e|]; cbn [negb]; try exact Hstep2; try reflexivity.
  destruct (file_not_found (Raise e)); cbn [negb]; [exact Hstep2 | reflexivity].
Qed.

(** With a licence on the appliance and outside check mode, [absent] starts
    with the removal, and an exception of the removal is the exception of
    [absent]. *)
Lemma absent_removal_failure (fuel : nat) (w w' : @World Dev Rem)
  (reg : Registration) (key : string) (e : exn) :
  check_mode w = false ->
  gw_registration_load (device w) = Ok reg ->
  registrationKey reg = Some (Some key) ->
  remove_from_device (log (registration_load_ev (Ok reg)) w) = (Raise e, w') ->
  absent fuel w = (Raise e, w').
Proof.
  intros Hcheck Hload Hkey Hrm.
  unfold absent, bind at 1. unfold any_license_exists, bind at 1.
  unfold tm_shared_licensing_registration_load. rewrite Hload.
  cbn [ret]. unfold ret at 1. rewrite Hkey.
  unfold bind at 1. unfold remove, bind at 1. unfold get_check_mode.
  cbn [check_mode log]. rewrite Hcheck.
  unfold bind at 1. rewrite Hrm. reflexivity.
Qed.

(** C9. In [absent] on a licensed appliance, outside check mode, with
    [r1] what the removal of the licence file comes to and [r2] what the
    removal of the EULA file comes to after it: a file that is not there
    counts as removed, so the EULA file is removed after a licence file that
    was missing, and the reload is run after an EULA file that was missing;
    the removal then returns when the reload does. Any other exception of
    either removal ends [absent] there: it is raised to the caller
    ([UtilError] as [F5ModuleError] with the same text) and no call follows
    the removal that failed. *)
Theorem removal_tolerates_missing_files (fuel : nat) (w : @World Dev Rem)
  (reg : Registration) (key : string)
  (r1 r2 r3 : result CmdOutput) (d1 d2 d3 : Dev) :
  check_mode w = false ->
  gw_registration_load (device w) = Ok reg ->
  registrationKey reg = Some (Some key) ->
  gw_unix_rm "/config/bigip.license" (device w) = (r1, d1) ->
  gw_unix_rm "/LICENSE.F5" d1 = (r2, d2) ->
  gw_bash reload_command d2 = (r3, d3) ->
  let w0 := log (registration_load_ev (Ok reg)) w in
  let removal := remove_from_device w0 in
  let run := absent fuel w in
  let rm_license := unix_rm_ev "/config/bigip.license" r1 in
  let rm_eula := unix_rm_ev "/LICENSE.F5" r2 in
  let reload := bash_ev reload_command r3 in
  (file_not_found r1 = true ->
     exists evs, new_events w0 (snd removal) = rm_license :: rm_eula :: evs)
  /\ (removed r1 = true -> file_not_found r2 = true ->
        new_events w0 (snd removal) = [rm_license; rm_eula; reload]
        /\ (forall out, r3 = Ok out -> fst removal = Ok tt))
  /\ (forall e, r1 = Raise e -> file_not_found r1 = false ->
        fst run = Raise (surfaced e)
        /\ new_events w (snd run) = [registration_load_ev (Ok reg); rm_license])
  /\ (removed r1 = true -> forall e, r2 = Raise e -> file_not_found r2 = false ->
        fst run = Raise (surfaced e)
        /\ new_events w (snd run)
           = [registration_load_ev (Ok reg); rm_license; rm_eula]).
Proof.
  intros Hcheck Hload Hkey Hrm1 Hrm2 Hbash. cbv zeta.
  set (w0 := log (registration_load_ev (Ok reg)) w).
  assert (Hrm1' : gw_unix_rm "/config/bigip.license" (device w0) = (r1, d1)) by exact Hrm1.
  pose proof (remove_from_device_unfold w0 Hrm1' Hrm2 Hbash) as Hrun. cbv zeta in Hrun.
  set (w1 := log (unix_rm_ev "/config/bigip.license" r1) (with_device d1 w0)) in *.
  set (w2 := log (unix_rm_ev "/LICENSE.F5" r2) (with_device d2 w1)) in *.
  set (w3 := log (bash_ev reload_command r3) (with_device d3 w2)) in *.
  assert (Htr1 : new_events w0 w1 = [unix_rm_ev "/config/bigip.license" r1])
    by (apply new_events_log; reflexivity).
  assert (Htr2 : new_events w0 w2 = [unix_rm_ev "/config/bigip.license" r1;
                                     unix_rm_ev "/LICENSE.F5" r2]).
  { apply new_events_log. subst w2 w1. cbn [trace log with_device].
    rewrite <- app_assoc. reflexivity. }
  assert (Htr3 : new_events w0 w3 = [unix_rm_ev "/config/bigip.license" r1;
                                     unix_rm_ev "/LICENSE.F5" r2;
                                     bash_ev reload_command r3]).
  { apply new_events_log. subst w3 w2 w1. cbn [trace log with_device].
    rewrite <- !app_assoc. reflexivity. }
  assert (Hall1 : new_events w w1 = [registration_load_ev (Ok reg);
                                     unix_rm_ev "/config/bigip.license" r1]).
  { apply new_events_log. subst w1 w0. cbn [trace log with_device].
    rewrite <- app_assoc. reflexivity. }
  assert (Hall2 : new_events w w2 = [registration_load_ev (Ok reg);
                                     unix_rm_ev "/config/bigip.license" r1;
                                     unix_rm_ev "/LICENSE.F5" r2]).
  { apply new_events_log. subst w2 w1 w0. cbn [trace log with_device].
    rewrite <- !app_assoc. reflexivity. }
  assert (Hreload : snd (match r3 with
                         | Ok _ => (Ok tt, w3)
                         | Raise e => (@Raise unit e, w3)
                         | Pending => (Pending, w3)
                         end) = w3) by (destruct r3; reflexivity).
  split; [|split; [|split]].
  - intros Hfnf. rewrite Hrun.
    destruct r1 as [out|e1|]; cbn [file_not_found] in Hfnf; try discriminate.
    cbn [file_not_found]. rewrite Hfnf.
    destruct r2 as [out|e2|]; [| destruct (file_not_found (Raise e2)) |];
      try (rewrite Hreload, Htr3; eexists; reflexivity);
      cbn [snd]; rewrite Htr2; exists []; reflexivity.
  - intros Hok Hfnf. rewrite Hrun.
    destruct r2 as [out|e2|]; cbn [file_not_found] in Hfnf; try discriminate.
    cbn [file_not_found]. rewrite Hfnf.
    destruct r1 as [out|e1|]; cbn [removed] in Hok; try discriminate;
      try rewrite Hok; rewrite Hreload, Htr3;
      (split; [reflexivity | intros out' ->; reflexivity]).
  - intros e -> Hfnf. rewrite Hfnf in Hrun.
    assert (Habs : absent fuel w = (Raise (surfaced e), w1))
      by (eapply absent_removal_failure; eassumption).
    rewrite Habs.
    cbn [fst snd]. rewrite Hall1. split; reflexivity.
  - intros Hok e -> Hfnf. rewrite Hfnf in Hrun.
    assert (Hrun' : remove_from_device w0 = (Raise (surfaced e), w2)).
    { rewrite Hrun. destruct r1 as [out|e1|]; cbn [removed] in Hok; try discriminate;
        try rewrite Hok; reflexivity. }
    assert (Habs : absent fuel w = (Raise (surfaced e), w2))
      by (eapply absent_removal_failure; eassumption).
    rewrite Habs.
    cbn [fst snd]. rewrite Hall2. split; reflexivity.
Qed.

End Removal.

(** C9 on an appliance whose licence file is already gone and whose EULA
    file cannot be removed. *)
Lemma removal_tolerates_missing_files_witness :
  fst (absent 0 Scenario.removal)
  = Raise (F5ModuleError
             (Some "rm: cannot remove '/LICENSE.F5': Operation not permitted"))
  /\ new_events Scenario.removal (snd (absent 0 Scenario.removal))
     = [registration_load_ev (Ok {| registrationKey := Some (Some "XXXXX-XXXXX") |});
        unix_rm_ev "/config/bigip.license"
          (Raise (UtilError
                    "rm: cannot remove '/config/bigip.license': No such file or directory"));
        unix_rm_ev "/LICENSE.F5"
          (Raise (UtilError "rm: cannot remove '/LICENSE.F5': Operation not permitted"))].
Proof.
  refine (proj2 (proj2 (proj2
            (removal_tolerates_missing_files 0 Scenario.removal
               (reg := {| registrationKey := Some (Some "XXXXX-XXXXX") |})
               (key := "XXXXX-XXXXX")
               (r1 := Raise (UtilError
                  "rm: cannot remove '/config/bigip.license': No such file or directory"))
               (r2 := Raise (UtilError
                  "rm: cannot remove '/LICENSE.F5': Operation not permitted"))
               (r3 := Ok Mock.no_output)
               (d1 := snd (gw_unix_rm "/config/bigip.license" (device Scenario.removal)))
               (d2 := snd (gw_unix_rm "/LICENSE.F5"
                             (snd (gw_unix_rm "/config/bigip.license"
                                              (device Scenario.removal)))))
               (d3 := snd (gw_unix_rm "/LICENSE.F5"
                             (snd (gw_unix_rm "/config/bigip.license"
                                              (device Scenario.removal)))))
               eq_refl eq_refl eq_refl eq_refl eq_refl eq_refl)))
            eq_refl _ eq_refl eq_refl).
Defined.

(** * Further properties *)

(** ** The parser *)

Lemma prefix_spec (a b : string) :
  String.prefix a b = true <-> exists rest, b = a ++ rest.
Proof.
  revert b. induction a as [|x a IH]; intros b.
  - split; [intros _; exists b; reflexivity | destruct b; reflexivity].
  - destruct b as [|y b]; cbn [String.prefix].
    + split; [discriminate | intros [rest Heq]; discriminate].
    + destruct (Ascii.ascii_dec x y) as [->|Hne].
      * rewrite IH. split; intros [rest Heq]; exists rest.
        -- cbn. now rewrite Heq.
        -- cbn in Heq. now inversion Heq.
      * split; [discriminate|]. intros [rest Heq]. cbn in Heq. congruence.
Qed.

(** [needle in hay] holds exactly when [hay] has [needle] somewhere in it. *)
Lemma py_in_spec (needle hay : string) :
  py_in needle hay = true <-> exists before after, hay = before ++ needle ++ after.
Proof.
  induction hay as [|c hay IH]; cbn [py_in]; rewrite orb_true_iff, prefix_spec.
  - split.
    + intros [[rest Heq] | Hfalse]; [|discriminate].
      exists EmptyString, rest. exact Heq.
    + intros (before & after & Heq). left. destruct before; [|discriminate].
      exists after. exact Heq.
  - rewrite IH. split.
    + intros [[rest Heq] | (before & after & Heq)].
      * exists EmptyString, rest. exact Heq.
      * exists (String c before), after. cbn. now rewrite Heq.
    + intros (before & after & Heq). destruct before as [|b before].
      * left. exists after. exact Heq.
      * right. cbn in Heq. inversion Heq. exists before, after. reflexivity.
Qed.

Lemma find_first (A : Type) (f : A -> bool) (l : list A) :
  match find f l with
  | Some x => exists l1 l2, l = (l1 ++ x :: l2)%list /\ f x = true
                            /\ forall y, In y l1 -> f y = false
  | None => forall y, In y l -> f y = false
  end.
Proof.
  induction l as [|a l IH]; cbn [find].
  - intros y [].
  - destruct (f a) eqn:Hfa.
    + exists [], l. repeat split; [exact Hfa | intros y []].
    + destruct (find f l) as [x|].
      * destruct IH as (l1 & l2 & -> & Hx & Hl1). exists (a :: l1), l2.
        repeat split; [exact Hx|]. intros y [<- | Hy]; [exact Hfa | now apply Hl1].
      * intros y [<- | Hy]; [exact Hfa | now apply IH].
Qed.

Lemma marked_spec (value : string) (elem : Element) :
  marked value elem = true
  <-> exists key val before after,
        In (key, val) (attrib elem) /\ val = before ++ value ++ after.
Proof.
  unfold marked. rewrite existsb_exists. split.
  - intros ([key val] & Hin & Hsub). apply py_in_spec in Hsub.
    destruct Hsub as (before & after & Heq). exists key, val, before, after. auto.
  - intros (key & val & before & after & Hin & Heq). exists (key, val).
    split; [exact Hin|]. apply py_in_spec. exists before, after. exact Heq.
Qed.

(** X1. [find_element] gives the first [multiRef] below the root, in
    document order, one of whose attribute values (of any attribute) has
    [value] somewhere in it; it gives [None] exactly when no [multiRef]
    below the root has such an attribute. *)
Theorem find_element_first_marked (content : Element) (value : string) :
  match find_element content value with
  | Some elem =>
      exists earlier later,
        findall_descendants "multiRef" content = (earlier ++ elem :: later)%list
        /\ (exists key val before after,
              In (key, val) (attrib elem) /\ val = before ++ value ++ after)
        /\ (forall other, In other earlier -> marked value other = false)
  | None =>
      forall elem key val before after,
        In elem (flat_map iter (children content)) ->
        tag elem = "multiRef" ->
        In (key, val) (attrib elem) ->
        val <> before ++ value ++ after
  end.
Proof.
  unfold find_element.
  pose proof (find_first (marked value) (findall_descendants "multiRef" content)) as Hfind.
  fold (marked value).
  change (fun elem : Element =>
            existsb (fun kv : string * string => py_in value (snd kv)) (attrib elem))
    with (marked value).
  destruct (find (marked value) (findall_descendants "multiRef" content)) as [elem|].
  - destruct Hfind as (earlier & later & Heq & Hmark & Hearlier).
    exists earlier, later. repeat split; try assumption.
    apply marked_spec. exact Hmark.
  - intros elem key val before after Hin Htag Hattr Hval.
    assert (Hmr : In elem (findall_descendants "multiRef" content)).
    { unfold findall_descendants. apply filter_In. split; [exact Hin|].
      rewrite Htag. reflexivity. }
    specialize (Hfind elem Hmr).
    assert (Htrue : marked value elem = true).
    { apply marked_spec. exists key, val, before, after. auto. }
    congruence.
Qed.

Section Parser.

Variable int : string -> option Z.

Lemma fault_step_cases (f : Fault) (elem : Element) :
  if bad_fault_number int elem
  then exists e, fault_step int (Ok f) elem = Raise e
  else exists f', fault_step int (Ok f) elem = Ok f'.
Proof.
  unfold bad_fault_number, fault_step. cbn [rbind].
  destruct (String.eqb (tag elem) "faultNumber"); cbn [andb].
  - pose proof (int_text_not_pending int (text elem)) as Hnp.
    destruct (int_text int (text elem)) as [n|e|]; cbn [rbind]; eauto. contradiction.
  - destruct (String.eqb (tag elem) "faultText"); [|eauto].
    destruct (attrib_get xsi_nil (attrib elem)) as [v|]; [|eauto].
    repeat (match goal with
            | |- context [match ?x with _ => _ end] => destruct x
            end; eauto).
Qed.

Lemma fault_fold_raise (l : list Element) (e : exn) :
  fold_left (fault_step int) l (Raise e) = Raise e.
Proof.
  induction l as [|elem l IH]; [reflexivity | exact IH].
Qed.

Lemma fault_fold_cases (l : list Element) :
  forall f,
  if existsb (bad_fault_number int) l
  then exists e, fold_left (fault_step int) l (Ok f) = Raise e
  else exists f', fold_left (fault_step int) l (Ok f) = Ok f'.
Proof.
  induction l as [|elem l IH]; intros f; cbn [existsb fold_left]; [eauto|].
  pose proof (fault_step_cases f elem) as Hstep.
  destruct (bad_fault_number int elem); cbn [orb].
  - destruct Hstep as [e ->]. exists e. apply fault_fold_raise.
  - destruct Hstep as [f' ->]. apply IH.
Qed.

(** X2. [json()] raises exactly when the document has a licensing fault one
    of whose [faultNumber] children has no text or a text that is no
    integer; what it raises then is [TypeError] or [ValueError], never the
    module's own error. On every other document it returns. *)
Theorem json_raises_on_unreadable_fault_number (content : Element) :
  ((exists e, json int content = Raise e)
   <-> exists root, find_element content "LicensingFault" = Some root
                    /\ existsb (bad_fault_number int) (children root) = true)
  /\ (forall e, json int content = Raise e -> e = TypeError \/ e = ValueError)
  /\ json int content <> Pending.
Proof.
  destruct (json_sound int content) as [Hfail Hpend].
  split; [|split; [exact Hfail | exact Hpend]].
  unfold json, fault_number, fault_text, get_fault.
  destruct (find_element content "LicensingFault") as [root|]; cbn [rbind].
  - pose proof (fault_fold_cases (children root)
                  {| faultNumber := None; faultText := None |}) as Hfold.
    destruct (existsb (bad_fault_number int) (children root)) eqn:Hbad.
    + destruct Hfold as [e ->]. cbn [rbind]. split.
      * intros _. exists root. split; [reflexivity | exact Hbad].
      * intros _. exists e. reflexivity.
    + destruct Hfold as [f ->]. cbn [rbind].
      split.
      * intros [e He]. destruct (faultNumber f); discriminate.
      * intros (root' & Heq & Hbad'). inversion Heq; subst root'. congruence.
  - split.
    + intros [e He]. discriminate.
    + intros (root & Heq & _). discriminate.
Qed.

Lemma or_None_not_empty (x : option string) : or_None x <> Some EmptyString.
Proof.
  destruct x as [[|c s]|]; discriminate.
Qed.

Lemma or_None_iff (x : option string) (s : string) :
  or_None x = Some s <-> x = Some s /\ s <> EmptyString.
Proof.
  destruct x as [[|c r]|]; cbn; split; try discriminate.
  - intros [Heq Hne]. inversion Heq. congruence.
  - intros Heq. inversion Heq. split; [reflexivity | discriminate].
  - intros [Heq _]. exact Heq.
  - intros [Heq _]. discriminate.
Qed.

Lemma nil_match (A : Type) (elem : Element) (a b : A) :
  match attrib_get xsi_nil (attrib elem) with
  | Some "true" => a
  | _ => b
  end = if is_nil elem then a else b.
Proof.
  unfold is_nil. destruct (attrib_get xsi_nil (attrib elem)) as [v|]; [|reflexivity].
  destruct (String.eqb_spec v "true") as [->|Hne]; [reflexivity|].
  repeat (match goal with
          | |- context [match ?x with _ => _ end] => destruct x
          end; try reflexivity).
  contradiction.
Qed.

Lemma last_child_snoc (name : string) (l : list Element) (x : Element) :
  last_child name (l ++ [x])
  = if String.eqb (tag x) name then Some x else last_child name l.
Proof.
  unfold last_child. rewrite rev_app_distr. reflexivity.
Qed.

Lemma fault_fold_ok_snoc (l : list Element) (x : Element) (f0 f : Fault) :
  fold_left (fault_step int) (l ++ [x]) (Ok f0) = Ok f ->
  exists f', fold_left (fault_step int) l (Ok f0) = Ok f'
             /\ fault_step int (Ok f') x = Ok f.
Proof.
  rewrite fold_left_app. cbn [fold_left].
  destruct (fold_left (fault_step int) l (Ok f0)) as [f'|e|]; try discriminate.
  intros Hstep. exists f'. auto.
Qed.

(** What the loop of [get_fault] leaves under each key: the reading of the
    last child with that tag. *)
Lemma fault_fold_last (l : list Element) :
  forall f0 f,
  fold_left (fault_step int) l (Ok f0) = Ok f ->
  faultText f = match last_child "faultText" l with
                | Some elem => Some (if is_nil elem then None else text elem)
                | None => faultText f0
                end
  /\ match last_child "faultNumber" l with
     | Some elem => exists n, int_text int (text elem) = Ok n
                              /\ faultNumber f = Some (Some n)
     | None => faultNumber f = faultNumber f0
     end.
Proof.
  induction l as [|x l IH] using rev_ind; intros f0 f Hfold.
  - cbn in Hfold. inversion Hfold. split; reflexivity.
  - destruct (fault_fold_ok_snoc _ _ _ Hfold) as (f' & Hl & Hstep).
    destruct (IH _ _ Hl) as [Htext Hnum].
    rewrite !last_child_snoc.
    unfold fault_step in Hstep. cbn [rbind] in Hstep.
    destruct (String.eqb (tag x) "faultNumber") eqn:Hn.
    + apply String.eqb_eq in Hn. rewrite Hn. cbn [String.eqb Ascii.eqb Bool.eqb andb].
      destruct (int_text int (text x)) as [n|e|] eqn:Hint; cbn [rbind] in Hstep;
        try discriminate.
      inversion Hstep. cbn. split; [exact Htext | eauto].
    + destruct (String.eqb (tag x) "faultText") eqn:Ht.
      * rewrite nil_match in Hstep.
        destruct (is_nil x); inversion Hstep; cbn; split; try reflexivity; exact Hnum.
      * inversion Hstep; subst f'. split; assumption.
Qed.

(** The fault text of the dictionary, when the document has a licensing
    fault. *)
Lemma fault_text_of_last_child (content root : Element) (result : Json) :
  find_element content "LicensingFault" = Some root ->
  json int content = Ok result ->
  json_fault_text result
  = match last_child "faultText" (children root) with
    | Some elem => if is_nil elem then None else or_None (text elem)
    | None => None
    end.
Proof.
  intros Hroot Hjson.
  unfold json, fault_number, fault_text, get_fault in Hjson. rewrite Hroot in Hjson.
  destruct (fold_left (fault_step int) (children root)
              (Ok {| faultNumber := None; faultText := None |})) as [f|e|] eqn:Hfold;
    cbn [rbind] in Hjson; try discriminate.
  destruct (fault_fold_last _ _ Hfold) as [Htext _].
  assert (Hres : json_fault_text result
                 = or_None (match faultText f with Some v => v | None => None end)).
  { destruct (faultNumber f) as [v|] eqn:Hfn; cbn [rbind] in Hjson;
      inversion Hjson; reflexivity. }
  rewrite Hres, Htext.
  destruct (last_child "faultText" (children root)) as [elem|]; [|reflexivity].
  destruct (is_nil elem); reflexivity.
Qed.

(** X3. In the dictionary [json()] returns no text is the empty string, and
    [None] stands for a missing node, a node without text and a node with an
    empty text alike. The EULA, the licence and the state are there exactly
    when the node the parser reads them from has a text that is not empty.
    The fault text is there exactly when the document has a licensing fault
    whose last [faultText] child is not marked nil and has a text that is
    not empty; without a licensing fault the fault number and the fault text
    are [None]. *)
Theorem json_coalesces_empty_text (content : Element) (result : Json) :
  json int content = Ok result ->
  (forall s, json_eula result = Some s <-> eula content = Some s /\ s <> EmptyString)
  /\ (forall s, json_license result = Some s
                <-> license content = Some s /\ s <> EmptyString)
  /\ (forall s, json_state result = Some s <-> state content = Some s /\ s <> EmptyString)
  /\ (forall s, json_fault_text result = Some s
                <-> exists root elem,
                      find_element content "LicensingFault" = Some root
                      /\ last_child "faultText" (children root) = Some elem
                      /\ is_nil elem = false
                      /\ text elem = Some s /\ s <> EmptyString)
  /\ (find_element content "LicensingFault" = None ->
      json_fault_number result = None /\ json_fault_text result = None).
Proof.
  intros Hjson.
  destruct (json_fields int content Hjson) as (He & Hl & Hs).
  assert (Hnone : find_element content "LicensingFault" = None ->
                  json_fault_number result = None /\ json_fault_text result = None).
  { intros Hnone. unfold json, fault_number, fault_text, get_fault in Hjson.
    rewrite Hnone in Hjson. cbn in Hjson. inversion Hjson. cbn. auto. }
  rewrite He, Hl, Hs.
  split; [|split; [|split; [|split]]]; try (intros s; apply or_None_iff);
    [|exact Hnone].
  intros s.
  destruct (find_element content "LicensingFault") as [root|] eqn:Hroot.
  - rewrite (fault_text_of_last_child content Hroot Hjson). split.
    + intros Htext. exists root.
      destruct (last_child "faultText" (children root)) as [elem|]; [|discriminate].
      exists elem. destruct (is_nil elem); [discriminate|].
      apply or_None_iff in Htext. tauto.
    + intros (root' & elem & Hr & Hlast & Hnil & Htext & Hne).
      inversion Hr; subst root'. rewrite Hlast, Hnil.
      apply or_None_iff. split; assumption.
  - destruct (Hnone eq_refl) as [_ ->]. split; [discriminate|].
    intros (root & _ & Hr & _). discriminate.
Qed.

(** X4. Of a licensing fault with several [faultText] or [faultNumber]
    children the last one counts. A [faultText] whose [xsi:nil] attribute is the word true
    gives no fault text, whatever text the element holds; otherwise its text
    is the fault text (an empty one counting as none). *)
Theorem fault_reads_last_children (content root : Element) (result : Json) :
  find_element content "LicensingFault" = Some root ->
  json int content = Ok result ->
  json_fault_text result
  = match last_child "faultText" (children root) with
    | Some elem => if is_nil elem then None else or_None (text elem)
    | None => None
    end
  /\ match last_child "faultNumber" (children root) with
     | Some elem => exists n, int_text int (text elem) = Ok n
                              /\ json_fault_number result = Some n
     | None => json_fault_number result = None
     end.
Proof.
  intros Hroot Hjson.
  unfold json, fault_number, fault_text, get_fault in Hjson. rewrite Hroot in Hjson.
  destruct (fold_left (fault_step int) (children root)
              (Ok {| faultNumber := None; faultText := None |})) as [f|e|] eqn:Hfold;
    cbn [rbind] in Hjson; try discriminate.
  destruct (fault_fold_last _ _ Hfold) as [Htext Hnum].
  assert (Hres : json_fault_text result
                 = or_None (match faultText f with Some v => v | None => None end)
                 /\ json_fault_number result
                    = match faultNumber f with Some v => v | None => None end).
  { destruct (faultNumber f) as [v|] eqn:Hfn; cbn [rbind] in Hjson;
      inversion Hjson; cbn; rewrite ?Hfn; auto. }
  destruct Hres as [-> ->]. rewrite Htext. split.
  - destruct (last_child "faultText" (children root)) as [elem|]; [|reflexivity].
    destruct (is_nil elem); reflexivity.
  - destruct (last_child "faultNumber" (children root)) as [elem|].
    + destruct Hnum as (n & Hint & ->). exists n. auto.
    + rewrite Hnum. reflexivity.
Qed.

End Parser.

(** ** The calls of a whole run *)

Lemma same_request_refl (p : ModuleParameters.t) : same_request p p.
Proof.
  exists (ModuleParameters.eula p), (ModuleParameters.dossier p).
  destruct p; reflexivity.
Qed.

Lemma same_request_trans (p q r : ModuleParameters.t) :
  same_request p q -> same_request q r -> same_request p r.
Proof.
  intros (e & d & ->) (e' & d' & ->). exists e', d'. reflexivity.
Qed.

Lemma same_request_eula (p : ModuleParameters.t) (v : option string) :
  same_request p (ModuleParameters.update_eula v p).
Proof.
  exists v, (ModuleParameters.dossier p). destruct p; reflexivity.
Qed.

Lemma same_request_dossier (p : ModuleParameters.t) (v : option string) :
  same_request p (ModuleParameters.update_dossier v p).
Proof.
  exists (ModuleParameters.eula p), v. destruct p; reflexivity.
Qed.

Section Runs.

Context {Dev Rem : Type} `{DeviceGateway Dev} `{ActivationService Rem}.
Variable int : string -> option Z.

(** The calls allowed for a request, allowed alike for every request that
    is the same but for EULA and dossier. *)
Variable P : ModuleParameters.t -> event -> Prop.
Hypothesis P_stable : forall p p' ev, same_request p p' -> P p' ev -> P p ev.

Let R : @World Dev Rem -> @World Dev Rem -> Prop := run_rel P.

Lemma run_rel_refl (w : @World Dev Rem) : R w w.
Proof.
  split; [apply same_request_refl|]. split; [reflexivity|].
  exists []. rewrite app_nil_r. auto.
Qed.

Lemma run_rel_trans (w1 w2 w3 : @World Dev Rem) : R w1 w2 -> R w2 w3 -> R w1 w3.
Proof.
  intros (Hreq & Hcheck & evs & Htr & Hall) (Hreq' & Hcheck' & evs' & Htr' & Hall').
  split; [eapply same_request_trans; eassumption|].
  split; [congruence|].
  exists (evs ++ evs')%list. split.
  - rewrite Htr', Htr, app_assoc. reflexivity.
  - apply Forall_app. split; [exact Hall|].
    eapply Forall_impl; [|exact Hall']. intros ev. apply P_stable. exact Hreq.
Qed.

(** One call: the world after it, when the request and check mode stay and
    the event is allowed. *)
Lemma run_rel_log (w : @World Dev Rem) (ev : event) (d : Dev) (s : Rem) :
  P (want w) ev -> R w (log ev (with_remote s (with_device d w))).
Proof.
  intros Hev. split; [apply same_request_refl|]. split; [reflexivity|].
  exists [ev]. auto.
Qed.

Lemma respects_ret (A : Type) (a : A) : respects R (ret a).
Proof. intros w. apply run_rel_refl. Qed.

Lemma respects_raise (A : Type) (e : exn) : respects R (@raise _ A e).
Proof. intros w. apply run_rel_refl. Qed.

Lemma respects_pending (A : Type) : respects R (@pending _ A).
Proof. intros w. apply run_rel_refl. Qed.

Lemma respects_lift (A : Type) (r : result A) : respects R (lift r).
Proof. intros w. apply run_rel_refl. Qed.

Lemma respects_bind (A B : Type) (m : M (@World Dev Rem) A)
  (k : A -> M (@World Dev Rem) B) :
  respects R m -> (forall a, respects R (k a)) -> respects R (bind m k).
Proof.
  intros Hm Hk w. unfold bind. specialize (Hm w).
  destruct (m w) as [[a|e|] w']; cbn [snd] in *; try exact Hm.
  eapply run_rel_trans; [exact Hm | apply Hk].
Qed.

Lemma respects_try_except (A : Type) (m : M (@World Dev Rem) A)
  (handler : exn -> M (@World Dev Rem) A) :
  respects R m -> (forall e, respects R (handler e)) -> respects R (try_except m handler).
Proof.
  intros Hm Hh w. unfold try_except. specialize (Hm w).
  destruct (m w) as [[a|e|] w']; cbn [snd] in *; try exact Hm.
  eapply run_rel_trans; [exact Hm | apply Hh].
Qed.

Lemma respects_get_want : respects R get_want.
Proof. intros w. apply run_rel_refl. Qed.

Lemma respects_get_check_mode : respects R get_check_mode.
Proof. intros w. apply run_rel_refl. Qed.

Lemma respects_set_changed_options : respects R _set_changed_options.
Proof. apply respects_ret. Qed.

Lemma respects_update_eula (v : option string) :
  respects R (want_update (ModuleParameters.update_eula v)).
Proof.
  intros w. split; [apply same_request_eula|]. split; [reflexivity|].
  exists []. cbn. rewrite app_nil_r. auto.
Qed.

Lemma respects_update_dossier (v : option string) :
  respects R (want_update (ModuleParameters.update_dossier v)).
Proof.
  intros w. split; [apply same_request_dossier|]. split; [reflexivity|].
  exists []. cbn. rewrite app_nil_r. auto.
Qed.

Lemma respects_load :
  (forall p r, P p (registration_load_ev r)) ->
  respects R tm_shared_licensing_registration_load.
Proof.
  intros HP w. unfold tm_shared_licensing_registration_load. cbn [snd].
  apply (run_rel_log w (device w) (remote w)). apply HP.
Qed.

Lemma respects_bash (args : string) :
  (forall p r, P p (bash_ev args r)) -> respects R (tm_util_bash_exec_cmd args).
Proof.
  intros HP w. unfold tm_util_bash_exec_cmd.
  destruct (gw_bash args (device w)) as [r d]. cbn [snd].
  apply (run_rel_log w d (remote w)). apply HP.
Qed.

Lemma respects_unix_rm (args : string) :
  (forall p r, P p (unix_rm_ev args r)) -> respects R (tm_util_unix_rm_exec_cmd args).
Proof.
  intros HP w. unfold tm_util_unix_rm_exec_cmd.
  destruct (gw_unix_rm args (device w)) as [r d]. cbn [snd].
  apply (run_rel_log w d (remote w)). apply HP.
Qed.

Lemma respects_sleep (seconds : nat) :
  (forall p, P p (sleep_ev seconds)) -> respects R (time_sleep seconds).
Proof.
  intros HP w. unfold time_sleep. cbn [snd].
  apply (run_rel_log w (device w) (remote w)). apply HP.
Qed.

Ltac respects_step :=
  match goal with
  | |- respects _ (bind _ _) => apply respects_bind; [| intro]
  | |- respects _ (try_except _ _) => apply respects_try_except; [| intro]
  | |- respects _ (ret _) => apply respects_ret
  | |- respects _ (raise _) => apply respects_raise
  | |- respects _ pending => apply respects_pending
  | |- respects _ (lift _) => apply respects_lift
  | |- respects _ get_want => apply respects_get_want
  | |- respects _ get_check_mode => apply respects_get_check_mode
  | |- respects _ _set_changed_options => apply respects_set_changed_options
  | |- respects _ (want_update (ModuleParameters.update_eula _)) =>
      apply respects_update_eula
  | |- respects _ (want_update (ModuleParameters.update_dossier _)) =>
      apply respects_update_dossier
  | |- respects _ (if ?b then _ else _) => destruct b
  | |- respects _ (match ?x with _ => _ end) => destruct x
  end.

Hypothesis P_load : forall p r, P p (registration_load_ev r).

Lemma respects_exists : respects R exists_.
Proof.
  unfold exists_. repeat respects_step. apply respects_load, P_load.
Qed.

Lemma respects_any_license_exists : respects R any_license_exists.
Proof.
  unfold any_license_exists. repeat respects_step. apply respects_load, P_load.
Qed.

Hypothesis P_query : forall p r, P p (bash_ev mcp_state_query r).
Hypothesis P_sleep : forall p, P p (sleep_ev 5).

Lemma respects_is_mcpd_ready : respects R _is_mcpd_ready_on_device.
Proof.
  unfold _is_mcpd_ready_on_device. fold mcp_state_query.
  repeat respects_step. apply respects_bash, P_query.
Qed.

Lemma respects_wait_for_mcpd_loop (fuel : nat) :
  forall nops, respects R (wait_for_mcpd_loop fuel nops).
Proof.
  induction fuel as [|fuel IH]; intros nops; cbn [wait_for_mcpd_loop];
    repeat respects_step;
    try apply respects_is_mcpd_ready; try apply respects_sleep, P_sleep; try apply IH.
Qed.

Lemma respects_wait_for_mcpd (fuel : nat) : respects R (wait_for_mcpd fuel).
Proof.
  unfold wait_for_mcpd. repeat respects_step;
    [apply respects_sleep, P_sleep | apply respects_wait_for_mcpd_loop].
Qed.

Hypothesis P_reload : forall p r, P p (bash_ev reload_command r).

Lemma respects_reload_license : respects R reload_license.
Proof.
  unfold reload_license. fold reload_command. cbv zeta.
  repeat respects_step. apply respects_bash, P_reload.
Qed.

Section RemovalCalls.

Hypothesis P_rm_license : forall p r, P p (unix_rm_ev "/config/bigip.license" r).
Hypothesis P_rm_eula : forall p r, P p (unix_rm_ev "/LICENSE.F5" r).

Lemma respects_removal_handler (e : exn) : respects R (removal_handler e).
Proof.
  unfold removal_handler. repeat respects_step.
Qed.

Lemma respects_remove_from_device : respects R remove_from_device.
Proof.
  unfold remove_from_device, remove_license_from_device, remove_eula_from_device.
  repeat respects_step;
    try apply respects_removal_handler; try apply respects_reload_license;
    apply respects_unix_rm; assumption.
Qed.

Lemma respects_remove : respects R remove.
Proof.
  unfold remove. repeat respects_step;
    try apply respects_remove_from_device; apply respects_exists.
Qed.

Lemma respects_absent (fuel : nat) : respects R (absent fuel).
Proof.
  unfold absent. repeat respects_step;
    try apply respects_any_license_exists; try apply respects_remove;
    try apply respects_wait_for_mcpd; apply respects_exists.
Qed.

End RemovalCalls.

Section InstallCalls.

Hypothesis P_dossier :
  forall p r, P p (get_dossier_ev ("-b " ++ py_str (ModuleParameters.license_key p)) r).
Hypothesis P_post :
  forall p e d r,
    P p (post_ev (ModuleParameters.license_url p)
                 (ModuleParameters.license_envelope
                    (ModuleParameters.update_dossier d (ModuleParameters.update_eula e p)))
                 r).
Hypothesis P_write_license : forall p payload r, P p (bash_ev (license_write_command payload) r).
Hypothesis P_write_eula : forall p payload r, P p (bash_ev (eula_write_command payload) r).

Lemma respects_read_dossier : respects R read_dossier_from_device.
Proof.
  intros w. unfold read_dossier_from_device, bind, get_want, tm_util_get_dossier_exec_cmd, ret.
  destruct (gw_get_dossier _ (device w)) as [[out|e|] d]; cbn [snd];
    apply (run_rel_log w d (remote w)); apply P_dossier.
Qed.

Lemma envelope_of_request (p : ModuleParameters.t) :
  ModuleParameters.license_envelope p
  = ModuleParameters.license_envelope
      (ModuleParameters.update_dossier (ModuleParameters.dossier p)
         (ModuleParameters.update_eula (ModuleParameters.eula p) p)).
Proof.
  destruct p; reflexivity.
Qed.

Lemma respects_attempt : respects R (attempt int).
Proof.
  intros w. rewrite attempt_unfold. cbv zeta.
  assert (Hpost : R w (posted w (fst (answer w)) (snd (answer w)))).
  { unfold posted. apply (run_rel_log w (device w) (snd (answer w))).
    rewrite envelope_of_request. apply P_post. }
  assert (Hupd : forall v,
             R w (with_want (ModuleParameters.update_eula v
                               (want (posted w (fst (answer w)) (snd (answer w)))))
                            (posted w (fst (answer w)) (snd (answer w))))).
  { intros v. eapply run_rel_trans; [exact Hpost|].
    apply (respects_update_eula v). }
  destruct (fst (answer w)) as [[err|t]|e|]; cbn [snd]; try exact Hpost.
  destruct (json int t) as [result|e|]; cbn [snd]; try exact Hpost.
  repeat (match goal with
          | |- context [if ?b then _ else _] => destruct b
          end; cbn [snd]; try exact Hpost; try apply Hupd).
Qed.

Lemma respects_attempts (n : nat) : respects R (attempts int n).
Proof.
  induction n as [|n IH]; cbn [attempts]; repeat respects_step;
    try apply respects_attempt; apply IH.
Qed.

Lemma respects_generate : respects R (generate_license_from_remote int).
Proof. apply respects_attempts. Qed.

Lemma respects_upload_license (license : Json) :
  respects R (upload_license_to_device license).
Proof.
  unfold upload_license_to_device. cbv zeta.
  destruct (json_license license) as [text|]; repeat respects_step.
  apply (respects_bash (args := license_write_command (re_sub_escape escape_patterns text))).
  intros p r. apply P_write_license.
Qed.

Lemma respects_upload_eula (license : Json) :
  respects R (upload_eula_to_device license).
Proof.
  unfold upload_eula_to_device. cbv zeta.
  destruct (json_eula license) as [text|]; repeat respects_step.
  apply (respects_bash (args := eula_write_command (re_sub_escape escape_patterns text))).
  intros p r. apply P_write_eula.
Qed.

Lemma respects_create_on_device : respects R (create_on_device int).
Proof.
  unfold create_on_device. repeat respects_step;
    try apply respects_generate; try apply respects_upload_license;
    try apply respects_upload_eula; apply respects_reload_license.
Qed.

Lemma respects_create (fuel : nat) : respects R (create int fuel).
Proof.
  unfold create. repeat respects_step;
    try apply respects_read_dossier; try apply respects_create_on_device;
    try apply respects_wait_for_mcpd; apply respects_exists.
Qed.

Lemma respects_present (fuel : nat) : respects R (present int fuel).
Proof.
  unfold present. repeat respects_step;
    try apply respects_create; apply respects_exists.
Qed.

End InstallCalls.

End Runs.

Lemma present_call_stable (p p' : ModuleParameters.t) (ev : event) :
  same_request p p' -> present_call p' ev -> present_call p ev.
Proof.
  intros (e & d & ->). destruct ev as [r|args r|args r|args r|url data r|seconds];
    cbn [present_call]; tauto.
Qed.

(** X5. Whatever the appliance and the activation service do, [present]
    makes no call outside its repertoire: it reads the registration, asks
    for the dossier of the licence key, posts to the licence server of the
    request an envelope of that request (only EULA and dossier may differ),
    writes the two files, reloads, asks for readiness and sleeps five
    seconds. It never removes a file, and it leaves the request as it was
    but for EULA and dossier. *)
Theorem present_makes_only_its_calls {Dev Rem : Type} `{DeviceGateway Dev}
  `{ActivationService Rem} (int : string -> option Z) (fuel : nat) (w : @World Dev Rem) :
  let w' := snd (present int fuel w) in
  Forall (present_call (want w)) (new_events w w')
  /\ same_request (want w) (want w')
  /\ check_mode w' = check_mode w.
Proof.
  cbv zeta.
  destruct (@respects_present Dev Rem _ _ int present_call present_call_stable)
    with (fuel := fuel) (w := w) as (Hreq & Hcheck & evs & Htr & Hall);
    try (intros; cbn [present_call]; eauto 6; fail).
  rewrite (new_events_log _ _ _ Htr). auto.
Qed.

(** X6. Whatever the appliance does, [absent] makes no call outside its
    repertoire: it reads the registration, removes the licence file and the
    EULA file, reloads, asks for readiness and sleeps five seconds. It
    never posts to the activation service, never asks for a dossier and
    never writes a file. *)
Theorem absent_makes_only_its_calls {Dev Rem : Type} `{DeviceGateway Dev}
  `{ActivationService Rem} (fuel : nat) (w : @World Dev Rem) :
  let w' := snd (absent fuel w) in
  Forall (absent_call (want w)) (new_events w w')
  /\ check_mode w' = check_mode w.
Proof.
  cbv zeta.
  destruct (@respects_absent Dev Rem _ absent_call) with (fuel := fuel) (w := w)
    as (Hreq & Hcheck & evs & Htr & Hall);
    try (intros; cbn [absent_call]; auto; fail).
  rewrite (new_events_log _ _ _ Htr). auto.
Qed.

(** ** Rounds of the negotiation *)

Lemma update_eula_self (p : ModuleParameters.t) :
  ModuleParameters.update_eula (ModuleParameters.eula p) p = p.
Proof.
  destruct p; reflexivity.
Qed.

Section Rounds.

Context {Dev Rem : Type} `{DeviceGateway Dev} `{ActivationService Rem}.
Variable int : string -> option Z.

(** One attempt: one POST of the request as it stands, after which only the
    EULA of the request may have changed. *)
Lemma attempt_frame (w : @World Dev Rem) :
  let w' := snd (attempt int w) in
  trace w' = (trace w ++ [post_ev (ModuleParameters.license_url (want w))
                                  (ModuleParameters.license_envelope (want w))
                                  (fst (answer w))])%list
  /\ device w' = device w
  /\ check_mode w' = check_mode w
  /\ exists e, want w' = ModuleParameters.update_eula e (want w).
Proof.
  cbv zeta. rewrite attempt_unfold. cbv zeta.
  assert (Hself : exists e, want w = ModuleParameters.update_eula e (want w))
    by (exists (ModuleParameters.eula (want w)); symmetry; apply update_eula_self).
  destruct (fst (answer w)) as [[err|t]|e|]; try (cbn; auto; fail).
  destruct (json int t) as [result|e|]; try (cbn; auto; fail).
  repeat (match goal with
          | |- context [if ?b then _ else _] => destruct b
          end; try (cbn; auto; fail)).
  cbn. repeat split. eexists. reflexivity.
Qed.




(** X8. A response that asks for an e-mail address or for contact
    information ends the negotiation on the spot, whatever the number of
    attempts left: the module's error says which of the two is missing, and
    that POST was the last. *)
Theorem contact_requests_abort (n : nat) (w : @World Dev Rem)
  (t : Element) (result : Json) (s : Rem) :
  answer w = (Ok (WellFormed t), s) ->
  json int t = Ok result ->
  json_state result = Some "EMAIL_REQUIRED"
  \/ json_state result = Some "CONTACT_INFO_REQUIRED" ->
  attempts int (S n) w
  = (Raise (F5ModuleError
              (Some (if py_eq (json_state result) (Some "EMAIL_REQUIRED")
                     then "Email must be provided"
                     else "Contact info must be provided"))),
     posted w (Ok (WellFormed t)) s)
  /\ new_events w (posted w (Ok (WellFormed t)) s)
     = [post_ev (ModuleParameters.license_url (want w))
                (ModuleParameters.license_envelope (want w))
                (Ok (WellFormed t))].
Proof.
  intros Hans Hjson Hstate.
  split; [|apply new_events_log; reflexivity].
  cbn [attempts]. unfold bind. rewrite attempt_unfold, Hans. cbn [fst snd].
  rewrite Hjson. destruct Hstate as [-> | ->]; reflexivity.
Qed.

Lemma attempts_go_on :
  (forall url data s, goes_on int (fst (svc_post url data s)) = true) ->
  forall (n : nat) (w : @World Dev Rem),
  exists evs,
    attempts int n w = (Ok None, snd (attempts int n w))
    /\ trace (snd (attempts int n w)) = (trace w ++ evs)%list
    /\ length evs = n
    /\ forallb is_post evs = true.
Proof.
  intros Hon. induction n as [|n IH]; intros w.
  - exists []. cbn. rewrite app_nil_r. auto.
  - cbn [attempts]. unfold bind.
    pose proof (Hon (ModuleParameters.license_url (want w))
                    (ModuleParameters.license_envelope (want w)) (remote w)) as Hw.
    fold (answer w) in Hw.
    destruct (attempt_frame w) as (Htr & _).
    assert (Hcont : fst (attempt int w) = Ok Continue).
    { rewrite attempt_unfold. cbv zeta. unfold goes_on in Hw.
      destruct (fst (answer w)) as [[err|t]|e|]; try discriminate; try reflexivity.
      destruct (json int t) as [result|e|]; try discriminate; try reflexivity.
      rewrite Hw. reflexivity. }
    destruct (attempt int w) as [r w1]; cbn [fst snd] in *. subst r.
    destruct (IH w1) as (evs & Hrun & Htr' & Hlen & Hall).
    exists (post_ev (ModuleParameters.license_url (want w))
                    (ModuleParameters.license_envelope (want w))
                    (fst (answer w)) :: evs).
    repeat split.
    + rewrite Hrun at 1. reflexivity.
    + rewrite Htr', Htr, <- app_assoc. reflexivity.
    + cbn. now rewrite Hlen.
    + exact Hall.
Qed.

(** X9. The rounds that ask for the EULA draw on the same ten attempts as
    the failures: against a service none of whose answers ends the
    negotiation (each POST raises, or brings a document that cannot be read,
    or asks for the EULA) the run makes exactly ten POSTs and nothing else,
    and [create_on_device] raises the error that no licence could be
    generated. *)
Theorem negotiation_gives_up_after_ten_rounds (w : @World Dev Rem) :
  (forall url data s, goes_on int (fst (svc_post url data s)) = true) ->
  let w' := snd (generate_license_from_remote int w) in
  generate_license_from_remote int w = (Ok None, w')
  /\ create_on_device int w
     = (Raise (F5ModuleError
                 (Some "Failed to generate license from F5 activation servers.")),
        w')
  /\ length (new_events w w') = 10
  /\ forallb is_post (new_events w w') = true.
Proof.
  intros Hon. cbv zeta.
  destruct (attempts_go_on Hon 10 w) as (evs & Hrun & Htr & Hlen & Hall).
  unfold generate_license_from_remote.
  rewrite (new_events_log _ _ _ Htr).
  split; [exact Hrun|]. split; [|auto].
  unfold create_on_device, bind, generate_license_from_remote, raise.
  rewrite Hrun. reflexivity.
Qed.

End Rounds.

(** ** Convergence *)

Section Converge.

Context {Dev Rem : Type} `{DeviceGateway Dev} `{ActivationService Rem}.
Variable int : string -> option Z.

(** [exists()] by what the registration read comes to. *)
Lemma exists_unfold (w : @World Dev Rem) :
  exists_ w =
  let r := gw_registration_load (device w) in
  match r with
  | Ok reg => (Ok (registered_as reg (ModuleParameters.license_key (want w))),
               log (registration_load_ev r) w)
  | Raise e => (Raise e, log (registration_load_ev r) w)
  | Pending => (Pending, log (registration_load_ev r) w)
  end.
Proof.
  unfold exists_, bind, tm_shared_licensing_registration_load, get_want, ret.
  cbv zeta. destruct (gw_registration_load (device w)); reflexivity.
Qed.

(** When [create] returns, outside check mode, its last step was a read of
    the registration that reported the requested key. *)
Lemma create_returns (fuel : nat) (w w' : @World Dev Rem) (changed : bool) :
  check_mode w = false ->
  create int fuel w = (Ok changed, w') ->
  changed = true
  /\ exists before reg,
       w' = log (registration_load_ev (Ok reg)) before
       /\ gw_registration_load (device before) = Ok reg
       /\ registered_as reg (ModuleParameters.license_key (want before)) = true.
Proof.
  intros Hcheck Hrun.
  unfold create, bind, _set_changed_options, ret, get_want, get_check_mode in Hrun.
  destruct (negb (ModuleParameters.accept_eula (want w))); [discriminate|].
  rewrite Hcheck in Hrun.
  destruct (read_dossier_from_device w) as [[dossier|e|] wa]; try discriminate.
  destruct (truthy dossier); unfold want_update, raise in Hrun; try discriminate.
  destruct (create_on_device int _) as [[[]|e|] wb]; try discriminate.
  destruct (wait_for_mcpd fuel wb) as [[[]|e|] wc]; try discriminate.
  rewrite exists_unfold in Hrun. cbv zeta in Hrun.
  destruct (gw_registration_load (device wc)) as [reg|e|] eqn:Hload; try discriminate.
  destruct (registered_as reg (ModuleParameters.license_key (want wc))) eqn:Hreg;
    cbn [negb] in Hrun; try discriminate.
  inversion Hrun. split; [reflexivity|]. exists wc, reg. auto.
Qed.

(** X10. [present] is idempotent: once it has installed a licence (outside
    check mode), a second [present] on the world it left, with the same
    request, reads the registration once, finds the requested key and
    returns [False] without calling anything else. *)
Theorem present_twice_changes_nothing (fuel fuel' : nat) (w w' : @World Dev Rem) :
  check_mode w = false ->
  present int fuel w = (Ok true, w') ->
  exists reg,
    present int fuel' w' = (Ok false, log (registration_load_ev (Ok reg)) w')
    /\ registered_as reg (ModuleParameters.license_key (want w')) = true.
Proof.
  intros Hcheck Hrun.
  unfold present, bind in Hrun. rewrite exists_unfold in Hrun. cbv zeta in Hrun.
  destruct (gw_registration_load (device w)) as [reg0|e|]; try discriminate.
  destruct (registered_as reg0 (ModuleParameters.license_key (want w)));
    [unfold ret in Hrun; discriminate|].
  apply create_returns in Hrun; [|exact Hcheck].
  destruct Hrun as (_ & before & reg & -> & Hload & Hreg).
  exists reg. split; [|exact Hreg].
  unfold present, bind. rewrite exists_unfold. cbv zeta.
  cbn [device log want]. rewrite Hload. cbv beta iota. rewrite Hreg. reflexivity.
Qed.

(** X11. In check mode [present] never gets past the read of the
    registration: with the key on the appliance it returns [False], without
    it and with the EULA accepted it returns [True], and in both cases the
    read is the only call. *)
Theorem present_in_check_mode_only_reads (fuel : nat) (w : @World Dev Rem)
  (reg : Registration) :
  check_mode w = true ->
  ModuleParameters.accept_eula (want w) = true ->
  gw_registration_load (device w) = Ok reg ->
  present int fuel w
  = (Ok (negb (registered_as reg (ModuleParameters.license_key (want w)))),
     log (registration_load_ev (Ok reg)) w).
Proof.
  intros Hcheck Haccept Hload.
  unfold present, bind. rewrite exists_unfold, Hload. cbv beta iota zeta.
  destruct (registered_as reg (ModuleParameters.license_key (want w))); [reflexivity|].
  unfold create, bind, _set_changed_options, ret, get_want, get_check_mode.
  cbn [want log check_mode]. rewrite Haccept. cbn [negb want log check_mode].
  rewrite Hcheck. reflexivity.
Qed.

(** X12. Without a dossier nothing is negotiated: when the dossier command
    returns no result or an empty one, [present] raises the module's error
    after the read of the registration and the dossier command, with no
    POST and no command that changes the appliance; when the dossier command
    raises, its exception is the exception of [present]. *)
Theorem present_needs_a_dossier (fuel : nat) (w : @World Dev Rem)
  (reg : Registration) (r : result CmdOutput) (d : Dev) :
  check_mode w = false ->
  ModuleParameters.accept_eula (want w) = true ->
  gw_registration_load (device w) = Ok reg ->
  registered_as reg (ModuleParameters.license_key (want w)) = false ->
  gw_get_dossier ("-b " ++ py_str (ModuleParameters.license_key (want w))) (device w)
  = (r, d) ->
  match r with
  | Ok out => truthy (commandResult out) = false
  | _ => True
  end ->
  let run := present int fuel w in
  fst run = match r with
            | Ok _ => Raise (F5ModuleError (Some "Dossier not generated."))
            | Raise e => Raise e
            | Pending => Pending
            end
  /\ new_events w (snd run)
     = [registration_load_ev (Ok reg);
        get_dossier_ev ("-b " ++ py_str (ModuleParameters.license_key (want w))) r].
Proof.
  intros Hcheck Haccept Hload Hreg Hdossier Hempty. cbv zeta.
  set (w2 := log (get_dossier_ev
                    ("-b " ++ py_str (ModuleParameters.license_key (want w))) r)
                 (with_device d (log (registration_load_ev (Ok reg)) w))).
  assert (Hrun : present int fuel w
                 = (match r with
                    | Ok _ => Raise (F5ModuleError (Some "Dossier not generated."))
                    | Raise e => Raise e
                    | Pending => Pending
                    end, w2)).
  { unfold present, bind at 1. rewrite exists_unfold, Hload. cbv beta iota zeta.
    rewrite Hreg.
    unfold create, bind, _set_changed_options, ret, get_want, get_check_mode.
    cbn [want log check_mode]. rewrite Haccept. cbn [negb want log check_mode].
    rewrite Hcheck.
    unfold read_dossier_from_device, bind, get_want, tm_util_get_dossier_exec_cmd, ret.
    cbn [want log device]. rewrite Hdossier.
    destruct r as [out|e|]; try reflexivity.
    rewrite Hempty. reflexivity. }
  rewrite Hrun. cbn [fst snd]. split; [reflexivity|].
  apply new_events_log. subst w2. cbn [trace log with_device].
  rewrite <- app_assoc. reflexivity.
Qed.

End Converge.

(** ** Installing the licence *)

Section Installing.

Context {Dev Rem : Type} `{DeviceGateway Dev} `{ActivationService Rem}.
Variable int : string -> option Z.

Lemma bash_unfold (args : string) (w : @World Dev Rem) :
  tm_util_bash_exec_cmd args w
  = (fst (gw_bash args (device w)),
     log (bash_ev args (fst (gw_bash args (device w))))
         (with_device (snd (gw_bash args (device w))) w)).
Proof.
  unfold tm_util_bash_exec_cmd. destruct (gw_bash args (device w)); reflexivity.
Qed.

(** X13. With a licence in hand, [create_on_device] writes the licence
    file, then the EULA file, then reloads, each in one [bash] command. The
    first command that does not return ends the run with its own exception
    and nothing after it is issued: what was written before stays written,
    and a failed write is never followed by a reload. *)
Theorem install_stops_at_first_failure (w w1 : @World Dev Rem) (license : Json)
  (license_text eula_text : string) (r1 r2 r3 : result CmdOutput) (d1 d2 d3 : Dev) :
  generate_license_from_remote int w = (Ok (Some license), w1) ->
  json_license license = Some license_text ->
  json_eula license = Some eula_text ->
  let write_license :=
    license_write_command (re_sub_escape escape_patterns license_text) in
  let write_eula := eula_write_command (re_sub_escape escape_patterns eula_text) in
  gw_bash write_license (device w1) = (r1, d1) ->
  gw_bash write_eula d1 = (r2, d2) ->
  gw_bash reload_command d2 = (r3, d3) ->
  let run := create_on_device int w in
  match r1, r2, r3 with
  | Ok _, Ok _, Ok _ =>
      fst run = Ok tt
      /\ new_events w1 (snd run)
         = [bash_ev write_license r1; bash_ev write_eula r2; bash_ev reload_command r3]
  | Ok _, Ok _, _ =>
      fst run = match r3 with Raise e => Raise e | _ => Pending end
      /\ new_events w1 (snd run)
         = [bash_ev write_license r1; bash_ev write_eula r2; bash_ev reload_command r3]
  | Ok _, _, _ =>
      fst run = match r2 with Raise e => Raise e | _ => Pending end
      /\ new_events w1 (snd run) = [bash_ev write_license r1; bash_ev write_eula r2]
  | _, _, _ =>
      fst run = match r1 with Raise e => Raise e | _ => Pending end
      /\ new_events w1 (snd run) = [bash_ev write_license r1]
  end.
Proof.
  intros Hgen Hlic Heula write_license write_eula Hb1 Hb2 Hb3. cbv zeta.
  set (wa := log (bash_ev write_license r1) (with_device d1 w1)).
  set (wb := log (bash_ev write_eula r2) (with_device d2 wa)).
  set (wc := log (bash_ev reload_command r3) (with_device d3 wb)).
  assert (Hnew_a : new_events w1 wa = [bash_ev write_license r1])
    by (apply new_events_log; reflexivity).
  assert (Hnew_b : new_events w1 wb = [bash_ev write_license r1; bash_ev write_eula r2]).
  { apply new_events_log. subst wb wa. cbn [trace log with_device].
    rewrite <- app_assoc. reflexivity. }
  assert (Hnew_c : new_events w1 wc = [bash_ev write_license r1; bash_ev write_eula r2;
                                       bash_ev reload_command r3]).
  { apply new_events_log. subst wc wb wa. cbn [trace log with_device].
    rewrite <- !app_assoc. reflexivity. }
  assert (Hup1 : upload_license_to_device license w1
                 = (match r1 with
                    | Ok _ => Ok true
                    | Raise e => Raise e
                    | Pending => Pending
                    end, wa)).
  { unfold upload_license_to_device. rewrite Hlic. cbv zeta.
    fold (license_write_command (re_sub_escape escape_patterns license_text)).
    fold write_license. unfold bind. rewrite bash_unfold, Hb1.
    destruct r1; reflexivity. }
  assert (Hup2 : upload_eula_to_device license wa
                 = (match r2 with
                    | Ok _ => Ok true
                    | Raise e => Raise e
                    | Pending => Pending
                    end, wb)).
  { unfold upload_eula_to_device. rewrite Heula. cbv zeta.
    fold (eula_write_command (re_sub_escape escape_patterns eula_text)).
    fold write_eula. unfold bind. rewrite bash_unfold.
    change (device wa) with d1. rewrite Hb2. destruct r2; reflexivity. }
  assert (Hup3 : reload_license wb
                 = (match r3 with
                    | Ok _ => Ok true
                    | Raise e => Raise e
                    | Pending => Pending
                    end, wc)).
  { unfold reload_license. cbv zeta. fold reload_command.
    unfold bind. rewrite bash_unfold.
    change (device wb) with d2. rewrite Hb3. destruct r3; reflexivity. }
  assert (Hrun : create_on_device int w
                 = match r1, r2, r3 with
                   | Ok _, Ok _, Ok _ => (Ok tt, wc)
                   | Ok _, Ok _, Raise e => (Raise e, wc)
                   | Ok _, Ok _, Pending => (Pending, wc)
                   | Ok _, Raise e, _ => (Raise e, wb)
                   | Ok _, Pending, _ => (Pending, wb)
                   | Raise e, _, _ => (Raise e, wa)
                   | Pending, _, _ => (Pending, wa)
                   end).
  { unfold create_on_device, bind. rewrite Hgen, Hup1.
    destruct r1 as [o1|e1|]; try reflexivity. cbn [negb]. rewrite Hup2.
    destruct r2 as [o2|e2|]; try reflexivity. cbn [negb]. rewrite Hup3.
    destruct r3 as [o3|e3|]; reflexivity. }
  rewrite Hrun.
  destruct r1 as [o1|e1|]; [| split; [reflexivity | exact Hnew_a] ..].
  destruct r2 as [o2|e2|]; [| split; [reflexivity | exact Hnew_b] ..].
  destruct r3 as [o3|e3|]; split; try reflexivity; exact Hnew_c.
Qed.

(** X14. A licence that came without its text or without its EULA cannot be
    installed: without the licence text [create_on_device] raises
    [TypeError] before any command reaches the appliance; without the EULA
    text it raises [TypeError] after the licence file has been written, and
    no reload is run. *)
Theorem install_needs_both_texts (w w1 : @World Dev Rem) (license : Json) :
  generate_license_from_remote int w = (Ok (Some license), w1) ->
  json_license license = None \/ json_eula license = None ->
  let run := create_on_device int w in
  match json_license license with
  | None => run = (Raise TypeError, w1)
  | Some license_text =>
      let write_license :=
        license_write_command (re_sub_escape escape_patterns license_text) in
      let r1 := fst (gw_bash write_license (device w1)) in
      fst run = match r1 with
                | Ok _ => Raise TypeError
                | Raise e => Raise e
                | Pending => Pending
                end
      /\ new_events w1 (snd run) = [bash_ev write_license r1]
  end.
Proof.
  intros Hgen Hmissing. cbv zeta.
  destruct (json_license license) as [license_text|] eqn:Hlic.
  - destruct Hmissing as [Habs | Heula]; [discriminate|].
    set (write_license :=
           license_write_command (re_sub_escape escape_patterns license_text)).
    set (r1 := fst (gw_bash write_license (device w1))).
    set (wa := log (bash_ev write_license r1)
                   (with_device (snd (gw_bash write_license (device w1))) w1)).
    assert (Hrun : create_on_device int w
                   = (match r1 with
                      | Ok _ => Raise TypeError
                      | Raise e => Raise e
                      | Pending => Pending
                      end, wa)).
    { unfold create_on_device, bind. rewrite Hgen.
      unfold upload_license_to_device. rewrite Hlic. cbv zeta.
      fold (license_write_command (re_sub_escape escape_patterns license_text)).
      fold write_license. unfold bind. rewrite bash_unfold. fold r1. fold wa.
      destruct r1 as [o1|e1|]; try reflexivity.
      unfold ret. cbn [negb]. unfold upload_eula_to_device. rewrite Heula.
      reflexivity. }
    rewrite Hrun. cbn [fst snd]. split; [reflexivity|].
    apply new_events_log. reflexivity.
  - unfold create_on_device, bind. rewrite Hgen.
    unfold upload_license_to_device. rewrite Hlic. reflexivity.
Qed.

End Installing.

(** ** Removal and the wait *)

Lemma same_request_license_key (p p' : ModuleParameters.t) :
  same_request p p' ->
  ModuleParameters.license_key p' = ModuleParameters.license_key p
  /\ ModuleParameters.state p' = ModuleParameters.state p.
Proof.
  intros (e & d & ->). split; reflexivity.
Qed.

Lemma waiting_call_stable (p p' : ModuleParameters.t) (ev : event) :
  same_request p p' -> waiting_call p' ev -> waiting_call p ev.
Proof.
  intros _. destruct ev; cbn [waiting_call]; tauto.
Qed.

Lemma absent_call_stable (p p' : ModuleParameters.t) (ev : event) :
  same_request p p' -> absent_call p' ev -> absent_call p ev.
Proof.
  intros _. destruct ev; cbn [absent_call]; tauto.
Qed.

Section Remove.

Context {Dev Rem : Type} `{DeviceGateway Dev} `{ActivationService Rem}.

Lemma any_license_exists_unfold (w : @World Dev Rem) :
  any_license_exists w =
  let r := gw_registration_load (device w) in
  match r with
  | Ok reg => (Ok match registrationKey reg with
                  | Some (Some _) => true
                  | _ => false
                  end,
               log (registration_load_ev r) w)
  | Raise e => (Raise e, log (registration_load_ev r) w)
  | Pending => (Pending, log (registration_load_ev r) w)
  end.
Proof.
  unfold any_license_exists, bind, tm_shared_licensing_registration_load, ret.
  cbv zeta. destruct (gw_registration_load (device w)); reflexivity.
Qed.

(** X15. The removal is checked at once, before the appliance is given time
    to settle: when both files are removed (or were not there), the reload
    returns, and the registration read right after it still reports the
    requested key, [absent] raises that the resource could not be deleted.
    No sleep and no readiness check precede that error. *)
Theorem removal_is_checked_before_the_wait (fuel : nat) (w : @World Dev Rem)
  (reg reg' : Registration) (key : string)
  (r1 r2 : result CmdOutput) (out : CmdOutput) (d1 d2 d3 : Dev) :
  check_mode w = false ->
  gw_registration_load (device w) = Ok reg ->
  registrationKey reg = Some (Some key) ->
  gw_unix_rm "/config/bigip.license" (device w) = (r1, d1) ->
  gw_unix_rm "/LICENSE.F5" d1 = (r2, d2) ->
  gw_bash reload_command d2 = (Ok out, d3) ->
  removed r1 = true ->
  removed r2 = true ->
  gw_registration_load d3 = Ok reg' ->
  registered_as reg' (ModuleParameters.license_key (want w)) = true ->
  let run := absent fuel w in
  fst run = Raise (F5ModuleError (Some "Failed to delete the resource."))
  /\ new_events w (snd run)
     = [registration_load_ev (Ok reg);
        unix_rm_ev "/config/bigip.license" r1;
        unix_rm_ev "/LICENSE.F5" r2;
        bash_ev reload_command (Ok out);
        registration_load_ev (Ok reg')].
Proof.
  intros Hcheck Hload Hkey Hrm1 Hrm2 Hbash Hok1 Hok2 Hload' Hreg. cbv zeta.
  set (w0 := log (registration_load_ev (Ok reg)) w).
  set (w1 := log (unix_rm_ev "/config/bigip.license" r1) (with_device d1 w0)).
  set (w2 := log (unix_rm_ev "/LICENSE.F5" r2) (with_device d2 w1)).
  set (w3 := log (bash_ev reload_command (Ok out)) (with_device d3 w2)).
  set (w4 := log (registration_load_ev (Ok reg')) w3).
  assert (Hrem : remove_from_device w0 = (Ok tt, w3)).
  { assert (Hrm1' : gw_unix_rm "/config/bigip.license" (device w0) = (r1, d1))
      by exact Hrm1.
    rewrite (remove_from_device_unfold w0 Hrm1' Hrm2 Hbash). cbv zeta.
    destruct r1 as [o1|e1|]; cbn [removed] in Hok1; try discriminate;
      try rewrite Hok1;
      (destruct r2 as [o2|e2|]; cbn [removed] in Hok2; try discriminate;
       try rewrite Hok2; reflexivity). }
  assert (Hrun : absent fuel w
                 = (Raise (F5ModuleError (Some "Failed to delete the resource.")), w4)).
  { unfold absent. unfold bind at 1. rewrite any_license_exists_unfold, Hload.
    cbv beta iota zeta. rewrite Hkey. fold w0.
    unfold bind at 1. unfold remove. unfold bind at 1. unfold get_check_mode.
    change (check_mode w0) with (check_mode w). rewrite Hcheck.
    unfold bind at 1. rewrite Hrem. unfold bind at 1. rewrite exists_unfold.
    change (device w3) with d3. rewrite Hload'. cbv beta iota zeta.
    change (want w3) with (want w). rewrite Hreg. reflexivity. }
  rewrite Hrun. cbn [fst snd]. split; [reflexivity|].
  apply new_events_log. subst w4 w3 w2 w1 w0. cbn [trace log with_device].
  rewrite <- !app_assoc. reflexivity.
Qed.

(** In check mode, with a licence on the appliance, [absent] is the wait and
    the check of the registration: the removal is left out. *)
Lemma absent_check_mode_unfold (fuel : nat) (w : @World Dev Rem)
  (reg : Registration) (key : string) :
  check_mode w = true ->
  gw_registration_load (device w) = Ok reg ->
  registrationKey reg = Some (Some key) ->
  absent fuel w
  = (wait_for_mcpd fuel ;;
     found <- exists_ ;;
     if found then
       raise (F5ModuleError (Some "Failed to remove the license from the device."))
     else ret true) (log (registration_load_ev (Ok reg)) w).
Proof.
  intros Hcheck Hload Hkey.
  unfold absent. unfold bind at 1. rewrite any_license_exists_unfold, Hload.
  cbv beta iota zeta. rewrite Hkey.
  unfold bind at 1. unfold remove. unfold bind at 1. unfold get_check_mode.
  cbn [check_mode log]. rewrite Hcheck. reflexivity.
Qed.

(** X16. In check mode [absent] removes nothing, yet it is no dry run: with
    a licence on the appliance it still sleeps, polls the readiness of the
    appliance and reads the registration again, and nothing else. When the
    wait ends and the registration still reports the requested key, as it
    must when nothing was removed, [absent] raises that the licence could not
    be removed; it returns [True] only when the key on the appliance is not
    the requested one. *)
Theorem absent_in_check_mode_still_waits (fuel : nat) (w : @World Dev Rem)
  (reg reg' : Registration) (key : string) :
  check_mode w = true ->
  gw_registration_load (device w) = Ok reg ->
  registrationKey reg = Some (Some key) ->
  let w0 := log (registration_load_ev (Ok reg)) w in
  let waited := wait_for_mcpd fuel w0 in
  fst waited = Ok tt ->
  gw_registration_load (device (snd waited)) = Ok reg' ->
  let run := absent fuel w in
  fst run
  = (if registered_as reg' (ModuleParameters.license_key (want w))
     then Raise (F5ModuleError (Some "Failed to remove the license from the device."))
     else Ok true)
  /\ Forall (waiting_call (want w)) (new_events w (snd run))
  /\ 4 <= length (filter (fun ev => match ev with bash_ev _ _ => true | _ => false end)
                         (new_events w (snd run))).
Proof.
  intros Hcheck Hload Hkey. cbv zeta.
  set (w0 := log (registration_load_ev (Ok reg)) w).
  pose proof (@respects_wait_for_mcpd Dev Rem _ waiting_call waiting_call_stable)
    as Hresp.
  destruct (Hresp ltac:(reflexivity) ltac:(reflexivity) fuel w0)
    as (Hreq & _ & evs & Htr & Hall).
  destruct (same_request_license_key Hreq) as [Hkey' _].
  pose proof (wait_for_mcpd_spec fuel w0) as Hspec. cbv zeta in Hspec.
  destruct Hspec as (_ & _ & Hend).
  destruct (wait_for_mcpd fuel w0) as [r w1] eqn:Hwaited. cbn [fst snd] in *.
  intros -> Hload'.
  assert (Hnew : new_events w (log (registration_load_ev (Ok reg')) w1)
                 = (registration_load_ev (Ok reg) :: evs
                    ++ [registration_load_ev (Ok reg')])%list).
  { apply new_events_log. cbn [trace log]. rewrite Htr. subst w0. cbn [trace log].
    rewrite <- !app_assoc. reflexivity. }
  assert (Hrun : absent fuel w
                 = (if registered_as reg' (ModuleParameters.license_key (want w))
                    then Raise (F5ModuleError
                                  (Some "Failed to remove the license from the device."))
                    else Ok true,
                    log (registration_load_ev (Ok reg')) w1)).
  { rewrite (absent_check_mode_unfold fuel w Hcheck Hload Hkey). fold w0.
    unfold bind at 1. rewrite Hwaited.
    unfold bind at 1. rewrite exists_unfold, Hload'. cbv beta iota zeta.
    rewrite Hkey'. change (want w0) with (want w).
    destruct (registered_as reg' _); reflexivity. }
  rewrite Hrun. cbn [fst snd]. rewrite Hnew.
  split; [reflexivity|]. split.
  - constructor; [exact I|]. apply Forall_app. split; [exact Hall|].
    constructor; [exact I | constructor].
  - assert (Hevs : new_events w0 w1 = evs) by (apply new_events_log; exact Htr).
    rewrite Hevs in Hend.
    assert (Hsig : forall l, length (signals l)
                   = length (filter (fun ev => match ev with
                                               | bash_ev _ _ => true
                                               | _ => false
                                               end) l)).
    { induction l as [|ev l IH]; [reflexivity|]. destruct ev; cbn; auto. }
    assert (Hlen : 4 <= length (signals evs)).
    { unfold trailing_oks in Hend.
      assert (Hle : forall l, leading_oks l <= length l).
      { induction l as [|[] l IH]; cbn; lia. }
      pose proof (Hle (rev (signals evs))) as Hl. rewrite length_rev in Hl. lia. }
    cbn [filter]. rewrite filter_app, length_app, <- Hsig. lia.
Qed.

End Remove.

(** ** What a result of [absent] stands for *)

Section Verdict.

Context {Dev Rem : Type} `{DeviceGateway Dev} `{ActivationService Rem}.
Variable int : string -> option Z.

(** X17. What [absent] reports rests on two different readings of the
    registration. It returns [False] only straight after a first read that
    shows no key at all. It returns [True] only straight after a last read
    that shows a key other than the requested one, or none: the licence key
    of the request decides, not the absence of a key, so that with no licence
    key in the request any key left on the appliance passes. *)
Theorem absent_result_rests_on_the_key (fuel : nat) (w w' : @World Dev Rem)
  (changed : bool) :
  absent fuel w = (Ok changed, w') ->
  if changed then
    exists before reg,
      w' = log (registration_load_ev (Ok reg)) before
      /\ gw_registration_load (device before) = Ok reg
      /\ registered_as reg (ModuleParameters.license_key (want w)) = false
  else
    exists reg,
      w' = log (registration_load_ev (Ok reg)) w
      /\ gw_registration_load (device w) = Ok reg
      /\ (registrationKey reg = None \/ registrationKey reg = Some None).
Proof.
  intros Hrun.
  pose proof (@respects_absent Dev Rem _ absent_call absent_call_stable) as Hresp.
  unfold absent in Hrun. unfold bind at 1 in Hrun.
  rewrite any_license_exists_unfold in Hrun. cbv zeta in Hrun.
  destruct (gw_registration_load (device w)) as [reg|e|] eqn:Hload; try discriminate.
  set (w0 := log (registration_load_ev (Ok reg)) w) in *.
  destruct (registrationKey reg) as [[key|]|] eqn:Hkey.
  - unfold bind at 1 in Hrun.
    pose proof (@respects_remove Dev Rem _ absent_call absent_call_stable) as Hrem.
    specialize (Hrem ltac:(intros; exact I) ltac:(intros; cbn; auto)
                     ltac:(intros; cbn; auto) ltac:(intros; cbn; auto) w0).
    destruct (remove w0) as [[b|e|] w1]; try discriminate. cbn [snd] in Hrem.
    unfold bind at 1 in Hrun.
    pose proof (@respects_wait_for_mcpd Dev Rem _ absent_call absent_call_stable) as Hwt.
    specialize (Hwt ltac:(intros; cbn; auto) ltac:(intros; cbn; auto) fuel w1).
    destruct (wait_for_mcpd fuel w1) as [[[]|e|] w2]; try discriminate. cbn [snd] in Hwt.
    unfold bind in Hrun. rewrite exists_unfold in Hrun. cbv zeta in Hrun.
    destruct (gw_registration_load (device w2)) as [reg'|e|] eqn:Hload'; try discriminate.
    destruct (registered_as reg' (ModuleParameters.license_key (want w2))) eqn:Hreg;
      unfold raise, ret in Hrun; inversion Hrun; subst.
    exists w2, reg'. repeat split; [exact Hload'|].
    destruct Hrem as (Hreq1 & _). destruct Hwt as (Hreq2 & _).
    destruct (same_request_license_key Hreq1) as [Hk1 _].
    destruct (same_request_license_key Hreq2) as [Hk2 _].
    change (want w0) with (want w) in Hk1. rewrite <- Hk1, <- Hk2. exact Hreg.
  - unfold ret in Hrun. inversion Hrun; subst. exists reg. auto.
  - unfold ret in Hrun. inversion Hrun; subst. exists reg. auto.
Qed.

End Verdict.

(** ** The timing of the wait *)

Lemma slept_checks (rs : list (result CmdOutput)) : slept (checks rs) = 5 * length rs.
Proof.
  induction rs as [|r rs IH]; [reflexivity|].
  cbn [checks flat_map app slept fold_right length] in *.
  unfold slept, checks in IH. rewrite IH. lia.
Qed.

Section Timing.

Context {Dev Rem : Type} `{DeviceGateway Dev} `{ActivationService Rem}.

Lemma wait_for_mcpd_loop_checks (fuel : nat) :
  forall (nops : nat) (w w' : @World Dev Rem),
  wait_for_mcpd_loop fuel nops w = (Ok tt, w') ->
  exists rs, trace w' = (trace w ++ checks rs)%list
             /\ 4 <= nops + length rs
             /\ length rs <= fuel.
Proof.
  induction fuel as [|fuel IH]; intros nops w w' Hrun;
    destruct (Nat.lt_ge_cases nops 4) as [Hlt|Hge].
  - cbn [wait_for_mcpd_loop] in Hrun. apply Nat.ltb_lt in Hlt. rewrite Hlt in Hrun.
    discriminate.
  - rewrite wait_for_mcpd_loop_done in Hrun by exact Hge. inversion Hrun; subst.
    exists []. cbn. rewrite app_nil_r. repeat split; lia.
  - rewrite wait_for_mcpd_loop_step in Hrun by exact Hlt. cbv zeta in Hrun.
    set (r := fst (gw_bash mcp_state_query (device w))) in *.
    assert (Hnext : forall nops',
               nops' <= nops + 1 ->
               wait_for_mcpd_loop fuel nops'
                 (log (sleep_ev 5)
                    (log (bash_ev mcp_state_query r)
                       (with_device (snd (gw_bash mcp_state_query (device w))) w)))
               = (Ok tt, w') ->
               exists rs, trace w' = (trace w ++ checks rs)%list
                          /\ 4 <= nops + length rs /\ length rs <= S fuel).
    { intros nops' Hle Hloop. destruct (IH _ _ _ Hloop) as (rs & Htr & Hfour & Hlen).
      exists (r :: rs). repeat split.
      - rewrite Htr. cbn [trace log with_device checks flat_map app].
        rewrite <- !app_assoc. reflexivity.
      - cbn [length]. lia.
      - cbn [length]. lia. }
    destruct r as [out|e|]; try discriminate.
    + eapply Hnext; [|exact Hrun]. destruct (check_signal (Ok out)); lia.
    + eapply Hnext; [|exact Hrun]. cbn. lia.
  - rewrite wait_for_mcpd_loop_done in Hrun by exact Hge. inversion Hrun; subst.
    exists []. cbn. rewrite app_nil_r. repeat split; lia.
Qed.

(** X18. When [wait_for_mcpd] returns, it has slept five seconds, then
    asked for readiness at least four times with a sleep of five seconds
    after every check, the last one included, and called nothing else: with
    [n] checks it has slept [5 * (n + 1)] seconds, at least twenty-five. *)
Theorem wait_for_mcpd_takes_its_time (fuel : nat) (w w' : @World Dev Rem) :
  wait_for_mcpd fuel w = (Ok tt, w') ->
  exists rs,
    new_events w w' = sleep_ev 5 :: checks rs
    /\ 4 <= length rs
    /\ slept (new_events w w') = 5 * (length rs + 1).
Proof.
  unfold wait_for_mcpd, bind, time_sleep. intros Hrun.
  destruct (wait_for_mcpd_loop_checks _ _ _ Hrun) as (rs & Htr & Hfour & _).
  exists rs.
  assert (Hnew : new_events w w' = sleep_ev 5 :: checks rs).
  { apply new_events_log. rewrite Htr. cbn [trace log]. rewrite <- app_assoc.
    reflexivity. }
  rewrite Hnew. repeat split; [lia|].
  change (slept (sleep_ev 5 :: checks rs)) with (5 + slept (checks rs)).
  rewrite slept_checks. lia.
Qed.

End Timing.

(** ** The module as a whole *)

Lemma license_envelope_state (p : ModuleParameters.t) :
  ModuleParameters.license_envelope p
  = envelope_before_state p
    ++ state_open ++ or_empty (ModuleParameters.state p) ++ state_close
    ++ envelope_after_state p.
Proof.
  unfold ModuleParameters.license_envelope, envelope_before_state, envelope_after_state,
    format, state_open, state_close, nl.
  cbn -[py_str or_empty].
  repeat (rewrite !append_assoc_s; cbn -[py_str or_empty]).
  reflexivity.
Qed.

Section Whole.

Context {Dev Rem : Type} `{DeviceGateway Dev} `{ActivationService Rem}.
Variable int : string -> option Z.

Lemma exec_module_unfold (fuel : nat) (w : @World Dev Rem) :
  exec_module int fuel w
  = match fst (dispatched int fuel w) with
    | Raise (iControlUnexpectedHTTPError msg) =>
        (Raise (F5ModuleError (Some msg)), snd (dispatched int fuel w))
    | _ => dispatched int fuel w
    end.
Proof.
  unfold exec_module, dispatched, bind, get_want, try_except, raise, ret.
  destruct (py_eq (ModuleParameters.state (want w)) (Some "present")).
  - destruct (present int fuel w) as [[b|[]|] w']; reflexivity.
  - destruct (py_eq (ModuleParameters.state (want w)) (Some "absent")); [|reflexivity].
    destruct (absent fuel w) as [[b|[]|] w']; reflexivity.
Qed.

(** X19. [exec_module] runs [present] for the state present, [absent] for
    the state absent, and for any other state calls nothing and reports no
    change. It never raises the HTTP error of the REST client: such an
    error of [present] or [absent] comes out as the module's error with the
    same text, and every other outcome comes out as it is. *)
Theorem exec_module_hides_http_errors (fuel : nat) (w : @World Dev Rem) :
  let inner := dispatched int fuel w in
  let run := exec_module int fuel w in
  snd run = snd inner
  /\ (forall msg, fst run <> Raise (iControlUnexpectedHTTPError msg))
  /\ (forall msg, fst inner = Raise (iControlUnexpectedHTTPError msg) ->
                  fst run = Raise (F5ModuleError (Some msg)))
  /\ ((forall msg, fst inner <> Raise (iControlUnexpectedHTTPError msg)) ->
      fst run = fst inner).
Proof.
  cbv zeta. rewrite exec_module_unfold.
  destruct (dispatched int fuel w) as [[b|e|] w']; cbn [fst snd].
  - repeat split; try discriminate.
  - destruct e; cbn [fst snd]; repeat split; try discriminate;
      try (intros m Hm; inversion Hm; reflexivity).
    intros Hnot. exfalso. apply (Hnot msg). reflexivity.
  - repeat split; try discriminate.
Qed.

(** X20. The state option of the module travels in the licence request: in
    a run of [exec_module] for the state present, the envelope of every POST
    has the word present in its province element. *)
Theorem requests_carry_the_module_state (fuel : nat) (w : @World Dev Rem) :
  ModuleParameters.state (want w) = Some "present" ->
  Forall (province_is "present") (new_events w (snd (exec_module int fuel w))).
Proof.
  intros Hstate.
  assert (Hsnd : snd (exec_module int fuel w) = snd (present int fuel w)).
  { rewrite exec_module_unfold. unfold dispatched. rewrite Hstate.
    cbn [py_eq String.eqb Ascii.eqb Bool.eqb].
    destruct (present int fuel w) as [[b|[]|] w']; reflexivity. }
  rewrite Hsnd.
  destruct (@respects_present Dev Rem _ _ int present_call present_call_stable)
    with (fuel := fuel) (w := w) as (_ & _ & evs & Htr & Hall);
    try (intros; cbn [present_call]; eauto 6; fail).
  rewrite (new_events_log _ _ _ Htr).
  eapply Forall_impl; [|exact Hall].
  intros [r|args r|args r|args r|url data r|seconds]; cbn [present_call province_is]; auto.
  intros [_ (e & d & ->)]. rewrite license_envelope_state.
  change (ModuleParameters.state
            (ModuleParameters.update_dossier d
               (ModuleParameters.update_eula e (want w))))
    with (ModuleParameters.state (want w)).
  rewrite Hstate. cbn [or_empty]. eauto.
Qed.

End Whole.

(** ** The further properties on the scenarios *)

(** X3 on a fault whose text is marked nil: the text the element holds
    does not reach the dictionary. *)
Lemma json_coalesces_empty_text_witness :
  let result := {| json_eula := None; json_license := None; json_state := None;
                   json_fault_number := Some 51092%Z; json_fault_text := None |} in
  json Mock.int Scenario.nil_fault = Ok result
  /\ (forall s, json_eula result = Some s
                <-> eula Scenario.nil_fault = Some s /\ s <> EmptyString)
  /\ (forall s, json_license result = Some s
                <-> license Scenario.nil_fault = Some s /\ s <> EmptyString)
  /\ (forall s, json_state result = Some s
                <-> state Scenario.nil_fault = Some s /\ s <> EmptyString)
  /\ (forall s, json_fault_text result = Some s
                <-> exists root elem,
                      find_element Scenario.nil_fault "LicensingFault" = Some root
                      /\ last_child "faultText" (children root) = Some elem
                      /\ is_nil elem = false
                      /\ text elem = Some s /\ s <> EmptyString)
  /\ (find_element Scenario.nil_fault "LicensingFault" = None ->
      json_fault_number result = None /\ json_fault_text result = None).
Proof.
  cbv zeta. split; [reflexivity|].
  apply (json_coalesces_empty_text Mock.int Scenario.nil_fault). reflexivity.
Defined.

(** X4 on a fault that says everything twice. *)
Lemma fault_reads_last_children_witness :
  let result := {| json_eula := None; json_license := None; json_state := None;
                   json_fault_number := Some 51092%Z;
                   json_fault_text := Some "second" |} in
  find_element Trial.repeated_fault "LicensingFault" = Some Trial.said_twice
  /\ json Mock.int Trial.repeated_fault = Ok result
  /\ json_fault_text result = Some "second"
  /\ exists n, int_text Mock.int (Some "51092") = Ok n
               /\ json_fault_number result = Some n.
Proof.
  cbv zeta. split; [reflexivity|]. split; [reflexivity|].
  exact (fault_reads_last_children Mock.int Trial.repeated_fault
           (root := Trial.said_twice) eq_refl eq_refl).
Defined.

(** X8 on a service that asks for an e-mail address first and would return
    the licence next. *)
Lemma contact_requests_abort_witness :
  attempts Mock.int 10 Trial.asks_for_email
  = (Raise (F5ModuleError (Some "Email must be provided")),
     posted Trial.asks_for_email (Ok (WellFormed Trial.email_required))
            [Ok (WellFormed Scenario.license_returned)])
  /\ new_events Trial.asks_for_email
                (posted Trial.asks_for_email (Ok (WellFormed Trial.email_required))
                        [Ok (WellFormed Scenario.license_returned)])
     = [post_ev (ModuleParameters.license_url Scenario.request)
                (ModuleParameters.license_envelope Scenario.request)
                (Ok (WellFormed Trial.email_required))].
Proof.
  exact (contact_requests_abort Mock.int 9 Trial.asks_for_email
           (t := Trial.email_required)
           (result := {| json_eula := None; json_license := None;
                         json_state := Some "EMAIL_REQUIRED";
                         json_fault_number := None; json_fault_text := None |})
           (s := [Ok (WellFormed Scenario.license_returned)])
           eq_refl eq_refl (or_introl eq_refl)).
Defined.

(** X9 against a service that asks for the EULA whatever it is sent. *)
Lemma negotiation_gives_up_after_ten_rounds_witness :
  exists w',
    generate_license_from_remote Mock.int Trial.never_done = (Ok None, w')
    /\ create_on_device Mock.int Trial.never_done
       = (Raise (F5ModuleError
                   (Some "Failed to generate license from F5 activation servers.")),
          w')
    /\ length (new_events Trial.never_done w') = 10
    /\ forallb is_post (new_events Trial.never_done w') = true.
Proof.
  exists (snd (generate_license_from_remote Mock.int Trial.never_done)).
  apply (negotiation_gives_up_after_ten_rounds Mock.int Trial.never_done).
  intros url data s. reflexivity.
Defined.

(** X10 on an appliance that takes the key at the reload. *)
Lemma present_twice_changes_nothing_witness :
  let w' := snd (present Mock.int 10 Trial.activation) in
  present Mock.int 10 Trial.activation = (Ok true, w')
  /\ exists reg,
       present Mock.int 0 w' = (Ok false, log (registration_load_ev (Ok reg)) w')
       /\ registered_as reg (ModuleParameters.license_key (want w')) = true.
Proof.
  cbv zeta. split; [vm_compute; reflexivity|].
  apply (present_twice_changes_nothing Mock.int 10 0 Trial.activation);
    [reflexivity | vm_compute; reflexivity].
Defined.

(** X11 on an appliance without a licence. *)
Lemma present_in_check_mode_only_reads_witness :
  present Mock.int 0 (Trial.dry Scenario.eula_then_license)
  = (Ok true,
     log (registration_load_ev (Ok {| registrationKey := None |}))
         (Trial.dry Scenario.eula_then_license)).
Proof.
  exact (present_in_check_mode_only_reads Mock.int 0 (Trial.dry Scenario.eula_then_license)
           (reg := {| registrationKey := None |}) eq_refl eq_refl eq_refl).
Defined.

(** X12 on an appliance whose dossier command prints nothing. *)
Lemma present_needs_a_dossier_witness :
  fst (present Mock.int 0 Trial.no_dossier)
  = Raise (F5ModuleError (Some "Dossier not generated."))
  /\ new_events Trial.no_dossier (snd (present Mock.int 0 Trial.no_dossier))
     = [registration_load_ev (Ok {| registrationKey := None |});
        get_dossier_ev "-b XXXXX-XXXXX" (Ok Mock.no_output)].
Proof.
  exact (present_needs_a_dossier Mock.int 0 Trial.no_dossier
           (reg := {| registrationKey := None |}) (r := Ok Mock.no_output)
           (d := Trial.mute) eq_refl eq_refl eq_refl eq_refl eq_refl eq_refl).
Defined.

(** X13 on an appliance that takes the licence file and fails on the EULA
    file: the write of the licence stays, no reload follows. *)
Lemma install_stops_at_first_failure_witness :
  let w1 := snd (generate_license_from_remote Mock.int Trial.half_written) in
  let run := create_on_device Mock.int Trial.half_written in
  fst run = Raise (UtilError "/LICENSE.F5: Read-only file system")
  /\ new_events w1 (snd run)
     = [bash_ev (license_write_command
                   (re_sub_escape escape_patterns "Licensed date : 20190101"))
                (Ok Mock.no_output);
        bash_ev (eula_write_command
                   (re_sub_escape escape_patterns "END USER LICENSE AGREEMENT"))
                (Raise (UtilError "/LICENSE.F5: Read-only file system"))].
Proof.
  cbv zeta.
  pose (w1 := snd (generate_license_from_remote Mock.int Trial.half_written)).
  pose (d1 := snd (gw_bash (license_write_command
                              (re_sub_escape escape_patterns "Licensed date : 20190101"))
                           (device w1))).
  pose (d2 := snd (gw_bash (eula_write_command
                              (re_sub_escape escape_patterns "END USER LICENSE AGREEMENT"))
                           d1)).
  refine (install_stops_at_first_failure Mock.int Trial.half_written
            (w1 := w1)
            (license := {| json_eula := Some "END USER LICENSE AGREEMENT";
                           json_license := Some "Licensed date : 20190101";
                           json_state := Some "LICENSE_RETURNED";
                           json_fault_number := None; json_fault_text := None |})
            (license_text := "Licensed date : 20190101")
            (eula_text := "END USER LICENSE AGREEMENT")
            (r1 := Ok Mock.no_output)
            (r2 := Raise (UtilError "/LICENSE.F5: Read-only file system"))
            (r3 := Ok Mock.no_output)
            (d1 := d1) (d2 := d2) (d3 := d2) _ eq_refl eq_refl _ _ _);
    vm_compute; reflexivity.
Defined.

(** X14 on a licence that came without its EULA. *)
Lemma install_needs_both_texts_witness :
  let w1 := snd (generate_license_from_remote Mock.int Trial.bare_license) in
  let run := create_on_device Mock.int Trial.bare_license in
  fst run = Raise TypeError
  /\ new_events w1 (snd run)
     = [bash_ev (license_write_command
                   (re_sub_escape escape_patterns "Licensed date : 20190101"))
                (Ok Mock.no_output)].
Proof.
  cbv zeta.
  refine (install_needs_both_texts Mock.int Trial.bare_license
            (w1 := snd (generate_license_from_remote Mock.int Trial.bare_license))
            (license := {| json_eula := None;
                           json_license := Some "Licensed date : 20190101";
                           json_state := Some "LICENSE_RETURNED";
                           json_fault_number := None; json_fault_text := None |})
            _ (or_intror eq_refl)).
  vm_compute; reflexivity.
Defined.

(** X15 on an appliance that keeps its key through the reload. *)
Lemma removal_is_checked_before_the_wait_witness :
  fst (absent 0 Trial.keeps_the_key)
  = Raise (F5ModuleError (Some "Failed to delete the resource."))
  /\ new_events Trial.keeps_the_key (snd (absent 0 Trial.keeps_the_key))
     = [registration_load_ev (Ok {| registrationKey := Some (Some "XXXXX-XXXXX") |});
        unix_rm_ev "/config/bigip.license" (Ok Mock.no_output);
        unix_rm_ev "/LICENSE.F5" (Ok Mock.no_output);
        bash_ev reload_command (Ok Mock.no_output);
        registration_load_ev (Ok {| registrationKey := Some (Some "XXXXX-XXXXX") |})].
Proof.
  pose (d1 := snd (gw_unix_rm "/config/bigip.license" (device Trial.keeps_the_key))).
  pose (d2 := snd (gw_unix_rm "/LICENSE.F5" d1)).
  pose (d3 := snd (gw_bash reload_command d2)).
  exact (removal_is_checked_before_the_wait 0 Trial.keeps_the_key
           (reg := {| registrationKey := Some (Some "XXXXX-XXXXX") |})
           (reg' := {| registrationKey := Some (Some "XXXXX-XXXXX") |})
           (key := "XXXXX-XXXXX")
           (r1 := Ok Mock.no_output) (r2 := Ok Mock.no_output) (out := Mock.no_output)
           (d1 := d1) (d2 := d2) (d3 := d3)
           eq_refl eq_refl eq_refl eq_refl eq_refl eq_refl eq_refl eq_refl eq_refl eq_refl).
Defined.

(** X16 on a licensed appliance, in check mode. *)
Lemma absent_in_check_mode_still_waits_witness :
  let w := Trial.dry_removal in
  let run := absent 10 w in
  fst run = Raise (F5ModuleError (Some "Failed to remove the license from the device."))
  /\ Forall (waiting_call (want w)) (new_events w (snd run))
  /\ 4 <= length (filter (fun ev => match ev with bash_ev _ _ => true | _ => false end)
                         (new_events w (snd run))).
Proof.
  cbv zeta.
  refine (absent_in_check_mode_still_waits 10 Trial.dry_removal
            (reg := {| registrationKey := Some (Some "XXXXX-XXXXX") |})
            (reg' := {| registrationKey := Some (Some "XXXXX-XXXXX") |})
            (key := "XXXXX-XXXXX") eq_refl eq_refl eq_refl _ _);
    vm_compute; reflexivity.
Defined.

(** X17 on the removal of a licence whose key the request does not name. *)
Lemma absent_result_rests_on_the_key_witness :
  let w' := snd (absent 10 Trial.retirement) in
  absent 10 Trial.retirement = (Ok true, w')
  /\ exists before reg,
       w' = log (registration_load_ev (Ok reg)) before
       /\ gw_registration_load (device before) = Ok reg
       /\ registered_as reg (ModuleParameters.license_key (want Trial.retirement)) = false.
Proof.
  cbv zeta. split; [vm_compute; reflexivity|].
  refine (absent_result_rests_on_the_key 10 Trial.retirement (changed := true) _).
  vm_compute; reflexivity.
Defined.

(** X18 on an appliance whose readiness flaps. *)
Lemma wait_for_mcpd_takes_its_time_witness :
  let w' := snd (wait_for_mcpd 10 Trial.flapping) in
  wait_for_mcpd 10 Trial.flapping = (Ok tt, w')
  /\ exists rs,
       new_events Trial.flapping w' = sleep_ev 5 :: checks rs
       /\ 4 <= length rs
       /\ slept (new_events Trial.flapping w') = 5 * (length rs + 1).
Proof.
  cbv zeta. split; [vm_compute; reflexivity|].
  apply (wait_for_mcpd_takes_its_time 10 Trial.flapping). vm_compute; reflexivity.
Defined.

(** X20 on the run that returns the licence in the second round. *)
Lemma requests_carry_the_module_state_witness :
  Forall (province_is "present")
         (new_events Scenario.eula_then_license
                     (snd (exec_module Mock.int 10 Scenario.eula_then_license))).
Proof.
  exact (requests_carry_the_module_state Mock.int 10 Scenario.eula_then_license eq_refl).
Defined.
